(** * Medical-Imaging-Agent: the upload normaliser and the analysis step of [app.py]

    A shallow embedding of [src/app.py]: the DICOM rescale ([process_dicom]),
    the format dispatch ([process_uploaded_file]), the resizing step, the
    analysis step with its temporary file, and the [analyze_clicked] flag of
    the Streamlit session.

    Python and NumPy compute the rescale and the aspect ratio in IEEE 754
    binary64.  The embedding uses the Standard Library's executable
    specification of that format ([SpecFloat], round to nearest even), so the
    arithmetic below is bit for bit the arithmetic of the program. *)

From Stdlib Require Import ZArith List Bool Lia Ascii String.
From Stdlib Require Import SpecFloat.
From stdpp Require Import base option strings gmap.

Local Open Scope string_scope.
Local Open Scope Z_scope.

(** ** IEEE 754 binary64 *)

Module F64.

Definition prec : Z := 53.
Definition emax : Z := 1024.

Definition float : Type := spec_float.

(** The conversion of an integer: exact below [2^53], rounded above. *)
Definition of_Z (z : Z) : float := binary_normalize prec emax z 0 false.

Definition div : float -> float -> float := SFdiv prec emax.
Definition mul : float -> float -> float := SFmul prec emax.

Definition one : float := S754_finite false 4503599627370496 (-52).

Definition is_zero (x : float) : bool :=
  match x with S754_zero _ => true | _ => false end.

(** A mantissa of exactly 53 digits, as every normal float has. *)
Definition normal (m : positive) : Prop := 2 ^ 52 <= Zpos m < 2 ^ 53.

(** The integer part of the magnitude [m * 2^e]. *)
Definition magnitude_trunc (m : positive) (e : Z) : Z :=
  match e with
  | Zneg k => Z.shiftr (Zpos m) (Zpos k)
  | _ => Z.shiftl (Zpos m) e
  end.

(** Truncation toward zero; undefined on NaN and the infinities. *)
Definition trunc (x : float) : option Z :=
  match x with
  | S754_zero _ => Some 0
  | S754_finite s m e =>
      Some (if s then - magnitude_trunc m e else magnitude_trunc m e)
  | S754_infinity _ | S754_nan => None
  end.

(** Rounding to the nearest integer, ties to even (Python's [round]). *)
Definition magnitude_round (m : positive) (e : Z) : Z :=
  match e with
  | Zneg k =>
      let q := Z.shiftr (Zpos m) (Zpos k) in
      let r := Zpos m - Z.shiftl q (Zpos k) in
      match (2 * r ?= Z.shiftl 1 (Zpos k)) with
      | Lt => q
      | Gt => q + 1
      | Eq => if Z.even q then q else q + 1
      end
  | _ => Z.shiftl (Zpos m) e
  end.

Definition round_half_even (x : float) : option Z :=
  match x with
  | S754_zero _ => Some 0
  | S754_finite s m e =>
      Some (if s then - magnitude_round m e else magnitude_round m e)
  | S754_infinity _ | S754_nan => None
  end.

End F64.

(** ** Python values: exceptions, results, strings *)

(** The exception classes the program can meet.  [PlainException] is the
    class of [raise Exception(...)]. *)
Inductive exn_class : Type :=
  | ZeroDivisionError | ValueError | OverflowError | TypeError | IndexError
  | OSError | FileNotFoundError | UnidentifiedImageError | InvalidDicomError
  | MemoryError | ModelError | PlainException.

Record exn : Type := Exn { exn_cls : exn_class; exn_msg : string }.

(** [str(e)] *)
Definition str (e : exn) : string := exn_msg e.

Inductive result (A : Type) : Type :=
  | Ok (a : A)
  | Raise (e : exn).
Arguments Ok {A} a.
Arguments Raise {A} e.

Definition rbind {A B : Type} (r : result A) (k : A -> result B) : result B :=
  match r with
  | Ok a => k a
  | Raise e => Raise e
  end.

Notation "'let?' x ':=' e 'in' k" := (rbind e (fun x => k))
  (at level 10, x name, e at level 100, k at level 200, only parsing).

(** [try: body / except Exception as e: raise Exception(prefix + str(e))] *)
Definition reraise {A : Type} (prefix : string) (r : result A) : result A :=
  match r with
  | Ok a => Ok a
  | Raise e => Raise (Exn PlainException (prefix +:+ str e))
  end.

Definition is_upper (c : ascii) : bool :=
  (65 <=? Z.of_N (Ascii.N_of_ascii c)) && (Z.of_N (Ascii.N_of_ascii c) <=? 90).

Definition lower_char (c : ascii) : ascii :=
  if is_upper c then Ascii.ascii_of_N (Ascii.N_of_ascii c + 32) else c.

(** [s.lower()] on a name of ASCII characters: the letters A-Z are mapped,
    every other character stays.  (On other characters [str.lower()] follows
    the Unicode tables, which this does not; none of them becomes a dot or a
    letter of dcm, dicom, tif or tiff.) *)
Fixpoint lower (s : string) : string :=
  match s with
  | EmptyString => EmptyString
  | String c s' => String (lower_char c) (lower s')
  end.

(** A name of ASCII characters only. *)
Definition is_ascii (s : string) : bool :=
  forallb (fun c => Z.of_N (Ascii.N_of_ascii c) <? 128) (list_ascii_of_string s).

(** [s.split(sep)] for a one-character separator: never the empty list. *)
Fixpoint split (sep : ascii) (s : string) : list string :=
  match s with
  | EmptyString => [EmptyString]
  | String c s' =>
      let rest := split sep s' in
      if Ascii.eqb c sep then EmptyString :: rest
      else match rest with
           | seg :: segs => String c seg :: segs
           | [] => [String c EmptyString]
           end
  end.

(** [xs[-1]] on the result of [split]. *)
Definition last_item (xs : list string) : string := List.last xs EmptyString.

(** [x in xs] for strings. *)
Definition str_in (x : string) (xs : list string) : bool :=
  existsb (String.eqb x) xs.

(** [a / b] on Python integers.  Below [2^53] both convert exactly and the
    quotient is the correctly rounded one. *)
Definition py_truediv (a b : Z) : result F64.float :=
  if b =? 0 then Raise (Exn ZeroDivisionError "division by zero")
  else Ok (F64.div (F64.of_Z a) (F64.of_Z b)).

(** [n / x] for a Python integer [n] and a float [x]. *)
Definition py_truediv_float (n : Z) (x : F64.float) : result F64.float :=
  if F64.is_zero x then Raise (Exn ZeroDivisionError "float division by zero")
  else Ok (F64.div (F64.of_Z n) x).

(** [int(x)]: truncation toward zero. *)
Definition py_int (x : F64.float) : result Z :=
  match x with
  | S754_nan => Raise (Exn ValueError "cannot convert float NaN to integer")
  | S754_infinity _ =>
      Raise (Exn OverflowError "cannot convert float infinity to integer")
  | _ => match F64.trunc x with
         | Some z => Ok z
         | None => Raise (Exn ValueError "cannot convert float NaN to integer")
         end
  end.

(** ** NumPy: integer arrays as pydicom returns them *)

Module np.

Inductive dtype : Type := int8 | uint8 | int16 | uint16 | int32 | uint32.

Definition bits (dt : dtype) : Z :=
  match dt with
  | int8 | uint8 => 8
  | int16 | uint16 => 16
  | int32 | uint32 => 32
  end.

Definition signed (dt : dtype) : bool :=
  match dt with
  | int8 | int16 | int32 => true
  | uint8 | uint16 | uint32 => false
  end.

Definition lo (dt : dtype) : Z := if signed dt then - 2 ^ (bits dt - 1) else 0.
Definition hi (dt : dtype) : Z :=
  if signed dt then 2 ^ (bits dt - 1) - 1 else 2 ^ bits dt - 1.

(** Integer arithmetic of a fixed-width dtype wraps around. *)
Definition wrap (dt : dtype) (z : Z) : Z :=
  (z - lo dt) mod 2 ^ bits dt + lo dt.

(** An array: element type, shape and the samples in row-major order. *)
Record ndarray : Type := Ndarray {
  nd_dtype : dtype;
  nd_shape : list Z;
  nd_data : list Z
}.

Definition in_range (a : ndarray) : Prop :=
  Forall (fun x => lo (nd_dtype a) <= x <= hi (nd_dtype a)) (nd_data a).

Definition reduce (f : Z -> Z -> Z) (what : string) (xs : list Z) : result Z :=
  match xs with
  | [] => Raise (Exn ValueError
            ("zero-size array to reduction operation " +:+ what +:+
             " which has no identity"))
  | x :: xs' => Ok (fold_left f xs' x)
  end.

(** [a.max()] and [a.min()] *)
Definition max (a : ndarray) : result Z := reduce Z.max "maximum" (nd_data a).
Definition min (a : ndarray) : result Z := reduce Z.min "minimum" (nd_data a).

(** [x.astype(np.uint8)] on one float64 sample: the C conversion.  Inside
    (-1, 256) it is the truncation; outside, and on NaN, C leaves the result
    open and the usual x86-64 result is taken: the low byte of the 32-bit
    conversion, which is 0 when that conversion is out of range. *)
Definition astype_uint8 (x : F64.float) : Z :=
  match F64.trunc x with
  | Some z => if (- 2 ^ 31 <=? z) && (z <? 2 ^ 31) then z mod 256 else 0
  | None => 0
  end.

(** [a - k] for a scalar [k] of the array's own dtype. *)
Definition subtract (a : ndarray) (k : Z) : ndarray :=
  Ndarray (nd_dtype a) (nd_shape a) (map (fun x => wrap (nd_dtype a) (x - k)) (nd_data a)).

(** [x - y] on two scalars of dtype [dt]. *)
Definition scalar_subtract (dt : dtype) (x y : Z) : Z := wrap dt (x - y).

(** A float64 array. *)
Record farray : Type := Farray {
  f_shape : list Z;
  f_data : list F64.float
}.

(** [a / k]: true division of an integer array by an integer scalar, in
    float64; a zero divisor gives NaN or an infinity, not an exception. *)
Definition true_divide (a : ndarray) (k : Z) : farray :=
  Farray (nd_shape a) (map (fun x => F64.div (F64.of_Z x) (F64.of_Z k)) (nd_data a)).

(** [a * k] for a Python integer [k]. *)
Definition multiply (a : farray) (k : Z) : farray :=
  Farray (f_shape a) (map (fun x => F64.mul x (F64.of_Z k)) (f_data a)).

Definition astype_uint8_array (a : farray) : ndarray :=
  Ndarray uint8 (f_shape a) (map astype_uint8 (f_data a)).

End np.

(** ** PIL images *)

Module Image.

(** What the program observes of a PIL image: its mode string, its size
    [(width, height)] and its samples. *)
Record t : Type := Build {
  mode : string;
  size : Z * Z;
  data : list Z
}.

Definition width (im : t) : Z := fst (size im).
Definition height (im : t) : Z := snd (size im).

(** Bits per channel of PIL's modes. *)
Definition bits_per_channel (m : string) : option Z :=
  if str_in m ["L"; "P"; "RGB"; "RGBA"; "CMYK"; "YCbCr"; "LAB"; "HSV";
               "LA"; "PA"; "RGBX"; "RGBa"; "La"] then Some 8
  else if String.eqb m "1" then Some 1
  else if str_in m ["I;16"; "I;16L"; "I;16B"; "I;16N"] then Some 16
  else if str_in m ["I"; "F"] then Some 32
  else None.

(** PIL's [_fromarray_typemap], for the integer element types above on a
    little-endian machine: the key is [shape[2:]] and the element type. *)
Definition typemap (rest : list Z) (dt : np.dtype) : option string :=
  match rest, dt with
  | [], np.uint8 => Some "L"
  | [], np.int8 => Some "I"
  | [], np.uint16 => Some "I;16"
  | [], np.int16 => Some "I"
  | [], np.uint32 => Some "I"
  | [], np.int32 => Some "I"
  | [2], np.uint8 => Some "LA"
  | [3], np.uint8 => Some "RGB"
  | [4], np.uint8 => Some "RGBA"
  | _, _ => None
  end.

Definition ndmax (m : string) : Z :=
  if str_in m ["1"; "L"; "I"; "P"; "F"] then 2
  else if String.eqb m "RGB" then 3
  else 4.

(** How the raw mode of the table reads the array's buffer into the image:
    signed 8-bit data are read with the unsigned raw mode I;8 (a sample -1
    becomes 255), unsigned 32-bit data are copied into the signed 32-bit
    samples of mode I, and the other element types keep their values. *)
Definition read_buffer (dt : np.dtype) (samples : list Z) : list Z :=
  match dt with
  | np.int8 => map (fun x => x mod 256) samples
  | np.uint32 => map (np.wrap np.int32) samples
  | _ => samples
  end.

(** [Image.fromarray(obj)]: the mode comes from the table, the size from the
    first two dimensions, and the samples are read from the array's buffer
    with the raw mode of the table. *)
Definition fromarray (obj : np.ndarray) : result t :=
  let shape := np.nd_shape obj in
  let samples := read_buffer (np.nd_dtype obj) (np.nd_data obj) in
  match typemap (drop 2 shape) (np.nd_dtype obj) with
  | None => Raise (Exn TypeError "Cannot handle this data type")
  | Some m =>
      if ndmax m <? Z.of_nat (length shape)
      then Raise (Exn ValueError "Too many dimensions")
      else match shape with
           | [] => Raise (Exn IndexError "tuple index out of range")
           | [n] => Ok (Build m (1, n) samples)
           | rows :: cols :: _ => Ok (Build m (cols, rows) samples)
           end
  end.

End Image.

(** ** The environment: files, collaborators, the Streamlit session *)

Definition bytes : Type := list Byte.byte.

(** A Streamlit upload: the declared name and the payload. *)
Record UploadedFile : Type := Upload {
  name : string;
  getbuffer : bytes
}.

(** What can go wrong when a file is written: [open] fails and nothing is
    created, or the write fails after [open] created the file. *)
Inductive write_fault : Type :=
  | OpenFails (e : exn)
  | WriteFails (e : exn) (partial : bytes).

(** The collaborators outside [app.py] and the faults of the file system.
    Each field is what the program can observe of one of them. *)
Record world : Type := World {
  (** [pydicom.dcmread(path).pixel_array] on the bytes of the file *)
  dcm_pixel_array : bytes -> result np.ndarray;
  (** [Image.open(stream)] *)
  pil_open : bytes -> result Image.t;
  (** the deferred decoding that [convert], [copy] and [resize] trigger *)
  pil_load : Image.t -> option exn;
  (** samples after [convert(mode)] and after [resize(size)] *)
  pil_convert_data : Image.t -> string -> list Z;
  pil_resample : Image.t -> Z * Z -> list Z;
  (** the PNG encoding of an image *)
  png_encode : Image.t -> bytes;
  (** faults of writing and of removing the file at a path *)
  fs_write_fault : string -> option write_fault;
  fs_remove_fault : string -> option exn;
  (** [medical_agent.run(query, images=[path])] on the file's content *)
  agent_run : string -> option bytes -> result string;
  (** [image.resize(size)] failing to allocate a large target (MemoryError) *)
  pil_resize_fault : Image.t -> Z * Z -> option exn;
  (** [st.image(image)] raising, as it does on an image it cannot show
      (one of mode I;16, for instance) *)
  st_image_fault : Image.t -> option exn
}.

(** What a run of the script shows and calls (titles, captions and the
    spinner are left out). *)
Inductive effect : Type :=
  | st_error (msg : string)
  | st_warning (msg : string)
  | st_success (msg : string)
  | st_info (msg : string)
  | st_markdown (msg : string)
  | st_caption (msg : string)
  | st_image (im : Image.t)
  | st_button (label : string)
  | agent_called (image_path : string).

(** The files on disk, [st.session_state], and the effects so far (latest
    first). *)
Record state : Type := State {
  files : gmap string bytes;
  GOOGLE_API_KEY : option string;
  analyze_clicked : bool;
  effects : list effect
}.

Definition set_files (f : gmap string bytes -> gmap string bytes) (s : state) : state :=
  State (f (files s)) (GOOGLE_API_KEY s) (analyze_clicked s) (effects s).
Definition set_GOOGLE_API_KEY (k : option string) (s : state) : state :=
  State (files s) k (analyze_clicked s) (effects s).
Definition set_analyze_clicked (b : bool) (s : state) : state :=
  State (files s) (GOOGLE_API_KEY s) b (effects s).
Definition emit (e : effect) (s : state) : state :=
  State (files s) (GOOGLE_API_KEY s) (analyze_clicked s) (e :: effects s).

(** Statements that read or change the state and may raise. *)
Definition io (A : Type) : Type := state -> result A * state.

Definition ret {A : Type} (a : A) : io A := fun s => (Ok a, s).
Definition raise {A : Type} (e : exn) : io A := fun s => (Raise e, s).
Definition lift {A : Type} (r : result A) : io A := fun s => (r, s).
Definition gets {A : Type} (f : state -> A) : io A := fun s => (Ok (f s), s).
Definition modify (f : state -> state) : io unit := fun s => (Ok tt, f s).

Definition bind {A B : Type} (m : io A) (k : A -> io B) : io B :=
  fun s => match m s with
           | (Ok a, s') => k a s'
           | (Raise e, s') => (Raise e, s')
           end.

Notation "'let*' x ':=' e 'in' k" := (bind e (fun x => k))
  (at level 10, x name, e at level 100, k at level 200, only parsing).
Notation "e ';;' k" := (bind e (fun _ => k))
  (at level 100, k at level 200, right associativity, only parsing).

(** [try: body / except Exception as e: handler(e)] *)
Definition try_except {A : Type} (body : io A) (handler : exn -> io A) : io A :=
  fun s => match body s with
           | (Ok a, s') => (Ok a, s')
           | (Raise e, s') => handler e s'
           end.

(** [try: body / finally: cleanup]: an exception of the cleanup replaces the
    outcome of the body. *)
Definition try_finally {A : Type} (body : io A) (cleanup : io unit) : io A :=
  fun s => match body s with
           | (r, s') => match cleanup s' with
                        | (Ok _, s'') => (r, s'')
                        | (Raise e, s'') => (Raise e, s'')
                        end
           end.

(** [with open(path, "wb") as f: f.write(content)], and PIL's [save]. *)
Definition write_file (w : world) (path : string) (content : bytes) : io unit :=
  fun s => match fs_write_fault w path with
           | None => (Ok tt, set_files (insert path content) s)
           | Some (OpenFails e) => (Raise e, s)
           | Some (WriteFails e partial) =>
               (Raise e, set_files (insert path partial) s)
           end.

(** [os.path.exists(path)] *)
Definition os_path_exists (path : string) : io bool :=
  gets (fun s => bool_decide (is_Some (files s !! path))).

(** [os.remove(path)] *)
Definition os_remove (w : world) (path : string) : io unit :=
  fun s => match fs_remove_fault w path with
           | Some e => (Raise e, s)
           | None =>
               match files s !! path with
               | Some _ => (Ok tt, set_files (delete path) s)
               | None => (Raise (Exn FileNotFoundError path), s)
               end
           end.

(** ** The functions of [app.py] *)

Definition on_analyze_click : io unit := modify (set_analyze_clicked true).

(** [pydicom.dcmread(dicom_file)] followed by [ds.pixel_array]. *)
Definition dcmread (w : world) (fs : gmap string bytes) (dicom_file : string)
  : result np.ndarray :=
  match fs !! dicom_file with
  | Some content => dcm_pixel_array w content
  | None => Raise (Exn FileNotFoundError dicom_file)
  end.

(** Lines 31-33: the rescale, taken when the maximum exceeds 255. *)
Definition normalize_to_8bit (pixel_array : np.ndarray) : result np.ndarray :=
  let? mx := np.max pixel_array in
  if 255 <? mx then
    let? mn := np.min pixel_array in
    Ok (np.astype_uint8_array
          (np.multiply
             (np.true_divide (np.subtract pixel_array mn)
                (np.scalar_subtract (np.nd_dtype pixel_array) mx mn))
             255))
  else Ok pixel_array.

Definition process_dicom (w : world) (dicom_file : string) : io Image.t :=
  fun s =>
    (reraise "Error processing DICOM file: "
       (let? pixel_array := dcmread w (files s) dicom_file in
        let? pixel_array := normalize_to_8bit pixel_array in
        Image.fromarray pixel_array),
     s).

(** [self.load()], then the rest of the method. *)
Definition loaded {A : Type} (w : world) (im : Image.t) (k : result A) : result A :=
  match pil_load w im with
  | Some e => Raise e
  | None => k
  end.

(** [image.convert(mode)] and [image.copy()]: each loads the image first. *)
Definition convert (w : world) (im : Image.t) (m : string) : result Image.t :=
  loaded w im (Ok (Image.Build m (Image.size im) (pil_convert_data w im m))).

Definition copy (w : world) (im : Image.t) : result Image.t :=
  loaded w im (Ok im).

(** A target that every machine is taken to hold: at most 500 x 500. *)
Definition small_target (sz : Z * Z) : bool :=
  (fst sz <=? 500) && (snd sz <=? 500).

(** Whether PIL fails to allocate the target of a resize: never for a small
    target, and as the machine decides for a larger one. *)
Definition allocation (w : world) (im : Image.t) (sz : Z * Z) : option exn :=
  if small_target sz then None else pil_resize_fault w im sz.

(** [image.resize(size)]: loads the image, rejects a target size with a side
    below 1, fails when the target cannot be allocated, and otherwise returns
    an image of that size in the same mode. *)
Definition resize (w : world) (im : Image.t) (sz : Z * Z) : result Image.t :=
  loaded w im
    (if (fst sz <? 1) || (snd sz <? 1)
     then Raise (Exn ValueError "height and width must be > 0")
     else match allocation w im sz with
          | Some e => Raise e
          | None => Ok (Image.Build (Image.mode im) sz (pil_resample w im sz))
          end).

(** Lines 47-48 and 79-80: convert to RGB if needed. *)
Definition to_rgb_if_needed (w : world) (image : Image.t) : result Image.t :=
  if negb (str_in (Image.mode image) ["RGB"; "L"])
  then convert w image "RGB"
  else Ok image.

Definition process_tiff (w : world) (uploaded_file : UploadedFile) : result Image.t :=
  reraise "Error processing TIFF file: "
    (let? image := pil_open w (getbuffer uploaded_file) in
     let? image := to_rgb_if_needed w image in
     copy w image).

Definition file_extension (uploaded_file : UploadedFile) : string :=
  last_item (split "." (lower (name uploaded_file))).

Definition temp_dicom_path : string := "temp_dicom_file.dcm".

Definition process_uploaded_file (w : world) (uploaded_file : UploadedFile)
  : io Image.t :=
  try_except
    (if str_in (file_extension uploaded_file) ["dcm"; "dicom"] then
       write_file w temp_dicom_path (getbuffer uploaded_file) ;;
       try_finally (process_dicom w temp_dicom_path)
         (let* there := os_path_exists temp_dicom_path in
          if there then os_remove w temp_dicom_path else ret tt)
     else if str_in (file_extension uploaded_file) ["tif"; "tiff"] then
       lift (process_tiff w uploaded_file)
     else
       lift (let? image := pil_open w (getbuffer uploaded_file) in
             to_rgb_if_needed w image))
    (fun e => raise (Exn PlainException
                       ("Error processing uploaded file: " +:+ str e))).

(** Lines 209-213: the resizing step. *)
Definition new_width : Z := 500.

Definition new_size (width height : Z) : result (Z * Z) :=
  let? aspect_ratio := py_truediv width height in
  let? quotient := py_truediv_float new_width aspect_ratio in
  let? new_height := py_int quotient in
  Ok (new_width, new_height).

Definition resized_image (w : world) (image : Image.t) : result Image.t :=
  let? sz := new_size (Image.width image) (Image.height image) in
  resize w image sz.

(** [st.image(image, ...)]: shows the image, or raises. *)
Definition show_image (w : world) (image : Image.t) : io unit :=
  fun s => match st_image_fault w image with
           | Some e => (Raise e, s)
           | None => (Ok tt, emit (st_image image) s)
           end.

(** Line 228. *)
Definition report_image_error (e : exn) : io unit :=
  modify (emit (st_error ("Error processing image: " +:+ str e))).

(** Lines 199-228: decode, resize and show; the value is the variable
    [resized_image] after the block.  The block has one handler (line 227);
    it is reached with [resized_image] still [None] when the decode or the
    resize raised, and with [resized_image] assigned when [st.image] raised
    after line 213. *)
Definition image_container (w : world) (uploaded_file : UploadedFile)
  : io (option Image.t) :=
  try_except
    (let* image := process_uploaded_file w uploaded_file in
     let* resized := lift (resized_image w image) in
     try_except
       (show_image w resized ;;
        modify (emit (st_button "Analyze Image")) ;;
        ret (Some resized))
       (fun e => report_image_error e ;; ret (Some resized)))
    (fun e => report_image_error e ;; ret None).

(** The fixed prompt (its five section headings; the bullet text under each
    heading plays no part below). *)
Definition query : string :=
  "You are a highly skilled medical imaging expert. 1. Image Type & Region 2. Key Findings 3. Diagnostic Assessment 4. Patient-Friendly Explanation 5. Research Context".

Definition temp_image_path : string := "temp_medical_image.png".

(** [medical_agent.run(query, images=[image_path])]; the value is
    [response.content]. *)
Definition run_agent (w : world) (image_path : string) : io string :=
  fun s => (agent_run w query (files s !! image_path),
            emit (agent_called image_path) s).

(** Lines 235-263: save, call the model, remove the file. *)
Definition analyze (w : world) (resized : option Image.t) : io unit :=
  try_finally
    (try_except
       (match resized with
        | Some im =>
            write_file w temp_image_path (png_encode w im) ;;
            try_except
              (let* content := run_agent w temp_image_path in
               modify (emit (st_markdown "### Analysis Results")) ;;
               modify (emit (st_markdown "---")) ;;
               modify (emit (st_markdown content)) ;;
               modify (emit (st_markdown "---")) ;;
               modify (emit (st_caption
                 "Note: This analysis is generated by AI and should be reviewed by a qualified healthcare professional.")))
              (fun e => modify (emit (st_error ("Analysis error: " +:+ str e))))
        | None => modify (emit (st_error "Error: Image processing failed"))
        end)
       (fun e => modify (emit (st_error ("Error saving image: " +:+ str e)))))
    (let* there := os_path_exists temp_image_path in
     if there then
       try_except (os_remove w temp_image_path)
         (fun e => modify (emit (st_warning
                      ("Could not remove temporary file: " +:+ str e))))
     else ret tt).

(** Lines 230-266. *)
Definition analysis_container (w : world) (medical_agent : bool)
    (resized : option Image.t) : io unit :=
  let* clicked := gets analyze_clicked in
  if clicked then
    if negb medical_agent then
      modify (emit (st_error
        "Please configure your API key before analyzing images."))
    else
      analyze w resized ;;
      modify (set_analyze_clicked false)
  else ret tt.

(** What one run of the script receives from the browser. *)
Record run_input : Type := RunInput {
  api_key_input : string;
  reset_key_pressed : bool;
  agent_init_fault : option exn;
  uploaded : option UploadedFile
}.

(** Python's truth value of [st.session_state.GOOGLE_API_KEY]. *)
Definition truthy (k : option string) : bool :=
  match k with
  | Some s => negb (String.eqb s "")
  | None => false
  end.

(** Lines 87-108; the value tells whether [st.rerun()] stopped the run. *)
Definition sidebar (inp : run_input) : io bool :=
  let* key := gets GOOGLE_API_KEY in
  if negb (truthy key) then
    if negb (String.eqb (api_key_input inp) "") then
      modify (set_GOOGLE_API_KEY (Some (api_key_input inp))) ;;
      modify (emit (st_success "API Key saved!")) ;;
      ret true
    else ret false
  else
    modify (emit (st_success "API Key is configured")) ;;
    if reset_key_pressed inp then
      modify (set_GOOGLE_API_KEY None) ;;
      ret true
    else ret false.

(** Lines 110-118: the notes at the foot of the sidebar. *)
Definition sidebar_notes : io unit :=
  modify (emit (st_info
    "This tool provides AI-powered analysis of medical imaging data using advanced computer vision and radiological expertise.")) ;;
  modify (emit (st_warning
    "DISCLAIMER: This tool is for educational and informational purposes only. All analyses should be reviewed by qualified healthcare professionals. Do not make medical decisions based solely on this analysis.")).

(** Lines 121-135; the value tells whether [medical_agent] is set. *)
Definition init_medical_agent (inp : run_input) : io bool :=
  let* key := gets GOOGLE_API_KEY in
  if truthy key then
    match agent_init_fault inp with
    | Some e =>
        modify (emit (st_error ("Error initializing Gemini model: " +:+ str e))) ;;
        ret false
    | None => ret true
    end
  else ret false.

(** One run of the script, top to bottom. *)
Definition script (w : world) (inp : run_input) : io unit :=
  let* rerun := sidebar inp in
  if rerun then ret tt
  else
    sidebar_notes ;;
    let* medical_agent := init_medical_agent inp in
    (if negb medical_agent then
       modify (emit (st_warning
         "Please configure your API key in the sidebar to continue"))
     else ret tt) ;;
    match uploaded inp with
    | Some uploaded_file =>
        let* resized := image_container w uploaded_file in
        analysis_container w medical_agent resized
    | None =>
        modify (emit (st_info "Please upload a medical image to begin analysis"))
    end.

(** What the user did before a run: pressed the Analyze button (Streamlit
    then calls [on_analyze_click] before the run), or anything else. *)
Inductive interaction : Type := AnalyzeClick | OtherInteraction.

Definition react (w : world) (i : interaction) (inp : run_input) : io unit :=
  match i with
  | AnalyzeClick => on_analyze_click ;; script w inp
  | OtherInteraction => script w inp
  end.

(** A session: the runs one after the other, each on the state the previous
    run left. *)
Fixpoint session (runs : list (world * interaction * run_input)) (s : state) : state :=
  match runs with
  | [] => s
  | (w, i, inp) :: runs' => session runs' (snd (react w i inp s))
  end.

Definition initial_state (fs : gmap string bytes) : state :=
  State fs None false [].

Definition is_agent_call (e : effect) : bool :=
  match e with agent_called _ => true | _ => false end.

(** The number of model calls so far. *)
Definition agent_calls (s : state) : nat :=
  length (List.filter is_agent_call (effects s)).

Definition is_click (r : world * interaction * run_input) : bool :=
  match r with (_, AnalyzeClick, _) => true | _ => false end.

Definition clicks (runs : list (world * interaction * run_input)) : nat :=
  length (List.filter is_click runs).

(** Line 190: the extensions the upload widget accepts. *)
Definition accepted_extensions : list string :=
  ["jpg"; "jpeg"; "png"; "tiff"; "tif"; "dcm"; "dicom"].

(** Lines 76-80: the generic path. *)
Definition generic_decode (w : world) (f : UploadedFile) : result Image.t :=
  let? image := pil_open w (getbuffer f) in to_rgb_if_needed w image.

(** ** Worlds for the examples *)

(** A world in which nothing decodes and nothing fails. *)
Definition plain_world : world :=
  World (fun _ => Raise (Exn InvalidDicomError "File is missing DICOM File Meta Information header"))
        (fun _ => Raise (Exn UnidentifiedImageError "cannot identify image file"))
        (fun _ => None)
        (fun im _ => Image.data im)
        (fun im _ => Image.data im)
        (fun _ => [])
        (fun _ => None)
        (fun _ => None)
        (fun _ _ => Ok "No acute findings.")
        (fun _ _ => None)
        (fun _ => None).

(** The same world, in which every DICOM payload decodes to [M]. *)
Definition dicom_world (M : np.ndarray) : world :=
  World (fun _ => Ok M) (pil_open plain_world) (pil_load plain_world)
        (pil_convert_data plain_world) (pil_resample plain_world)
        (png_encode plain_world) (fs_write_fault plain_world)
        (fs_remove_fault plain_world) (agent_run plain_world)
        (pil_resize_fault plain_world) (st_image_fault plain_world).

(** The same world, in which every payload opens as [im]. *)
Definition raster_world (im : Image.t) : world :=
  World (dcm_pixel_array plain_world) (fun _ => Ok im) (pil_load plain_world)
        (pil_convert_data plain_world) (pil_resample plain_world)
        (png_encode plain_world) (fs_write_fault plain_world)
        (fs_remove_fault plain_world) (agent_run plain_world)
        (pil_resize_fault plain_world) (st_image_fault plain_world).

(** A world that differs from [w] in that removing any file fails. *)
Definition locked_files (w : world) : world :=
  World (dcm_pixel_array w) (pil_open w) (pil_load w) (pil_convert_data w)
        (pil_resample w) (png_encode w) (fs_write_fault w)
        (fun _ => Some (Exn OSError "[Errno 13] Permission denied"))
        (agent_run w) (pil_resize_fault w) (st_image_fault w).

(** A world that differs from [w] in that the model call fails. *)
Definition model_down (w : world) : world :=
  World (dcm_pixel_array w) (pil_open w) (pil_load w) (pil_convert_data w)
        (pil_resample w) (png_encode w) (fs_write_fault w) (fs_remove_fault w)
        (fun _ _ => Raise (Exn ModelError "429 Resource has been exhausted"))
        (pil_resize_fault w) (st_image_fault w).

Definition disk (fs : gmap string bytes) : state := initial_state fs.

(** A world that differs from [w] in that no file can be created. *)
Definition read_only_disk (w : world) : world :=
  World (dcm_pixel_array w) (pil_open w) (pil_load w) (pil_convert_data w)
        (pil_resample w) (png_encode w)
        (fun _ => Some (OpenFails (Exn OSError "[Errno 30] Read-only file system")))
        (fs_remove_fault w) (agent_run w) (pil_resize_fault w) (st_image_fault w).

(** A world that differs from [w] in that no large target can be allocated. *)
Definition small_memory (w : world) : world :=
  World (dcm_pixel_array w) (pil_open w) (pil_load w) (pil_convert_data w)
        (pil_resample w) (png_encode w) (fs_write_fault w) (fs_remove_fault w)
        (agent_run w) (fun _ _ => Some (Exn MemoryError "")) (st_image_fault w).

(** A world that differs from [w] in that [st.image] cannot show an image
    of mode I;16. *)
Definition eight_bit_display (w : world) : world :=
  World (dcm_pixel_array w) (pil_open w) (pil_load w) (pil_convert_data w)
        (pil_resample w) (png_encode w) (fs_write_fault w) (fs_remove_fault w)
        (agent_run w) (pil_resize_fault w)
        (fun im => if String.eqb (Image.mode im) "I;16"
                   then Some (Exn TypeError "cannot show an image of mode I;16")
                   else None).

(** ** Inputs for the examples *)

(** A 12-bit matrix with samples 0, 2000 and 4095. *)
Definition ct_matrix : np.ndarray := np.Ndarray np.uint16 [1; 3] [0; 2000; 4095].

(** A constant matrix above 255: the degenerate case max(M) = min(M). *)
Definition flat_matrix : np.ndarray := np.Ndarray np.uint16 [1; 2] [300; 300].

(** A signed 16-bit matrix whose samples stay below 256. *)
Definition low_matrix : np.ndarray := np.Ndarray np.int16 [1; 3] [-1000; 0; 200].

(** A signed 8-bit matrix with a negative sample. *)
Definition signed_bytes : np.ndarray := np.Ndarray np.int8 [1; 3] [-1; 0; 100].

(** A signed 16-bit matrix whose span 60000 does not fit the dtype. *)
Definition wide_span : np.ndarray :=
  np.Ndarray np.int16 [1; 3] [-30000; 0; 30000].

(** A 16-bit matrix of a dark image: every sample is below 256. *)
Definition dark_matrix : np.ndarray := np.Ndarray np.uint16 [1; 2] [0; 100].

(** The end-to-end scenario of the specification: 1000 x 500, three
    channels. *)
Definition wide_image : Image.t := Image.Build "RGB" (1000, 500) [].

(** A decoded image narrower than 500: 100 x 200. *)
Definition narrow_image : Image.t := Image.Build "L" (100, 200) [].

(** A decoded image of width 10 and height 0. *)
Definition empty_image : Image.t := Image.Build "L" (10, 0) [].

(** A decoded three-channel image of 4 x 2 pixels. *)
Definition bmp_image : Image.t := Image.Build "RGB" (4, 2) [].

(** A session state in which Analyze has just been clicked. *)
Definition clicked_state : state := State ∅ (Some "key") true [].

(** ** The specification's properties, as the specification words them *)

(** Full-range rescale: every output sample lies in [0, 255], a sample equal
    to the maximum maps to 255 and a sample equal to the minimum maps to 0. *)
Definition full_range (M : np.ndarray) (im : Image.t) : Prop :=
  forall mx mn : Z, np.max M = Ok mx -> np.min M = Ok mn ->
  forall (i : nat) (x : Z), np.nd_data M !! i = Some x ->
  exists y : Z, Image.data im !! i = Some y /\
    0 <= y <= 255 /\ (x = mx -> y = 255) /\ (x = mn -> y = 0).

(** The formula of the rescale on one sample of an array of dtype [dt]. *)
Definition rescaled_sample (dt : np.dtype) (mn mx x : Z) : Z :=
  np.astype_uint8
    (F64.mul (F64.div (F64.of_Z (np.wrap dt (x - mn)))
                      (F64.of_Z (np.wrap dt (mx - mn))))
             (F64.of_Z 255)).

(** The formula of the specification on one sample, in float64 and
    truncated to uint8: no integer arithmetic of the dtype is involved. *)
Definition linear_rescale (mn mx x : Z) : Z :=
  np.astype_uint8
    (F64.mul (F64.div (F64.of_Z (x - mn)) (F64.of_Z (mx - mn)))
             (F64.of_Z 255)).

(** The normalised-mode invariant: mode L or RGB, 8 bits per channel. *)
Definition normalized_mode (im : Image.t) : Prop :=
  (Image.mode im = "L" \/ Image.mode im = "RGB") /\
  Image.bits_per_channel (Image.mode im) = Some 8.

(** A failure that is not the division by zero itself. *)
Definition fails_before_dividing {A : Type} (r : result A) : Prop :=
  exists e : exn, r = Raise e /\ exn_cls e <> ZeroDivisionError.

(** ** Vocabulary of the proofs *)

(** [m] relates every state to the state it leaves; [m] never raises. *)
Definition preserves {A : Type} (R : state -> state -> Prop) (m : io A) : Prop :=
  forall s : state, R s (snd (m s)).

Definition succeeds {A : Type} (m : io A) : Prop :=
  forall s : state, exists a : A, fst (m s) = Ok a.

(** The session part of the state is untouched. *)
Definition same_session (s s' : state) : Prop :=
  GOOGLE_API_KEY s' = GOOGLE_API_KEY s /\
  analyze_clicked s' = analyze_clicked s /\
  effects s' = effects s.

(** The flag and the number of model calls are untouched. *)
Definition quiet (s s' : state) : Prop :=
  analyze_clicked s' = analyze_clicked s /\ agent_calls s' = agent_calls s.

(** The flag is untouched and at most one model call was made. *)
Definition one_call (s s' : state) : Prop :=
  analyze_clicked s' = analyze_clicked s /\
  (agent_calls s' <= S (agent_calls s))%nat.

(** Model calls so far, plus one while the flag is set. *)
Definition pending (s : state) : nat :=
  (agent_calls s + if analyze_clicked s then 1 else 0)%nat.

(** The number of pending and made calls does not grow. *)
Definition settles (s s' : state) : Prop := (pending s' <= pending s)%nat.

(** The file at [p] is the same before and after. *)
Definition kept (p : string) (s s' : state) : Prop := files s' !! p = files s !! p.

(** A file absent before is absent after. *)
Definition stays_absent (p : string) (s s' : state) : Prop :=
  files s !! p = None -> files s' !! p = None.

(** A file system that removes the two temporary files when asked and does
    not fail in the middle of writing the DICOM one. *)
Definition tidy (w : world) : Prop :=
  (forall e partial, fs_write_fault w temp_dicom_path <> Some (WriteFails e partial)) /\
  fs_remove_fault w temp_dicom_path = None /\
  fs_remove_fault w temp_image_path = None.

(** The exception of a failed write. *)
Definition write_fault_exn (fault : write_fault) : exn :=
  match fault with OpenFails e => e | WriteFails e _ => e end.

(** The number of model calls does not go down. *)
Definition calls_grow (s s' : state) : Prop := (agent_calls s <= agent_calls s')%nat.

(** The stored API key is untouched. *)
Definition same_key (s s' : state) : Prop := GOOGLE_API_KEY s' = GOOGLE_API_KEY s.

(** A string without a dot. *)
Fixpoint dotless (s : string) : bool :=
  match s with
  | EmptyString => true
  | String c s' => negb (Ascii.eqb c ".") && dotless s'
  end.

(** ** Facts about binary64 used by the rescale and the resizing step *)

Section F64Facts.

Import F64.

Lemma digits2_pos_iter_xO (m : positive) (k : positive) :
  digits2_pos (Pos.iter xO m k) = (digits2_pos m + k)%positive.
Proof.
  induction k as [|k IH] using Pos.peano_ind.
  - simpl. lia.
  - rewrite Pos.iter_succ. simpl. rewrite IH. lia.
Qed.

Lemma digits2_pos_bound (m : positive) :
  Zpos m < 2 ^ Zpos (digits2_pos m).
Proof.
  induction m as [m IH|m IH|]; simpl digits2_pos.
  - rewrite Pos2Z.inj_succ, Z.pow_succ_r by lia. lia.
  - rewrite Pos2Z.inj_succ, Z.pow_succ_r by lia. lia.
  - reflexivity.
Qed.

Lemma digits2_pos_le (m : positive) (n : Z) :
  0 <= n -> Zpos m < 2 ^ n -> Zpos (digits2_pos m) <= n.
Proof.
  revert n. induction m as [m IH|m IH|]; intros n Hn Hm; simpl digits2_pos.
  - assert (n <> 0) by (intros ->; simpl in Hm; lia).
    replace n with (Z.succ (n - 1)) in Hm by lia.
    rewrite Z.pow_succ_r in Hm by lia.
    specialize (IH (n - 1)). lia.
  - assert (n <> 0) by (intros ->; simpl in Hm; lia).
    replace n with (Z.succ (n - 1)) in Hm by lia.
    rewrite Z.pow_succ_r in Hm by lia.
    specialize (IH (n - 1)). lia.
  - assert (n <> 0) by (intros ->; simpl in Hm; lia). lia.
Qed.

(** A mantissa of exactly 53 digits with an exponent in range is left alone
    by the rounding step. *)
Lemma binary_round_aux_canonical (s : bool) (m : positive) (e : Z) :
  Zpos (digits2_pos m) = 53 -> -1021 <= e <= 971 ->
  binary_round_aux prec emax s (Zpos m) e loc_Exact = S754_finite s m e.
Proof.
  intros Hd He.
  unfold binary_round_aux, shr_fexp, fexp, SpecFloat.emin, prec, emax.
  simpl Zdigits2. rewrite Hd.
  replace (Z.max (53 + e - 53) (3 - 1024 - 53) - e) with 0 by lia.
  cbn [shr shr_record_of_loc round_nearest_even shr_m loc_of_shr_record Zdigits2].
  rewrite Hd.
  replace (Z.max (53 + e - 53) (3 - 1024 - 53) - e) with 0 by lia.
  cbn [shr shr_m]. change (1024 - 53) with 971.
  destruct (e <=? 971) eqn:E; [reflexivity | lia].
Qed.

(** Integers below [2^53] convert to a finite, non-zero float. *)
Lemma of_Z_finite (z : Z) :
  z <> 0 -> Z.abs z < 2 ^ 53 ->
  exists m e, of_Z z = S754_finite (z <? 0) m e.
Proof.
  intros Hz Hb.
  assert (Hpos : forall s (p : positive), Zpos p < 2 ^ 53 ->
            exists m e, binary_round prec emax s p 0 = S754_finite s m e).
  { intros s p Hp.
    pose proof (digits2_pos_le p 53 ltac:(lia) Hp) as Hd.
    unfold binary_round, shl_align, fexp, SpecFloat.emin, prec, emax.
    replace (Z.max (Z.pos (digits2_pos p) + 0 - 53) (3 - 1024 - 53) - 0)
      with (Z.pos (digits2_pos p) - 53) by lia.
    destruct (Z.pos (digits2_pos p) - 53) as [|k|k] eqn:Ek; try lia.
    - exists p, 0. apply binary_round_aux_canonical; lia.
    - exists (Pos.iter xO p k). eexists.
      apply binary_round_aux_canonical.
      + rewrite digits2_pos_iter_xO. lia.
      + lia. }
  destruct z as [|p|p]; [congruence| |]; simpl in Hb; unfold of_Z; simpl.
  - apply Hpos; lia.
  - apply Hpos; lia.
Qed.

(** A finite float divided by itself is exactly [1.0]. *)
Lemma div_self (s : bool) (m : positive) (e : Z) :
  div (S754_finite s m e) (S754_finite s m e) = one.
Proof.
  unfold div, SFdiv, SFdiv_core_binary.
  rewrite !Z.sub_diag.
  change (Z.min (fexp prec emax 0) 0) with (-53).
  change (0 - -53) with 53.
  cbv iota beta.
  assert (Hq : Z.div_eucl (Z.shiftl (Z.pos m) 53) (Z.pos m) = (2 ^ 53, 0)).
  { rewrite Z.shiftl_mul_pow2 by lia.
    pose proof (Z.div_eucl_eq (Z.pos m * 2 ^ 53) (Z.pos m) ltac:(lia)) as H.
    pose proof (Z.mod_pos_bound (Z.pos m * 2 ^ 53) (Z.pos m) ltac:(lia)) as Hr.
    unfold Z.modulo in Hr.
    destruct (Z.div_eucl (Z.pos m * 2 ^ 53) (Z.pos m)) as [q r].
    assert (q = 2 ^ 53) by nia. assert (r = 0) by nia. subst. reflexivity. }
  rewrite Hq.
  unfold new_location. destruct (Z.even (Z.pos m)), s; reflexivity.
Qed.

Lemma div_zero_finite (s0 s : bool) (m : positive) (e : Z) :
  is_zero (div (S754_zero s0) (S754_finite s m e)) = true.
Proof. reflexivity. Qed.

Lemma mul_zero_finite (x : float) (s : bool) (m : positive) (e : Z) :
  is_zero x = true -> is_zero (mul x (S754_finite s m e)) = true.
Proof. destruct x; simpl; congruence. Qed.

Lemma trunc_zero (x : float) : is_zero x = true -> trunc x = Some 0.
Proof. destruct x; simpl; congruence. Qed.

(** The number of digits of a mantissa, from both sides. *)
Lemma digits2_pos_lower (m : positive) : 2 ^ (Zpos (digits2_pos m) - 1) <= Zpos m.
Proof.
  induction m as [m IH|m IH|]; simpl digits2_pos.
  - rewrite Pos2Z.inj_succ. replace (Z.succ (Z.pos (digits2_pos m)) - 1) with (Z.succ (Z.pos (digits2_pos m) - 1)) by lia.
    rewrite Z.pow_succ_r by lia. lia.
  - rewrite Pos2Z.inj_succ. replace (Z.succ (Z.pos (digits2_pos m)) - 1) with (Z.succ (Z.pos (digits2_pos m) - 1)) by lia.
    rewrite Z.pow_succ_r by lia. lia.
  - simpl. lia.
Qed.

Lemma digits2_pos_eq (m : positive) (n : Z) :
  2 ^ (n - 1) <= Zpos m < 2 ^ n -> 0 < n -> Zpos (digits2_pos m) = n.
Proof.
  intros [Hlo Hhi] Hn.
  pose proof (digits2_pos_le m n ltac:(lia) Hhi).
  pose proof (digits2_pos_bound m) as Hb.
  assert (~ Zpos (digits2_pos m) <= n - 1).
  { intros Hc. assert (2 ^ Zpos (digits2_pos m) <= 2 ^ (n - 1)) by (apply Z.pow_le_mono_r; lia). lia. }
  lia.
Qed.

Lemma normal_digits (m : positive) : normal m -> Zpos (digits2_pos m) = 53.
Proof. intros H. apply digits2_pos_eq; [exact H | lia]. Qed.

(** Rounding to nearest keeps the truncated mantissa or adds one. *)
Lemma round_nearest_even_cases (x : Z) (l : location) :
  round_nearest_even x l = x \/ round_nearest_even x l = x + 1.
Proof.
  destruct l as [|[| |]]; simpl; auto. destruct (Z.even x); auto.
Qed.

Lemma loc_of_shr_record_of_loc (x : Z) (l : location) :
  loc_of_shr_record (shr_record_of_loc x l) = l /\ shr_m (shr_record_of_loc x l) = x.
Proof. destruct l as [|[| |]]; simpl; auto. Qed.

Lemma shr_1_m (mrs : shr_record) : 0 <= shr_m mrs -> shr_m (shr_1 mrs) = shr_m mrs / 2.
Proof.
  destruct mrs as [m r s]. simpl. intros H.
  destruct m as [|[p|p|]|p]; simpl; try lia; try reflexivity.
  - rewrite Pos2Z.inj_xI. apply Z.div_unique with (r := 1); lia.
  - rewrite Pos2Z.inj_xO. apply Z.div_unique with (r := 0); lia.
Qed.

(** The second normalisation of [binary_round_aux]: a mantissa of 53 digits
    stays, and [2^53] (a carry of the rounding) becomes [2^52] with the
    exponent raised by one. *)
Lemma shr_fexp_exact_normal (x : positive) (e : Z) :
  2 ^ 52 <= Zpos x <= 2 ^ 53 -> -1000 <= e <= 950 ->
  exists m e2,
    shr_fexp prec emax (Zpos x) e loc_Exact
    = ({| shr_m := Zpos m; shr_r := false; shr_s := false |}, e2) /\
    normal m /\
    ((Zpos x < 2 ^ 53 /\ m = x /\ e2 = e) \/
     (Zpos x = 2 ^ 53 /\ Zpos m = 2 ^ 52 /\ e2 = e + 1)).
Proof.
  intros Hx He. unfold shr_fexp, fexp, SpecFloat.emin, prec, emax. simpl Zdigits2.
  destruct (Z.eq_dec (Zpos x) (2 ^ 53)) as [E|E].
  - injection E as ->. exists 4503599627370496%positive, (e + 1).
    replace (Z.max _ _ - e) with 1 by (simpl; lia).
    split; [reflexivity|]. split; [unfold normal; lia|]. right. repeat split; lia.
  - assert (Hn : normal x) by (unfold normal; lia).
    rewrite (normal_digits x Hn).
    replace (Z.max _ _ - e) with 0 by lia.
    exists x, e. split; [reflexivity|]. split; [exact Hn|]. left. repeat split; lia.
Qed.

(** The first normalisation: a quotient of 53 digits stays, one of 54 digits
    loses its last bit. *)
Lemma shr_fexp_first (q : positive) (e : Z) (l : location) :
  2 ^ 52 <= Zpos q < 2 ^ 54 -> -1000 <= e <= 900 ->
  exists mrs,
    shr_fexp prec emax (Zpos q) e l
    = (mrs, if Zpos q <? 2 ^ 53 then e else e + 1) /\
    shr_m mrs = (if Zpos q <? 2 ^ 53 then Zpos q else Zpos q / 2) /\
    (l = loc_Exact -> Zpos q < 2 ^ 53 \/ Z.even (Zpos q) = true ->
     loc_of_shr_record mrs = loc_Exact).
Proof.
  intros Hq He. unfold shr_fexp, fexp, SpecFloat.emin, prec, emax. simpl Zdigits2.
  destruct (Z.ltb_spec (Zpos q) (2 ^ 53)) as [Hlt|Hge].
  - rewrite (normal_digits q) by (unfold normal; lia).
    replace (Z.max _ _ - e) with 0 by lia. simpl shr.
    eexists. split; [reflexivity|].
    destruct (loc_of_shr_record_of_loc (Zpos q) l) as [Hl Hm].
    split; [exact Hm|]. intros -> _. reflexivity.
  - rewrite (digits2_pos_eq q 54) by lia.
    replace (Z.max _ _ - e) with 1 by lia. simpl shr.
    eexists. split; [reflexivity|]. split.
    + rewrite shr_1_m; destruct (loc_of_shr_record_of_loc (Zpos q) l) as [_ ->]; lia.
    + intros -> [Hc|Hev]; [lia|]. destruct q; simpl in *; congruence.
Qed.

(** Rounding a quotient [q] of 53 or 54 digits at exponent [e]: the result is
    a normal float whose mantissa is the truncated one or its successor. *)
Lemma binary_round_aux_normal (q : positive) (e : Z) (l : location) :
  2 ^ 52 <= Zpos q < 2 ^ 54 -> -1000 <= e <= 900 ->
  exists m e2,
    binary_round_aux prec emax false (Zpos q) e l = S754_finite false m e2 /\
    normal m /\
    let e1 := if Zpos q <? 2 ^ 53 then e else e + 1 in
    let p := if Zpos q <? 2 ^ 53 then Zpos q else Zpos q / 2 in
    ((e2 = e1 /\ (Zpos m = p \/ Zpos m = p + 1)) \/
     (e2 = e1 + 1 /\ Zpos m = 2 ^ 52 /\ p + 1 = 2 ^ 53)) /\
    (l = loc_Exact -> Zpos q < 2 ^ 53 \/ Z.even (Zpos q) = true ->
     e2 = e1 /\ Zpos m = p).
Proof.
  intros Hq He.
  destruct (shr_fexp_first q e l Hq He) as (mrs & Hfirst & Hm & Hexact).
  unfold binary_round_aux. rewrite Hfirst.
  set (e1 := if Zpos q <? 2 ^ 53 then e else e + 1) in *.
  set (p := if Zpos q <? 2 ^ 53 then Zpos q else Zpos q / 2) in *.
  assert (Hp : 2 ^ 52 <= p < 2 ^ 53).
  { unfold p. destruct (Z.ltb_spec (Zpos q) (2 ^ 53)); [lia|].
    split; [apply Z.div_le_lower_bound; lia | apply Z.div_lt_upper_bound; lia]. }
  assert (He1 : -1000 <= e1 <= 950).
  { unfold e1. destruct (Zpos q <? 2 ^ 53); lia. }
  rewrite Hm.
  set (x := round_nearest_even p (loc_of_shr_record mrs)).
  assert (Hx : x = p \/ x = p + 1) by apply round_nearest_even_cases.
  assert (Hxe : l = loc_Exact -> Zpos q < 2 ^ 53 \/ Z.even (Zpos q) = true -> x = p).
  { intros H1 H2. unfold x. rewrite (Hexact H1 H2). reflexivity. }
  clearbody x.
  destruct x as [|x|x]; try lia.
  destruct (shr_fexp_exact_normal x e1 ltac:(lia) He1) as (m & e2 & Hs & Hn & Hcase).
  rewrite Hs. cbn [shr_m].
  assert ((e2 <=? emax - prec) = true) as -> by (apply Z.leb_le; unfold emax, prec; lia).
  exists m, e2. split; [reflexivity|]. split; [exact Hn|]. split.
  - destruct Hcase as [(H1 & -> & ->)|(H1 & H2 & ->)]; [left; auto|right].
    repeat split; [exact H2 | lia].
  - intros H1 H2. specialize (Hxe H1 H2).
    destruct Hcase as [(H3 & -> & ->)|(H3 & H4 & ->)]; [auto | lia].
Qed.

Lemma iter_xO_shift (p k : positive) :
  Zpos (Pos.iter xO p k) = Zpos p * 2 ^ Zpos k.
Proof.
  induction k as [|k IH] using Pos.peano_ind.
  - simpl. lia.
  - rewrite Pos.iter_succ, Pos2Z.inj_xO, IH, Pos2Z.inj_succ, Z.pow_succ_r by lia. lia.
Qed.

(** A positive integer below [2^53] converts exactly: mantissa [z * 2^-e]
    of 53 digits, exponent [digits z - 53]. *)
Lemma of_Z_normal (z : Z) :
  0 < z < 2 ^ 53 ->
  exists m e,
    of_Z z = S754_finite false m e /\ normal m /\
    -52 <= e <= 0 /\ Zpos m = z * 2 ^ (- e) /\
    2 ^ (e + 52) <= z < 2 ^ (e + 53).
Proof.
  intros Hz. destruct z as [|p|p]; try lia.
  pose proof (digits2_pos_le p 53 ltac:(lia) ltac:(lia)) as Hd.
  pose proof (digits2_pos_bound p) as Hub.
  pose proof (digits2_pos_lower p) as Hlb.
  unfold of_Z, binary_normalize, binary_round, shl_align, fexp, SpecFloat.emin, prec, emax.
  replace (Z.max (Z.pos (digits2_pos p) + 0 - 53) (3 - 1024 - 53) - 0)
    with (Z.pos (digits2_pos p) - 53) by lia.
  replace (Z.max (Z.pos (digits2_pos p) + 0 - 53) (3 - 1024 - 53))
    with (Z.pos (digits2_pos p) - 53) by lia.
  destruct (Z.pos (digits2_pos p) - 53) as [|k|k] eqn:Ek; try lia.
  - exists p, 0. assert (Hn : normal p).
    { unfold normal. replace (Z.pos (digits2_pos p)) with 53 in * by lia.
      simpl in Hlb. lia. }
    split; [apply binary_round_aux_canonical; [apply normal_digits, Hn | lia]|].
    split; [exact Hn|]. unfold normal in Hn.
    change (2 ^ (- 0)) with 1. change (0 + 52) with 52. change (0 + 53) with 53.
    repeat split; lia.
  - assert (Hk : Zpos k = 53 - Zpos (digits2_pos p)) by lia.
    assert (Hm : Zpos (Pos.iter xO p k) = Zpos p * 2 ^ Zpos k) by apply iter_xO_shift.
    assert (Hd53 : Zpos (digits2_pos (Pos.iter xO p k)) = 53).
    { rewrite digits2_pos_iter_xO. lia. }
    exists (Pos.iter xO p k), (Z.neg k).
    split; [apply binary_round_aux_canonical; [exact Hd53 | lia]|].
    split.
    { unfold normal. pose proof (digits2_pos_bound (Pos.iter xO p k)) as B1.
      pose proof (digits2_pos_lower (Pos.iter xO p k)) as B2.
      rewrite Hd53 in B1, B2. simpl in B2. lia. }
    split; [lia|]. split.
    { rewrite Hm. reflexivity. }
    replace (Z.neg k + 52) with (Zpos (digits2_pos p) - 1) by lia.
    replace (Z.neg k + 53) with (Zpos (digits2_pos p)) by lia. lia.
Qed.

(** Rounding a quotient [q] of 53 or 54 digits moves it by less than one
    unit [u] of the last place kept. *)
Lemma binary_round_aux_error (q : positive) (e : Z) (l : location) :
  2 ^ 52 <= Zpos q < 2 ^ 54 -> -1000 <= e <= 900 ->
  exists m e2 c u,
    binary_round_aux prec emax false (Zpos q) e l = S754_finite false m e2 /\
    normal m /\ e2 = e + c /\ 0 <= c <= 2 /\
    0 < u /\ 2 ^ 52 * u <= Zpos m * 2 ^ c /\
    Zpos m * 2 ^ c - u <= Zpos q /\ Zpos q + 1 <= Zpos m * 2 ^ c + u.
Proof.
  intros Hq He.
  destruct (binary_round_aux_normal q e l Hq He) as (m & e2 & Hb & Hn & Hcase & _).
  cbv zeta in Hcase. unfold normal in Hn.
  exists m, e2.
  destruct (Z.ltb_spec (Zpos q) (2 ^ 53)) as [Hlt|Hge].
  - destruct Hcase as [[-> Hm]|[-> [Hm Hp]]].
    + exists 0, 1. rewrite Z.add_0_r, Z.pow_0_r, Z.mul_1_r.
      repeat split; try assumption; lia.
    + exists 1, 1. change (2 ^ 1) with 2.
      repeat split; try assumption; lia.
  - assert (Hdiv : 2 * (Zpos q / 2) <= Zpos q <= 2 * (Zpos q / 2) + 1).
    { pose proof (Z.div_mod (Zpos q) 2 ltac:(lia)).
      pose proof (Z.mod_pos_bound (Zpos q) 2 ltac:(lia)). lia. }
    destruct Hcase as [[-> Hm]|[-> [Hm Hp]]].
    + exists 1, 2. change (2 ^ 1) with 2.
      repeat split; try assumption; lia.
    + exists 2, 2. change (2 ^ 2) with 4.
      repeat split; try assumption; lia.
Qed.

(** The quotient of two positive normal floats, with its error: the result
    [m * 2^e] differs from the exact quotient by at most [2^-52] of itself.
    The exponent [e] is [e1 - e2 - 53 + c]; the bound is stated on the
    mantissas, after clearing denominators. *)
Lemma div_error (m1 m2 : positive) (e1 e2 : Z) :
  normal m1 -> normal m2 -> -400 <= e1 <= 400 -> -400 <= e2 <= 400 ->
  exists m e c,
    div (S754_finite false m1 e1) (S754_finite false m2 e2) = S754_finite false m e /\
    normal m /\ e = e1 - e2 - 53 + c /\ 0 <= c <= 2 /\
    2 ^ 52 * (Zpos m * 2 ^ c * Zpos m2 - Zpos m1 * 2 ^ 53) <= Zpos m * 2 ^ c * Zpos m2 /\
    2 ^ 52 * (Zpos m1 * 2 ^ 53 - Zpos m * 2 ^ c * Zpos m2) <= Zpos m * 2 ^ c * Zpos m2.
Proof.
  intros H1 H2 He1 He2. unfold div, SFdiv, SFdiv_core_binary.
  simpl Zdigits2. rewrite (normal_digits m1 H1), (normal_digits m2 H2).
  unfold fexp, SpecFloat.emin, prec, emax.
  replace (Z.min (Z.max (53 + e1 - (53 + e2) - 53) (3 - 1024 - 53)) (e1 - e2))
    with (e1 - e2 - 53) by lia.
  replace (e1 - e2 - (e1 - e2 - 53)) with 53 by lia.
  cbv iota beta. rewrite Z.shiftl_mul_pow2 by lia.
  pose proof (Z.div_eucl_eq (Zpos m1 * 2 ^ 53) (Zpos m2) ltac:(lia)) as Hdiv.
  pose proof (Z.mod_pos_bound (Zpos m1 * 2 ^ 53) (Zpos m2) ltac:(lia)) as Hr.
  unfold Z.modulo in Hr.
  destruct (Z.div_eucl (Zpos m1 * 2 ^ 53) (Zpos m2)) as [q r].
  unfold normal in H1, H2.
  assert (Hq : 2 ^ 52 <= q < 2 ^ 54) by nia.
  destruct q as [|q|q]; try lia.
  destruct (binary_round_aux_error q (e1 - e2 - 53) (new_location (Zpos m2) r) Hq ltac:(lia))
    as (m & e & c & u & Hb & Hn & -> & Hc & Hu & Hbig & Hlo & Hhi).
  simpl xorb. unfold prec, emax in Hb. rewrite Hb.
  exists m, (e1 - e2 - 53 + c), c.
  split; [reflexivity|]. split; [exact Hn|]. split; [reflexivity|]. split; [exact Hc|].
  set (M := Zpos m * 2 ^ c) in *. set (N := Zpos m1 * 2 ^ 53) in *.
  assert (Hm2u : 2 ^ 52 * (Zpos m2 * u) <= M * Zpos m2) by nia.
  assert (HMq : M * Zpos m2 - Zpos m2 * u <= Zpos m2 * Zpos q) by nia.
  assert (HqM : Zpos m2 * (Zpos q + 1) <= M * Zpos m2 + Zpos m2 * u) by nia.
  split; nia.
Qed.

End F64Facts.

(** ** Lemmas on arrays *)

(** Evaluates the closed powers of two of a goal, for [lia]. *)
Ltac eval_pow2 :=
  repeat match goal with
         | |- context [2 ^ ?n] =>
             let v := eval vm_compute in (2 ^ n) in
             progress change (2 ^ n) with v
         end.

Lemma lookup_map {A B : Type} (f : A -> B) (l : list A) (i : nat) :
  map f l !! i = option_map f (l !! i).
Proof.
  revert i. induction l as [|a l IH]; intros [|i]; simpl; auto.
Qed.

Lemma fold_left_max_ge (xs : list Z) (x : Z) :
  x <= fold_left Z.max xs x /\ Forall (fun y => y <= fold_left Z.max xs x) xs.
Proof.
  revert x. induction xs as [|a xs IH]; intros x; simpl.
  - split; [lia | constructor].
  - destruct (IH (Z.max x a)) as [H1 H2]. split; [lia|].
    constructor; [lia | exact H2].
Qed.

Lemma fold_left_max_in (xs : list Z) (x : Z) :
  In (fold_left Z.max xs x) (x :: xs).
Proof.
  revert x. induction xs as [|a xs IH]; intros x; simpl.
  - now left.
  - destruct (IH (Z.max x a)) as [H|H].
    + destruct (Z.max_spec x a) as [[_ E]|[_ E]]; rewrite <- H, E; auto.
    + right; right; exact H.
Qed.

Lemma fold_left_min_le (xs : list Z) (x : Z) :
  fold_left Z.min xs x <= x /\ Forall (fun y => fold_left Z.min xs x <= y) xs.
Proof.
  revert x. induction xs as [|a xs IH]; intros x; simpl.
  - split; [lia | constructor].
  - destruct (IH (Z.min x a)) as [H1 H2]. split; [lia|].
    constructor; [lia | exact H2].
Qed.

Lemma fold_left_min_in (xs : list Z) (x : Z) :
  In (fold_left Z.min xs x) (x :: xs).
Proof.
  revert x. induction xs as [|a xs IH]; intros x; simpl.
  - now left.
  - destruct (IH (Z.min x a)) as [H|H].
    + destruct (Z.min_spec x a) as [[_ E]|[_ E]]; rewrite <- H, E; auto.
    + right; right; exact H.
Qed.

Lemma np_max_in (a : np.ndarray) (mx : Z) :
  np.max a = Ok mx -> In mx (np.nd_data a).
Proof.
  unfold np.max, np.reduce. destruct (np.nd_data a) as [|x xs]; [discriminate|].
  intros [= <-]. apply fold_left_max_in.
Qed.

Lemma np_min_in (a : np.ndarray) (mn : Z) :
  np.min a = Ok mn -> In mn (np.nd_data a).
Proof.
  unfold np.min, np.reduce. destruct (np.nd_data a) as [|x xs]; [discriminate|].
  intros [= <-]. apply fold_left_min_in.
Qed.

Lemma np_max_upper (a : np.ndarray) (mx : Z) :
  np.max a = Ok mx -> Forall (fun y => y <= mx) (np.nd_data a).
Proof.
  unfold np.max, np.reduce. destruct (np.nd_data a) as [|x xs]; [discriminate|].
  intros [= <-]. destruct (fold_left_max_ge xs x). now constructor.
Qed.

Lemma np_min_lower (a : np.ndarray) (mn : Z) :
  np.min a = Ok mn -> Forall (fun y => mn <= y) (np.nd_data a).
Proof.
  unfold np.min, np.reduce. destruct (np.nd_data a) as [|x xs]; [discriminate|].
  intros [= <-]. destruct (fold_left_min_le xs x). now constructor.
Qed.

Lemma in_range_In (a : np.ndarray) (x : Z) :
  np.in_range a -> In x (np.nd_data a) ->
  np.lo (np.nd_dtype a) <= x <= np.hi (np.nd_dtype a).
Proof.
  unfold np.in_range. rewrite List.Forall_forall. auto.
Qed.

Lemma astype_uint8_range (x : F64.float) : 0 <= np.astype_uint8 x <= 255.
Proof.
  unfold np.astype_uint8. destruct (F64.trunc x) as [z|]; [|lia].
  destruct (_ && _); [|lia].
  pose proof (Z.mod_pos_bound z 256 ltac:(lia)). lia.
Qed.

(** The span [max - min] of distinct in-range samples does not wrap to 0. *)
Lemma span_nonzero (dt : np.dtype) (mn mx : Z) :
  np.lo dt <= mn -> mn < mx -> mx <= np.hi dt ->
  np.wrap dt (mx - mn) <> 0 /\ Z.abs (np.wrap dt (mx - mn)) < 2 ^ 53.
Proof.
  destruct dt; unfold np.wrap, np.lo, np.hi; simpl; eval_pow2; intros;
    Z.div_mod_to_equations; lia.
Qed.

Lemma wrap_zero (dt : np.dtype) : np.wrap dt 0 = 0.
Proof. destruct dt; reflexivity. Qed.

(** The sample equal to the maximum is rescaled to 255. *)
Lemma rescaled_max (dt : np.dtype) (mn mx : Z) :
  np.lo dt <= mn -> mn < mx -> mx <= np.hi dt ->
  rescaled_sample dt mn mx mx = 255.
Proof.
  intros H1 H2 H3. destruct (span_nonzero dt mn mx H1 H2 H3) as [Hnz Hb].
  destruct (of_Z_finite _ Hnz Hb) as (m & e & E).
  unfold rescaled_sample. rewrite E, div_self. reflexivity.
Qed.

(** The sample equal to the minimum is rescaled to 0. *)
Lemma rescaled_min (dt : np.dtype) (mn mx : Z) :
  np.lo dt <= mn -> mn < mx -> mx <= np.hi dt ->
  rescaled_sample dt mn mx mn = 0.
Proof.
  intros H1 H2 H3. destruct (span_nonzero dt mn mx H1 H2 H3) as [Hnz Hb].
  destruct (of_Z_finite _ Hnz Hb) as (m & e & E).
  unfold rescaled_sample. rewrite E, Z.sub_diag, wrap_zero.
  unfold np.astype_uint8. rewrite trunc_zero; [reflexivity|].
  apply mul_zero_finite. apply div_zero_finite.
Qed.

(** ** The DICOM rescale (C1, C6, C4) *)

Lemma fromarray_matrix (dt : np.dtype) (shape : list Z) (samples : list Z) :
  length shape = 2%nat ->
  exists m sz, Image.typemap [] dt = Some m /\
    Image.fromarray (np.Ndarray dt shape samples)
    = Ok (Image.Build m sz (Image.read_buffer dt samples)).
Proof.
  destruct shape as [|rows [|cols [|? ?]]]; try discriminate. intros _.
  destruct dt; eexists; eexists; split; reflexivity.
Qed.

Lemma process_dicom_unfold (w : world) (s : state) (path : string)
    (content : bytes) (M : np.ndarray) :
  files s !! path = Some content ->
  dcm_pixel_array w content = Ok M ->
  process_dicom w path s =
    (reraise "Error processing DICOM file: "
       (let? pixel_array := normalize_to_8bit M in Image.fromarray pixel_array), s).
Proof.
  intros Hf Hd. unfold process_dicom, dcmread. rewrite Hf, Hd. reflexivity.
Qed.

Lemma wrap_id (dt : np.dtype) (z : Z) :
  np.lo dt <= z <= np.hi dt -> np.wrap dt z = z.
Proof.
  destruct dt; unfold np.wrap, np.lo, np.hi; simpl; eval_pow2; intros;
    Z.div_mod_to_equations; lia.
Qed.

Lemma hi_below (dt : np.dtype) : np.hi dt < 2 ^ 32 /\ np.lo dt <= 0.
Proof. destruct dt; unfold np.hi, np.lo; simpl; eval_pow2; lia. Qed.

(** Where the two subtractions of the rescale do not wrap, it is the formula
    of the specification. *)
Lemma rescaled_sample_linear (dt : np.dtype) (mn mx x : Z) :
  np.lo dt <= mn -> mx <= np.hi dt -> mn <= x <= mx ->
  np.signed dt = false \/ mx - mn <= np.hi dt ->
  rescaled_sample dt mn mx x = linear_rescale mn mx x.
Proof.
  intros Hlo Hhi Hx Hfit.
  assert (Hfit' : mx - mn <= np.hi dt).
  { destruct Hfit as [Hu|Hfit]; [|exact Hfit].
    unfold np.lo in Hlo. rewrite Hu in Hlo. lia. }
  destruct (hi_below dt) as [_ Hlo0].
  unfold rescaled_sample, linear_rescale.
  rewrite !wrap_id by lia. reflexivity.
Qed.

Lemma process_dicom_rescaled (w : world) (s : state) (path : string)
    (content : bytes) (M : np.ndarray) (mx mn : Z) :
  files s !! path = Some content ->
  dcm_pixel_array w content = Ok M ->
  length (np.nd_shape M) = 2%nat ->
  np.max M = Ok mx -> np.min M = Ok mn -> 255 < mx ->
  exists sz : Z * Z,
    process_dicom w path s
    = (Ok (Image.Build "L" sz
             (map (rescaled_sample (np.nd_dtype M) mn mx) (np.nd_data M))), s).
Proof.
  intros Hf Hd Hshape Hmax Hmin Hbig.
  rewrite (process_dicom_unfold w s path content M Hf Hd).
  unfold normalize_to_8bit. rewrite Hmax. simpl rbind.
  destruct (255 <? mx) eqn:E; [|lia]. rewrite Hmin. simpl rbind.
  destruct M as [dt shape samples].
  cbn [np.nd_dtype np.nd_shape np.nd_data] in *.
  destruct (fromarray_matrix np.uint8 shape
              (map (rescaled_sample dt mn mx) samples) Hshape)
    as (m & sz & Hm & Hfrom).
  injection Hm as <-.
  unfold np.astype_uint8_array, np.multiply, np.true_divide, np.subtract,
    np.scalar_subtract.
  cbn [np.nd_dtype np.nd_shape np.nd_data np.f_shape np.f_data].
  rewrite !map_map.
  change (map _ samples) with (map (rescaled_sample dt mn mx) samples).
  rewrite Hfrom. exists sz. reflexivity.
Qed.

(** C1, amended: for a DICOM pixel matrix M with max(M) > 255 and
    max(M) > min(M), [process_dicom] returns the image of mode L whose
    samples are [(in - min) / (max - min) * 255], the two subtractions taken
    in the dtype of M, the quotient and the product in float64, truncated to
    uint8; every output sample lies in [0, 255], a sample equal to the
    maximum maps to exactly 255 and a sample equal to the minimum to exactly
    0.  Where the dtype is unsigned, or signed and wide enough for the span
    max(M) - min(M), no subtraction wraps and the samples are the linear
    rescale of the specification. *)
Theorem C1_rescale_full_range (w : world) (s : state) (path : string)
    (content : bytes) (M : np.ndarray) (mx mn : Z) :
  files s !! path = Some content ->
  dcm_pixel_array w content = Ok M ->
  length (np.nd_shape M) = 2%nat ->
  np.in_range M ->
  np.max M = Ok mx -> np.min M = Ok mn ->
  255 < mx -> mn < mx ->
  exists im : Image.t,
    process_dicom w path s = (Ok im, s) /\
    Image.mode im = "L" /\
    Image.data im = map (rescaled_sample (np.nd_dtype M) mn mx) (np.nd_data M) /\
    full_range M im /\
    (np.signed (np.nd_dtype M) = false \/ mx - mn <= np.hi (np.nd_dtype M) ->
     Image.data im = map (linear_rescale mn mx) (np.nd_data M)).
Proof.
  intros Hf Hd Hshape Hrange Hmax Hmin Hbig Hspan.
  destruct (process_dicom_rescaled w s path content M mx mn Hf Hd Hshape Hmax Hmin Hbig)
    as (sz & E).
  pose proof (in_range_In M mn Hrange (np_min_in _ _ Hmin)) as Hmn.
  pose proof (in_range_In M mx Hrange (np_max_in _ _ Hmax)) as Hmx.
  pose proof (np_max_upper M mx Hmax) as Hup.
  pose proof (np_min_lower M mn Hmin) as Hlow.
  rewrite List.Forall_forall in Hup, Hlow.
  eexists. split; [exact E|]. split; [reflexivity|]. split; [reflexivity|]. split.
  - intros mx' mn' Hmx' Hmn' i x Hx.
    rewrite Hmax in Hmx'. rewrite Hmin in Hmn'.
    injection Hmx' as <-. injection Hmn' as <-.
    cbn [Image.data].
    exists (rescaled_sample (np.nd_dtype M) mn mx x). rewrite lookup_map, Hx.
    split; [reflexivity|]. split; [apply astype_uint8_range|]. split.
    + intros ->. apply rescaled_max; lia.
    + intros ->. apply rescaled_min; lia.
  - intros Hfit. cbn [Image.data]. apply List.map_ext_in. intros x Hx.
    apply rescaled_sample_linear; try lia; [|exact Hfit].
    split; [apply Hlow | apply Hup]; exact Hx.
Qed.

Lemma C1_rescale_full_range_witness :
  exists im : Image.t,
    process_dicom (dicom_world ct_matrix) temp_dicom_path
      (disk {[ temp_dicom_path := [] ]}) = (Ok im, disk {[ temp_dicom_path := [] ]}) /\
    Image.mode im = "L" /\
    Image.data im = map (rescaled_sample np.uint16 0 4095) [0; 2000; 4095] /\
    full_range ct_matrix im /\
    (np.signed np.uint16 = false \/ 4095 - 0 <= np.hi np.uint16 ->
     Image.data im = map (linear_rescale 0 4095) [0; 2000; 4095]).
Proof.
  apply (C1_rescale_full_range (dicom_world ct_matrix)
           (disk {[ temp_dicom_path := [] ]}) temp_dicom_path [] ct_matrix 4095 0).
  - reflexivity.
  - reflexivity.
  - reflexivity.
  - unfold np.in_range, ct_matrix, np.lo, np.hi; simpl.
    repeat constructor; simpl; lia.
  - reflexivity.
  - reflexivity.
  - lia.
  - lia.
Defined.

(** C1 as stated fails on the constant matrix [300 300]: its maximum exceeds
    255, [process_dicom] succeeds, and the sample equal to the maximum (and
    to the minimum) comes out as 0, not 255. *)
Lemma C1_degenerate_counterexample :
  np.max flat_matrix = Ok 300 /\ np.min flat_matrix = Ok 300 /\
  (exists im : Image.t,
     process_dicom (dicom_world flat_matrix) temp_dicom_path
       (disk {[ temp_dicom_path := [] ]})
     = (Ok im, disk {[ temp_dicom_path := [] ]}) /\
     Image.data im = [0; 0] /\
     ~ full_range flat_matrix im).
Proof.
  split; [reflexivity|]. split; [reflexivity|].
  eexists. split; [vm_compute; reflexivity|]. split; [reflexivity|].
  intros H. destruct (H 300 300 eq_refl eq_refl 0%nat 300 eq_refl)
    as (y & Hy & _ & Hmax & _).
  simpl in Hy. injection Hy as <-. specialize (Hmax eq_refl). discriminate.
Qed.

(** The condition of the last part of C1 is needed: on a signed matrix whose
    span does not fit the dtype both subtractions wrap, and the result is not
    the linear rescale; the middle sample 0 of [-30000, 0, 30000] comes out
    as 155, where the formula gives 127. *)
Remark rescale_signed_overflow :
  fst (process_dicom (dicom_world wide_span) temp_dicom_path
         (disk {[ temp_dicom_path := [] ]}))
  = Ok (Image.Build "L" (3, 1) [0; 155; 255]) /\
  map (linear_rescale (-30000) 30000) [-30000; 0; 30000] = [0; 127; 255].
Proof. split; vm_compute; reflexivity. Qed.

(** Samples that the raw mode reads as they are. *)
Lemma read_buffer_id (dt : np.dtype) (samples : list Z) (mx : Z) :
  Forall (fun x => np.lo dt <= x <= np.hi dt) samples ->
  Forall (fun x => x <= mx) samples -> mx <= 255 ->
  (dt = np.int8 -> Forall (fun x => 0 <= x) samples) ->
  Image.read_buffer dt samples = samples.
Proof.
  intros Hrange Hup Hsmall Hpos.
  destruct dt; try reflexivity; cbn [Image.read_buffer].
  - specialize (Hpos eq_refl).
    rewrite <- (List.map_id samples) at 2. apply List.map_ext_in. intros x Hx.
    rewrite List.Forall_forall in Hpos, Hup.
    specialize (Hpos x Hx). specialize (Hup x Hx).
    apply Z.mod_small. lia.
  - rewrite <- (List.map_id samples) at 2. apply List.map_ext_in. intros x Hx.
    rewrite List.Forall_forall in Hrange, Hup.
    specialize (Hrange x Hx). specialize (Hup x Hx).
    unfold np.lo, np.hi in Hrange. simpl in Hrange.
    apply wrap_id. unfold np.lo, np.hi. simpl. lia.
Qed.

(** C6, amended: for a DICOM pixel matrix M with max(M) <= 255 the rescale
    is not taken and the array goes to [Image.fromarray] as it is, with no
    rescaling and no clipping; the image holds the samples of M as PIL reads
    them from the array, which is unchanged, except for the negative samples
    of a signed 8-bit matrix: PIL reads those as unsigned, [x + 256]. *)
Theorem C6_identity_path (w : world) (s : state) (path : string)
    (content : bytes) (M : np.ndarray) (mx : Z) :
  files s !! path = Some content ->
  dcm_pixel_array w content = Ok M ->
  length (np.nd_shape M) = 2%nat ->
  np.in_range M ->
  np.max M = Ok mx -> mx <= 255 ->
  normalize_to_8bit M = Ok M /\
  exists im : Image.t,
    process_dicom w path s = (Ok im, s) /\
    Image.data im = Image.read_buffer (np.nd_dtype M) (np.nd_data M) /\
    ((np.nd_dtype M = np.int8 -> Forall (fun x => 0 <= x) (np.nd_data M)) ->
     Image.data im = np.nd_data M) /\
    (np.nd_dtype M = np.int8 ->
     Image.data im = map (fun x => if x <? 0 then x + 256 else x) (np.nd_data M)).
Proof.
  intros Hf Hd Hshape Hrange Hmax Hsmall.
  assert (Hn : normalize_to_8bit M = Ok M).
  { unfold normalize_to_8bit. rewrite Hmax. simpl rbind.
    destruct (255 <? mx) eqn:E; [lia | reflexivity]. }
  split; [exact Hn|].
  rewrite (process_dicom_unfold w s path content M Hf Hd), Hn.
  pose proof (np_max_upper M mx Hmax) as Hup.
  destruct M as [dt shape samples]. cbn [np.nd_shape np.nd_data np.nd_dtype] in *.
  destruct (fromarray_matrix dt shape samples Hshape) as (m & sz & _ & Hfrom).
  cbn [rbind]. rewrite Hfrom. eexists. split; [reflexivity|].
  cbn [Image.data]. split; [reflexivity|]. split.
  - intros Hpos. now apply (read_buffer_id dt samples mx).
  - intros ->. cbn [Image.read_buffer]. apply List.map_ext_in. intros x Hx.
    unfold np.in_range in Hrange. cbn [np.nd_dtype np.nd_data] in Hrange.
    rewrite List.Forall_forall in Hrange. specialize (Hrange x Hx).
    unfold np.lo, np.hi in Hrange. simpl in Hrange.
    destruct (Z.ltb_spec x 0).
    + symmetry. apply Z.mod_unique with (q := -1); lia.
    + apply Z.mod_small. lia.
Qed.

Lemma C6_identity_path_witness :
  normalize_to_8bit low_matrix = Ok low_matrix /\
  exists im : Image.t,
    process_dicom (dicom_world low_matrix) temp_dicom_path
      (disk {[ temp_dicom_path := [] ]}) = (Ok im, disk {[ temp_dicom_path := [] ]}) /\
    Image.data im = Image.read_buffer (np.nd_dtype low_matrix) (np.nd_data low_matrix) /\
    ((np.nd_dtype low_matrix = np.int8 ->
      Forall (fun x => 0 <= x) (np.nd_data low_matrix)) ->
     Image.data im = np.nd_data low_matrix) /\
    (np.nd_dtype low_matrix = np.int8 ->
     Image.data im
     = map (fun x => if x <? 0 then x + 256 else x) (np.nd_data low_matrix)).
Proof.
  apply (C6_identity_path (dicom_world low_matrix)
           (disk {[ temp_dicom_path := [] ]}) temp_dicom_path [] low_matrix 200).
  - reflexivity.
  - reflexivity.
  - reflexivity.
  - unfold np.in_range, low_matrix, np.lo, np.hi; simpl.
    repeat constructor; simpl; lia.
  - reflexivity.
  - lia.
Defined.

(** C6 as stated fails on the signed 8-bit matrix [-1, 0, 100]: its maximum
    is below 256, the rescale is not taken, and the image holds 255 where
    the matrix holds -1. *)
Lemma C6_signed_byte_counterexample :
  np.max signed_bytes = Ok 100 /\
  normalize_to_8bit signed_bytes = Ok signed_bytes /\
  process_dicom (dicom_world signed_bytes) temp_dicom_path
    (disk {[ temp_dicom_path := [] ]})
  = (Ok (Image.Build "I" (3, 1) [255; 0; 100]), disk {[ temp_dicom_path := [] ]}) /\
  [255; 0; 100] <> np.nd_data signed_bytes.
Proof.
  split; [reflexivity|]. split; [reflexivity|].
  split; [vm_compute; reflexivity | discriminate].
Qed.

(** On the TIFF path and on the generic path the mode is L or RGB. *)
Lemma to_rgb_if_needed_mode (w : world) (image im : Image.t) :
  to_rgb_if_needed w image = Ok im -> normalized_mode im.
Proof.
  unfold to_rgb_if_needed, convert, loaded.
  destruct (str_in (Image.mode image) ["RGB"; "L"]) eqn:E; simpl.
  - intros [= <-]. unfold str_in in E. simpl in E.
    rewrite orb_false_r in E. apply orb_true_iff in E.
    destruct E as [E|E]; apply String.eqb_eq in E;
      unfold normalized_mode; rewrite E; split; auto.
  - destruct (pil_load w image); [discriminate|]. intros [= <-].
    split; auto.
Qed.

Lemma process_tiff_mode (w : world) (f : UploadedFile) (im : Image.t) :
  process_tiff w f = Ok im -> normalized_mode im.
Proof.
  unfold process_tiff, reraise, copy, loaded.
  destruct (pil_open w (getbuffer f)) as [image|e]; simpl; [|discriminate].
  destruct (to_rgb_if_needed w image) as [image'|e] eqn:E; simpl; [|discriminate].
  destruct (pil_load w image'); [discriminate|]. intros [= <-].
  eapply to_rgb_if_needed_mode; eauto.
Qed.

(** On the DICOM path without rescale the mode is the one PIL's table gives
    the array's dtype: L for uint8 only. *)
Lemma dicom_identity_mode (w : world) (s : state) (path : string)
    (content : bytes) (M : np.ndarray) (mx : Z) (im : Image.t) :
  files s !! path = Some content ->
  dcm_pixel_array w content = Ok M ->
  length (np.nd_shape M) = 2%nat ->
  np.max M = Ok mx -> mx <= 255 ->
  process_dicom w path s = (Ok im, s) ->
  Image.typemap [] (np.nd_dtype M) = Some (Image.mode im) /\
  (np.nd_dtype M <> np.uint8 -> ~ normalized_mode im).
Proof.
  intros Hf Hd Hshape Hmax Hsmall Him.
  rewrite (process_dicom_unfold w s path content M Hf Hd) in Him.
  unfold normalize_to_8bit in Him. rewrite Hmax in Him. simpl rbind in Him.
  destruct (255 <? mx) eqn:E; [lia|]. cbn [rbind] in Him.
  destruct M as [dt shape samples]. cbn [np.nd_shape np.nd_dtype] in *.
  destruct (fromarray_matrix dt shape samples Hshape) as (m & sz & Hm & Hfrom).
  rewrite Hfrom in Him. injection Him as <-. split; [exact Hm|].
  intros Hdt [[Hmode|Hmode] _]; simpl in Hmode; subst m;
    destruct dt; try discriminate; congruence.
Qed.

(** C4 at the failing input: a 16-bit DICOM record whose samples do not
    exceed 255 is normalised successfully to an image of mode I;16, which is
    neither L nor RGB and has 16 bits per channel. *)
Theorem C4_dicom_16bit_keeps_mode :
  exists im : Image.t,
    process_uploaded_file (dicom_world dark_matrix) (Upload "scan.dcm" [])
      (disk ∅) = (Ok im, disk ∅) /\
    Image.mode im = "I;16" /\
    Image.bits_per_channel (Image.mode im) = Some 16 /\
    ~ normalized_mode im.
Proof.
  eexists. split; [vm_compute; reflexivity|].
  split; [reflexivity|]. split; [reflexivity|].
  intros [[H|H] _]; discriminate.
Qed.

(** ** The resizing step (C2, C9, C10) *)

Lemma resize_size (w : world) (image im : Image.t) (sz : Z * Z) :
  resize w image sz = Ok im ->
  Image.size im = sz /\ 1 <= fst sz /\ 1 <= snd sz /\
  Image.mode im = Image.mode image.
Proof.
  unfold resize, loaded. destruct (pil_load w image); [discriminate|].
  destruct (fst sz <? 1) eqn:E1; [discriminate|].
  destruct (snd sz <? 1) eqn:E2; [discriminate|].
  simpl. destruct (allocation w image sz); [discriminate|].
  intros [= <-]. simpl. repeat split; lia.
Qed.

Lemma new_size_inv (width height : Z) (sz : Z * Z) :
  new_size width height = Ok sz ->
  height <> 0 /\
  exists new_height : Z,
    sz = (500, new_height) /\
    F64.trunc (F64.div (F64.of_Z 500)
                 (F64.div (F64.of_Z width) (F64.of_Z height)))
    = Some new_height.
Proof.
  unfold new_size, py_truediv, py_truediv_float, py_int, new_width.
  destruct (height =? 0) eqn:E; [discriminate|]. cbn [rbind].
  set (aspect := F64.div (F64.of_Z width) (F64.of_Z height)).
  destruct (F64.is_zero aspect); [discriminate|]. cbn [rbind].
  set (q := F64.div (F64.of_Z 500) aspect).
  intros H. split; [lia|].
  destruct q as [sg|sg| |sg m e]; cbn [F64.trunc rbind] in H;
    try discriminate; injection H as <-; eexists; split; reflexivity.
Qed.

Section NewSize.

Import F64.

(** A positive integer below [2^31] converts to a normal float of exponent
    at most -22. *)
Lemma of_Z_size (z : Z) :
  0 < z < 2 ^ 31 ->
  exists m e,
    of_Z z = S754_finite false m e /\ normal m /\
    -52 <= e <= -22 /\ Zpos m = z * 2 ^ (- e).
Proof.
  intros Hz. destruct (of_Z_normal z ltac:(lia)) as (m & e & E & N & He & Hm & Hb).
  assert (e <= -22).
  { destruct (Z.le_gt_cases e (-22)); [assumption|].
    assert (2 ^ 31 <= 2 ^ (e + 52)) by (apply Z.pow_le_mono_r; lia). lia. }
  exists m, e. split; [exact E|]. split; [exact N|]. split; [lia | exact Hm].
Qed.

(** The float64 quotient of the resizing step against the exact one: the
    new height [nh] satisfies [nh * W <= 500 * H <= (nh + 1) * W]. *)
Lemma new_size_bounds (W H : Z) :
  0 < W < 2 ^ 31 -> 0 < H < 2 ^ 31 ->
  exists nh, new_size W H = Ok (500, nh) /\
    0 <= nh /\ nh * W <= 500 * H <= (nh + 1) * W.
Proof.
  intros HW HH.
  destruct (of_Z_size W HW) as (mW & eW & EW & NW & HeW & HmW).
  destruct (of_Z_size H HH) as (mH & eH & EH & NH & HeH & HmH).
  destruct (div_error mW mH eW eH NW NH ltac:(lia) ltac:(lia))
    as (ma & ea & c & Hasp & Na & Hea & Hc & Ha1 & Ha2).
  assert (E5 : of_Z 500 = S754_finite false 8796093022208000 (-44)) by reflexivity.
  assert (N5 : normal 8796093022208000) by (unfold normal; lia).
  destruct (div_error 8796093022208000 ma (-44) ea N5 Na ltac:(lia) ltac:(lia))
    as (mq & e_q & c' & Hquo & Nq & Heq & Hc' & Hq1 & Hq2).
  assert (Hneg : e_q < 0) by lia.
  exists (magnitude_trunc mq e_q).
  split.
  { unfold new_size, py_truediv, py_truediv_float, py_int, new_width.
    destruct (Z.eqb_spec H 0); [lia|]. cbn [rbind].
    rewrite EW, EH, Hasp. cbn [is_zero rbind]. rewrite E5, Hquo. reflexivity. }
  (* the integer part of the quotient *)
  set (PQ := 2 ^ (- e_q)). set (PA := 2 ^ (- ea)).
  set (PW := 2 ^ (- eW)) in *. set (PH := 2 ^ (- eH)) in *.
  assert (HPQ : 0 < PQ) by (apply Z.pow_pos_nonneg; lia).
  assert (HPA : 0 < PA) by (apply Z.pow_pos_nonneg; lia).
  assert (HPH : 0 < PH) by (apply Z.pow_pos_nonneg; lia).
  assert (Hc2 : 0 < 2 ^ c) by (apply Z.pow_pos_nonneg; lia).
  assert (Hc2' : 0 < 2 ^ c') by (apply Z.pow_pos_nonneg; lia).
  assert (Hnh : magnitude_trunc mq e_q = Zpos mq / PQ).
  { unfold magnitude_trunc, PQ. destruct e_q as [|k|k]; try lia.
    rewrite Z.shiftr_div_pow2 by lia. reflexivity. }
  rewrite Hnh. set (nh := Zpos mq / PQ).
  assert (Hfloor : nh * PQ <= Zpos mq < (nh + 1) * PQ).
  { pose proof (Z.div_mod (Zpos mq) PQ ltac:(lia)).
    pose proof (Z.mod_pos_bound (Zpos mq) PQ HPQ). unfold nh. nia. }
  assert (Hnh0 : 0 <= nh) by (apply Z.div_pos; lia).
  (* the first quotient against W / H *)
  assert (IA : PA * PH * 2 ^ c = PW * 2 ^ 53).
  { unfold PA, PH, PW. rewrite <- !Z.pow_add_r by lia. f_equal. lia. }
  assert (A1 : 2 ^ 52 * (Zpos ma * H - W * PA) <= Zpos ma * H).
  { apply (Z.mul_le_mono_pos_l _ _ (PH * 2 ^ c)); [nia|].
    rewrite HmW, HmH in Ha1. fold PW PH in Ha1. nia. }
  assert (A2 : 2 ^ 52 * (W * PA - Zpos ma * H) <= Zpos ma * H).
  { apply (Z.mul_le_mono_pos_l _ _ (PH * 2 ^ c)); [nia|].
    rewrite HmW, HmH in Ha2. fold PW PH in Ha2. nia. }
  (* the second quotient against 500 / a *)
  assert (IQ : PQ * PA * 2 ^ c' = 2 ^ 97).
  { unfold PQ, PA. rewrite <- !Z.pow_add_r by lia. f_equal. lia. }
  assert (Q1 : 2 ^ 52 * (Zpos mq * Zpos ma - 500 * (PQ * PA)) <= Zpos mq * Zpos ma).
  { apply (Z.mul_le_mono_pos_l _ _ (2 ^ c')); [lia|].
    change (Z.pos 8796093022208000 * 2 ^ 53) with (500 * 2 ^ 97) in Hq1.
    rewrite <- IQ in Hq1. nia. }
  assert (Q2 : 2 ^ 52 * (500 * (PQ * PA) - Zpos mq * Zpos ma) <= Zpos mq * Zpos ma).
  { apply (Z.mul_le_mono_pos_l _ _ (2 ^ c')); [lia|].
    change (Z.pos 8796093022208000 * 2 ^ 53) with (500 * 2 ^ 97) in Hq2.
    rewrite <- IQ in Hq2. nia. }
  unfold normal in Na, Nq.
  split; [exact Hnh0|].
  assert (HPP : 0 < PQ * PA) by nia.
  assert (HWA : 0 <= W * PA) by nia.
  assert (HaH : 0 <= Zpos ma * H) by nia.
  assert (Q1' : (2 ^ 52 - 1) * (Zpos mq * Zpos ma) <= 2 ^ 52 * (500 * (PQ * PA))) by lia.
  assert (Q2' : 2 ^ 52 * (500 * (PQ * PA)) <= (2 ^ 52 + 1) * (Zpos mq * Zpos ma)) by lia.
  assert (A1' : (2 ^ 52 - 1) * (Zpos ma * H) <= 2 ^ 52 * (W * PA)) by lia.
  assert (A2' : 2 ^ 52 * (W * PA) <= (2 ^ 52 + 1) * (Zpos ma * H)) by lia.
  split.
  - (* nh * W <= 500 * H *)
    assert (F : (2 ^ 52 - 1) * (nh * W) * (PQ * PA) <= (2 ^ 52 + 1) * (500 * H) * (PQ * PA)).
    { apply (Z.mul_le_mono_pos_l _ _ (2 ^ 52)); [lia|].
      apply Z.le_trans with ((2 ^ 52 - 1) * Zpos mq * ((2 ^ 52 + 1) * (Zpos ma * H))).
      - apply Z.le_trans with ((2 ^ 52 - 1) * Zpos mq * (2 ^ 52 * (W * PA))).
        + replace (2 ^ 52 * ((2 ^ 52 - 1) * (nh * W) * (PQ * PA)))
            with ((2 ^ 52 - 1) * 2 ^ 52 * (W * PA) * (nh * PQ)) by ring.
          replace ((2 ^ 52 - 1) * Zpos mq * (2 ^ 52 * (W * PA)))
            with ((2 ^ 52 - 1) * 2 ^ 52 * (W * PA) * Zpos mq) by ring.
          apply Z.mul_le_mono_nonneg_l; [|lia].
          apply Z.mul_nonneg_nonneg; lia.
        + apply Z.mul_le_mono_nonneg_l; lia.
      - replace ((2 ^ 52 - 1) * Zpos mq * ((2 ^ 52 + 1) * (Zpos ma * H)))
          with ((2 ^ 52 + 1) * H * ((2 ^ 52 - 1) * (Zpos mq * Zpos ma))) by ring.
        replace (2 ^ 52 * ((2 ^ 52 + 1) * (500 * H) * (PQ * PA)))
          with ((2 ^ 52 + 1) * H * (2 ^ 52 * (500 * (PQ * PA)))) by ring.
        apply Z.mul_le_mono_nonneg_l; lia. }
    apply Z.mul_le_mono_pos_r in F; [|exact HPP]. lia.
  - (* 500 * H <= (nh + 1) * W *)
    assert (F : (2 ^ 52 - 1) * (500 * H) * (PQ * PA) <= (2 ^ 52 + 1) * ((nh + 1) * W) * (PQ * PA)).
    { apply (Z.mul_le_mono_pos_l _ _ (2 ^ 52)); [lia|].
      apply Z.le_trans with ((2 ^ 52 + 1) * Zpos mq * ((2 ^ 52 - 1) * (Zpos ma * H))).
      - replace (2 ^ 52 * ((2 ^ 52 - 1) * (500 * H) * (PQ * PA)))
          with ((2 ^ 52 - 1) * H * (2 ^ 52 * (500 * (PQ * PA)))) by ring.
        replace ((2 ^ 52 + 1) * Zpos mq * ((2 ^ 52 - 1) * (Zpos ma * H)))
          with ((2 ^ 52 - 1) * H * ((2 ^ 52 + 1) * (Zpos mq * Zpos ma))) by ring.
        apply Z.mul_le_mono_nonneg_l; lia.
      - apply Z.le_trans with ((2 ^ 52 + 1) * Zpos mq * (2 ^ 52 * (W * PA))).
        + apply Z.mul_le_mono_nonneg_l; lia.
        + replace ((2 ^ 52 + 1) * Zpos mq * (2 ^ 52 * (W * PA)))
            with ((2 ^ 52 + 1) * 2 ^ 52 * (W * PA) * Zpos mq) by ring.
          replace (2 ^ 52 * ((2 ^ 52 + 1) * ((nh + 1) * W) * (PQ * PA)))
            with ((2 ^ 52 + 1) * 2 ^ 52 * (W * PA) * ((nh + 1) * PQ)) by ring.
          apply Z.mul_le_mono_nonneg_l; [|lia].
          apply Z.mul_nonneg_nonneg; lia. }
    apply Z.mul_le_mono_pos_r in F; [|exact HPP]. lia.
Qed.

End NewSize.

(** A decoded image less than 500 times wider than high gets a target size
    of height at least 1. *)
Lemma new_size_succeeds (W H : Z) :
  0 < W < 2 ^ 31 -> 0 < H < 2 ^ 31 -> W < 500 * H ->
  exists nh, new_size W H = Ok (500, nh) /\ 1 <= nh.
Proof.
  intros HW HH Hflat.
  destruct (new_size_bounds W H HW HH) as (nh & E & Hnh & Hlo & Hhi).
  exists nh. split; [exact E|]. nia.
Qed.

(** C2, amended: when the resizing step yields an image for a decoded image
    of width w and height h > 0, that image has width exactly 500 (so it is
    never wider than 500) and height [int(500 / (w / h))]: the float64
    quotient truncated toward zero, not rounded, and at least 1.  For sizes
    below [2^31] that height [nh] satisfies [nh * w <= 500 * h <= (nh + 1) * w]:
    it is the floor of the exact quotient, or one less when the exact
    quotient is an integer. *)
Theorem C2_resized_to_500_truncated (w : world) (image im : Image.t) :
  0 < Image.height image ->
  resized_image w image = Ok im ->
  exists new_height : Z,
    F64.trunc (F64.div (F64.of_Z 500)
                 (F64.div (F64.of_Z (Image.width image))
                          (F64.of_Z (Image.height image))))
    = Some new_height /\
    Image.size im = (500, new_height) /\
    Image.width im <= 500 /\ 1 <= new_height /\
    (0 < Image.width image < 2 ^ 31 -> Image.height image < 2 ^ 31 ->
     new_height * Image.width image <= 500 * Image.height image
     <= (new_height + 1) * Image.width image).
Proof.
  intros Hh H. unfold resized_image in H.
  destruct (new_size (Image.width image) (Image.height image)) as [sz|e] eqn:E;
    [|discriminate].
  simpl in H. destruct (new_size_inv _ _ _ E) as (_ & nh & -> & Hnh).
  destruct (resize_size _ _ _ _ H) as (Hsz & _ & H1 & _). simpl in H1.
  assert (Hw : Image.width im = 500) by (unfold Image.width; now rewrite Hsz).
  exists nh. split; [exact Hnh|]. split; [exact Hsz|]. split; [lia|].
  split; [lia|]. intros HW HH.
  destruct (new_size_bounds _ _ HW (conj Hh HH)) as (nh' & E' & _ & Hb).
  rewrite E in E'. injection E' as <-. exact Hb.
Qed.

Lemma C2_resized_to_500_truncated_witness :
  exists new_height : Z,
    F64.trunc (F64.div (F64.of_Z 500)
                 (F64.div (F64.of_Z (Image.width wide_image))
                          (F64.of_Z (Image.height wide_image))))
    = Some new_height /\
    Image.size (Image.Build "RGB" (500, 250) []) = (500, new_height) /\
    Image.width (Image.Build "RGB" (500, 250) []) <= 500 /\ 1 <= new_height /\
    (0 < Image.width wide_image < 2 ^ 31 -> Image.height wide_image < 2 ^ 31 ->
     new_height * Image.width wide_image <= 500 * Image.height wide_image
     <= (new_height + 1) * Image.width wide_image).
Proof.
  apply (C2_resized_to_500_truncated plain_world wide_image).
  - unfold wide_image, Image.height; simpl; lia.
  - vm_compute; reflexivity.
Defined.

(** C2 as stated fails on a 3 x 1 image: the resizing step yields height 166,
    the truncation of 500 / 3.0 = 166.66..., where rounding gives 167. *)
Lemma C2_rounding_counterexample :
  resized_image plain_world (Image.Build "L" (3, 1) [7; 8; 9])
  = Ok (Image.Build "L" (500, 166) [7; 8; 9]) /\
  F64.round_half_even
    (F64.div (F64.of_Z 500) (F64.div (F64.of_Z 3) (F64.of_Z 1))) = Some 167.
Proof. split; vm_compute; reflexivity. Qed.

(** The truncation is that of the float64 quotient, which can lie one below
    the exact quotient: a 1 x 93 image is resized to height 46499, while
    500 * 93 / 1 = 46500. *)
Remark resized_height_float_quotient :
  resized_image plain_world (Image.Build "L" (1, 93) [])
  = Ok (Image.Build "L" (500, 46499) []).
Proof. vm_compute; reflexivity. Qed.

(** The end-to-end scenario of the specification: a 1000 x 500 three-channel
    PNG is shown as a 500 x 250 image of mode RGB. *)
Example png_upload_resized :
  fst (image_container (raster_world wide_image) (Upload "chest.png" []) (disk ∅))
  = Ok (Some (Image.Build "RGB" (500, 250) [])).
Proof. vm_compute; reflexivity. Qed.

(** An image more than 500 times wider than high gets height 0, which PIL's
    [resize] rejects: no resized image is produced. *)
Remark resized_flat_image_rejected :
  resized_image plain_world (Image.Build "L" (1001, 1) [])
  = Raise (Exn ValueError "height and width must be > 0").
Proof. vm_compute; reflexivity. Qed.

Lemma image_container_caught (w : world) (f : UploadedFile) (s s' : state)
    (image : Image.t) (e : exn) :
  process_uploaded_file w f s = (Ok image, s') ->
  resized_image w image = Raise e ->
  image_container w f s
  = (Ok None, emit (st_error ("Error processing image: " +:+ str e)) s').
Proof.
  intros Hp Hr. unfold image_container, try_except at 1, bind at 1 2, lift.
  rewrite Hp, Hr. reflexivity.
Qed.

(** C9, amended: for a decoded image of height 0 the resizing step does
    divide width by height: Python raises ZeroDivisionError, no resized
    image is produced, and the handler around the step reports
    "Error processing image: division by zero". *)
Theorem C9_zero_height_raises_zero_division (w : world) (image : Image.t) :
  Image.height image = 0 ->
  resized_image w image = Raise (Exn ZeroDivisionError "division by zero") /\
  forall (f : UploadedFile) (s s' : state),
    process_uploaded_file w f s = (Ok image, s') ->
    image_container w f s
    = (Ok None, emit (st_error "Error processing image: division by zero") s').
Proof.
  intros Hh.
  assert (H : resized_image w image
              = Raise (Exn ZeroDivisionError "division by zero")).
  { unfold resized_image, new_size, py_truediv. rewrite Hh. reflexivity. }
  split; [exact H|]. intros f s s' Hp.
  exact (image_container_caught w f s s' image _ Hp H).
Qed.

Lemma C9_zero_height_raises_zero_division_witness :
  resized_image (raster_world empty_image) empty_image
  = Raise (Exn ZeroDivisionError "division by zero") /\
  forall (f : UploadedFile) (s s' : state),
    process_uploaded_file (raster_world empty_image) f s = (Ok empty_image, s') ->
    image_container (raster_world empty_image) f s
    = (Ok None, emit (st_error "Error processing image: division by zero") s').
Proof.
  apply (C9_zero_height_raises_zero_division (raster_world empty_image) empty_image).
  reflexivity.
Defined.

(** C9 as stated fails on a 10 x 0 image: the step fails with the
    ZeroDivisionError of [width / height] itself, not with an error raised
    before the division. *)
Lemma C9_zero_height_counterexample :
  resized_image (raster_world empty_image) empty_image
  = Raise (Exn ZeroDivisionError "division by zero") /\
  ~ fails_before_dividing (resized_image (raster_world empty_image) empty_image).
Proof.
  split; [reflexivity|]. intros (e & H & Hne). vm_compute in H.
  injection H as <-. apply Hne. reflexivity.
Qed.

(** C10: whenever the resizing step yields an image, its width is exactly
    500, whatever the width of the decoded image.  For a decoded image (that
    PIL can load, of sizes below [2^31]) less than 500 times wider than
    high, so for every image narrower than 500, the target is 500 wide and
    at least 1 high, and the step yields the image of that size unless PIL
    cannot allocate it: narrower images are upscaled to width 500. *)
Theorem C10_width_exactly_500 (w : world) (image : Image.t) :
  (forall im : Image.t, resized_image w image = Ok im -> Image.width im = 500) /\
  (pil_load w image = None ->
   0 < Image.width image < 2 ^ 31 -> 0 < Image.height image < 2 ^ 31 ->
   Image.width image < 500 * Image.height image ->
   exists new_height : Z,
     1 <= new_height /\
     new_size (Image.width image) (Image.height image) = Ok (500, new_height) /\
     resized_image w image
     = match allocation w image (500, new_height) with
       | Some e => Raise e
       | None => Ok (Image.Build (Image.mode image) (500, new_height)
                       (pil_resample w image (500, new_height)))
       end) /\
  (0 < Image.width image < 500 -> 0 < Image.height image ->
   Image.width image < 500 * Image.height image).
Proof.
  split; [|split].
  - intros im H. unfold resized_image in H.
    destruct (new_size (Image.width image) (Image.height image)) as [sz|e] eqn:E;
      [|discriminate].
    simpl in H. destruct (new_size_inv _ _ _ E) as (_ & nh & -> & _).
    destruct (resize_size _ _ _ _ H) as (Hsz & _). unfold Image.width.
    now rewrite Hsz.
  - intros Hload HW HH Hflat.
    destruct (new_size_succeeds _ _ HW HH Hflat) as (nh & E & Hnh).
    exists nh. split; [exact Hnh|]. split; [exact E|].
    unfold resized_image, resize, loaded. rewrite E, Hload. cbn [rbind fst snd].
    destruct (Z.ltb_spec nh 1); [lia|]. reflexivity.
  - nia.
Qed.

Lemma C10_width_exactly_500_witness :
  exists new_height : Z,
    1 <= new_height /\
    new_size (Image.width narrow_image) (Image.height narrow_image)
    = Ok (500, new_height) /\
    resized_image plain_world narrow_image
    = match allocation plain_world narrow_image (500, new_height) with
      | Some e => Raise e
      | None => Ok (Image.Build (Image.mode narrow_image) (500, new_height)
                      (pil_resample plain_world narrow_image (500, new_height)))
      end.
Proof.
  apply (C10_width_exactly_500 plain_world narrow_image).
  - reflexivity.
  - unfold narrow_image, Image.width; simpl; lia.
  - unfold narrow_image, Image.height; simpl; lia.
  - unfold narrow_image, Image.width, Image.height; simpl; lia.
Defined.

(** The narrow image of the witness is upscaled to 500 x 1000. *)
Example resized_narrow_image :
  resized_image plain_world narrow_image = Ok (Image.Build "L" (500, 1000) []).
Proof. vm_compute; reflexivity. Qed.

(** A 1 x 200000 image is narrower than 500, and its target of
    500 x 100000000 is more than a machine of small memory can allocate. *)
Example resized_tall_image_not_allocated :
  resized_image (small_memory plain_world) (Image.Build "L" (1, 200000) [])
  = Raise (Exn MemoryError "").
Proof. vm_compute; reflexivity. Qed.

(** A square image is resized to 500 x 500, whatever its side. *)
Lemma resized_square (w : world) (image : Image.t) (n : Z) :
  pil_load w image = None -> Image.size image = (n, n) ->
  0 < n < 2 ^ 53 ->
  resized_image w image
  = Ok (Image.Build (Image.mode image) (500, 500) (pil_resample w image (500, 500))).
Proof.
  intros Hload Hsz Hn.
  destruct (of_Z_finite n ltac:(lia) ltac:(lia)) as (m & e & E).
  unfold resized_image, Image.width, Image.height, new_size, py_truediv,
    py_truediv_float, resize, loaded.
  rewrite Hsz, Hload. cbn [fst snd].
  destruct (Z.eqb_spec n 0); [lia|]. cbn [rbind].
  rewrite E, div_self. reflexivity.
Qed.

(** ** Bookkeeping: what each block does to the session *)

Ltac io_unfold :=
  unfold try_except, try_finally, bind, ret, raise, lift, gets, modify,
    write_file, os_path_exists, os_remove, run_agent in *.

Section Combinators.

Context {A B : Type}.
Variables R1 R2 R3 : state -> state -> Prop.
Hypothesis R1_R3 : forall a b, R1 a b -> R3 a b.
Hypothesis R1_R2_R3 : forall a b c, R1 a b -> R2 b c -> R3 a c.

Lemma preserves_bind (m : io A) (k : A -> io B) :
  preserves R1 m -> (forall x, preserves R2 (k x)) -> preserves R3 (bind m k).
Proof.
  intros Hm Hk s. unfold bind. specialize (Hm s).
  destruct (m s) as [[a|e] s1]; simpl in *; eauto.
  eapply R1_R2_R3; [exact Hm | apply Hk].
Qed.

Lemma preserves_try_except (body : io A) (handler : exn -> io A) :
  preserves R1 body -> (forall e, preserves R2 (handler e)) ->
  preserves R3 (try_except body handler).
Proof.
  intros Hm Hk s. unfold try_except. specialize (Hm s).
  destruct (body s) as [[a|e] s1]; simpl in *; eauto.
  eapply R1_R2_R3; [exact Hm | apply Hk].
Qed.

Lemma preserves_try_finally (body : io A) (cleanup : io unit) :
  preserves R1 body -> preserves R2 cleanup ->
  preserves R3 (try_finally body cleanup).
Proof.
  intros Hm Hk s. unfold try_finally. specialize (Hm s). specialize (Hk (snd (body s))).
  destruct (body s) as [r s1]; simpl in *.
  destruct (cleanup s1) as [[[]|e] s2]; simpl in *; eauto.
Qed.

End Combinators.

Section Totality.

Context {A B : Type}.

Lemma succeeds_ret (a : A) : succeeds (ret a).
Proof. intros s. now exists a. Qed.

Lemma succeeds_gets (f : state -> A) : succeeds (gets f).
Proof. intros s. now exists (f s). Qed.

Lemma succeeds_modify (f : state -> state) : succeeds (modify f).
Proof. intros s. now exists tt. Qed.

Lemma succeeds_bind (m : io A) (k : A -> io B) :
  succeeds m -> (forall x, succeeds (k x)) -> succeeds (bind m k).
Proof.
  intros Hm Hk s. unfold bind. destruct (Hm s) as [a Ha].
  destruct (m s) as [[a'|e] s1]; simpl in *; [|discriminate]. apply Hk.
Qed.

Lemma succeeds_try_except (body : io A) (handler : exn -> io A) :
  (forall e, succeeds (handler e)) -> succeeds (try_except body handler).
Proof.
  intros Hk s. unfold try_except.
  destruct (body s) as [[a|e] s1]; simpl; [now exists a | apply Hk].
Qed.

Lemma succeeds_try_finally (body : io A) (cleanup : io unit) :
  succeeds body -> succeeds cleanup -> succeeds (try_finally body cleanup).
Proof.
  intros Hm Hk s. unfold try_finally. destruct (Hm s) as [a Ha].
  destruct (body s) as [r s1]; simpl in *. destruct (Hk s1) as [[] Hu].
  destruct (cleanup s1) as [[[]|e] s2]; simpl in *; [|discriminate].
  now exists a.
Qed.

End Totality.

Lemma same_session_refl (s : state) : same_session s s.
Proof. repeat split. Qed.

Lemma same_session_trans (a b c : state) :
  same_session a b -> same_session b c -> same_session a c.
Proof. intros (?&?&?) (?&?&?). repeat split; congruence. Qed.

Lemma same_session_set_files (f : gmap string bytes -> gmap string bytes) (s : state) :
  same_session s (set_files f s).
Proof. repeat split. Qed.

Lemma write_file_session (w : world) (path : string) (content : bytes) :
  preserves same_session (write_file w path content).
Proof.
  intros s. unfold write_file.
  destruct (fs_write_fault w path) as [[e|e partial]|]; simpl;
    auto using same_session_refl, same_session_set_files.
Qed.

Lemma os_remove_session (w : world) (path : string) :
  preserves same_session (os_remove w path).
Proof.
  intros s. unfold os_remove.
  destruct (fs_remove_fault w path); simpl; [apply same_session_refl|].
  destruct (files s !! path); simpl;
    auto using same_session_refl, same_session_set_files.
Qed.

Lemma unchanged_session {A : Type} (m : io A) :
  (forall s, snd (m s) = s) -> preserves same_session m.
Proof. intros H s. rewrite H. apply same_session_refl. Qed.

Lemma process_uploaded_file_session (w : world) (f : UploadedFile) :
  preserves same_session (process_uploaded_file w f).
Proof.
  pose proof same_session_trans as T.
  unfold process_uploaded_file.
  eapply preserves_try_except with (R1 := same_session) (R2 := same_session);
    eauto.
  - destruct (str_in _ ["dcm"; "dicom"]).
    + eapply preserves_bind with (R1 := same_session) (R2 := same_session);
        eauto using write_file_session.
      intros _.
      eapply preserves_try_finally with (R1 := same_session) (R2 := same_session);
        eauto.
      * apply unchanged_session. reflexivity.
      * eapply preserves_bind with (R1 := same_session) (R2 := same_session);
          eauto.
        -- apply unchanged_session. reflexivity.
        -- intros []; [apply os_remove_session|].
           apply unchanged_session. reflexivity.
    + destruct (str_in _ ["tif"; "tiff"]); apply unchanged_session; reflexivity.
  - intros e. apply unchanged_session. reflexivity.
Qed.

Lemma image_container_total (w : world) (f : UploadedFile) (s : state) :
  exists (r : option Image.t) (s' : state),
    image_container w f s = (Ok r, s') /\
    GOOGLE_API_KEY s' = GOOGLE_API_KEY s /\
    analyze_clicked s' = analyze_clicked s /\
    agent_calls s' = agent_calls s.
Proof.
  pose proof (process_uploaded_file_session w f s) as (Hk & Hc & He).
  unfold image_container, report_image_error, show_image. io_unfold.
  destruct (process_uploaded_file w f s) as [[image|e] s1]; simpl in *.
  - destruct (resized_image w image) as [im|e]; simpl;
      [destruct (st_image_fault w im); simpl|];
      eexists; eexists; (split; [reflexivity|]); simpl;
      unfold agent_calls; simpl; rewrite ?He; auto.
  - eexists; eexists; (split; [reflexivity|]); simpl;
      unfold agent_calls; simpl; rewrite ?He; auto.
Qed.

(** ** The format dispatch (C5) *)

Lemma str_in_app_false (x : string) (xs ys : list string) :
  str_in x (xs ++ ys) = false -> str_in x xs = false /\ str_in x ys = false.
Proof.
  unfold str_in. rewrite existsb_app. apply orb_false_iff.
Qed.

Lemma generic_path (w : world) (f : UploadedFile) (s : state) :
  str_in (file_extension f) ["dcm"; "dicom"] = false ->
  str_in (file_extension f) ["tif"; "tiff"] = false ->
  process_uploaded_file w f s
  = (reraise "Error processing uploaded file: " (generic_decode w f), s).
Proof.
  intros H1 H2. unfold process_uploaded_file. rewrite H1, H2.
  unfold generic_decode. io_unfold.
  destruct (rbind _ _); reflexivity.
Qed.

(** C5, amended: a file whose extension is outside the accepted set takes
    the generic path: [process_uploaded_file] returns the decoded image when
    PIL opens the payload, and otherwise raises a plain [Exception] with the
    message "Error processing uploaded file: ..."; it behaves exactly as on
    a file named .png with the same payload, so no error tells an
    unrecognised extension from a failed decode; the caller
    [image_container] catches the exception. *)
Theorem C5_unlisted_extension_takes_generic_path (w : world) (f : UploadedFile)
    (s : state) :
  str_in (file_extension f) accepted_extensions = false ->
  process_uploaded_file w f s
  = (reraise "Error processing uploaded file: " (generic_decode w f), s) /\
  (forall e : exn, fst (process_uploaded_file w f s) = Raise e ->
     exn_cls e = PlainException) /\
  process_uploaded_file w (Upload "image.png" (getbuffer f)) s
  = process_uploaded_file w f s /\
  exists (r : option Image.t) (s' : state), image_container w f s = (Ok r, s').
Proof.
  intros H.
  assert (H1 : str_in (file_extension f) ["dcm"; "dicom"] = false).
  { unfold accepted_extensions, str_in in *. simpl in *.
    repeat (apply orb_false_iff in H; destruct H as [? H]).
    repeat (apply orb_false_iff; split); auto. }
  assert (H2 : str_in (file_extension f) ["tif"; "tiff"] = false).
  { unfold accepted_extensions, str_in in *. simpl in *.
    repeat (apply orb_false_iff in H; destruct H as [? H]).
    repeat (apply orb_false_iff; split); auto. }
  pose proof (generic_path w f s H1 H2) as Hg.
  split; [exact Hg|]. split; [|split].
  - rewrite Hg. simpl. destruct (generic_decode w f); simpl; [discriminate|].
    intros e' [= <-]. reflexivity.
  - rewrite Hg. rewrite generic_path by reflexivity. reflexivity.
  - destruct (image_container_total w f s) as (r & s' & Hr & _). eauto.
Qed.

Lemma C5_unlisted_extension_takes_generic_path_witness :
  process_uploaded_file (raster_world bmp_image) (Upload "notes.txt" []) (disk ∅)
  = (reraise "Error processing uploaded file: "
       (generic_decode (raster_world bmp_image) (Upload "notes.txt" [])), disk ∅) /\
  (forall e : exn,
     fst (process_uploaded_file (raster_world bmp_image) (Upload "notes.txt" [])
            (disk ∅)) = Raise e ->
     exn_cls e = PlainException) /\
  process_uploaded_file (raster_world bmp_image)
    (Upload "image.png" (getbuffer (Upload "notes.txt" []))) (disk ∅)
  = process_uploaded_file (raster_world bmp_image) (Upload "notes.txt" []) (disk ∅) /\
  exists (r : option Image.t) (s' : state),
    image_container (raster_world bmp_image) (Upload "notes.txt" []) (disk ∅)
    = (Ok r, s').
Proof.
  apply (C5_unlisted_extension_takes_generic_path (raster_world bmp_image)
           (Upload "notes.txt" []) (disk ∅)).
  vm_compute; reflexivity.
Defined.

(** C5 as stated fails on a file named scan.bmp that PIL can open: the
    extension is outside the accepted set, and [process_uploaded_file]
    returns the decoded image instead of failing. *)
Lemma C5_bmp_counterexample :
  file_extension (Upload "scan.bmp" []) = "bmp" /\
  str_in "bmp" accepted_extensions = false /\
  process_uploaded_file (raster_world bmp_image) (Upload "scan.bmp" []) (disk ∅)
  = (Ok bmp_image, disk ∅).
Proof. repeat split; vm_compute; reflexivity. Qed.

(** A name with no dot, an upper-case extension, a trailing dot. *)
Example file_extension_examples :
  file_extension (Upload "README" []) = "readme" /\
  file_extension (Upload "Brain.MRI.DCM" []) = "dcm" /\
  file_extension (Upload "scan." []) = "".
Proof. repeat split; reflexivity. Qed.

(** ** The temporary files (C3, C7) *)

Lemma try_finally_state {A : Type} (body : io A) (cleanup : io unit) (s : state) :
  snd (try_finally body cleanup s) = snd (cleanup (snd (body s))).
Proof.
  unfold try_finally. destruct (body s) as [r s1]. simpl.
  destruct (cleanup s1) as [[[]|e] s2]; reflexivity.
Qed.

Lemma os_remove_absent (w : world) (path : string) (s : state) :
  fs_remove_fault w path = None ->
  files (snd (os_remove w path s)) !! path = None.
Proof.
  intros H. unfold os_remove. rewrite H.
  destruct (files s !! path) eqn:E; simpl; [apply lookup_delete_eq | exact E].
Qed.

(** [if os.path.exists(path): remove], where [remove] deletes the file. *)
Lemma cleanup_absent (path : string) (remove : io unit) (s : state) :
  (forall s0, files (snd (remove s0)) !! path = None) ->
  files (snd ((let* there := os_path_exists path in
               if there then remove else ret tt) s)) !! path = None.
Proof.
  intros H. unfold bind, os_path_exists, gets, ret.
  destruct (bool_decide (is_Some (files s !! path))) eqn:E; [apply H|].
  simpl. apply bool_decide_eq_false in E.
  now apply eq_None_not_Some.
Qed.

(** The cleanup of the analysis step catches the failure of [os.remove]. *)
Lemma guarded_remove_absent (w : world) (path : string) (handler : exn -> io unit)
    (s : state) :
  (forall e s0, files (snd (handler e s0)) = files s0) ->
  fs_remove_fault w path = None ->
  files (snd (try_except (os_remove w path) handler s)) !! path = None.
Proof.
  intros Hh H. unfold try_except, os_remove. rewrite H.
  destruct (files s !! path) eqn:E; simpl.
  - apply lookup_delete_eq.
  - rewrite Hh. exact E.
Qed.

Lemma analyze_succeeds (w : world) (resized : option Image.t) :
  succeeds (analyze w resized).
Proof.
  unfold analyze. apply succeeds_try_finally.
  - apply succeeds_try_except. intros e. apply succeeds_modify.
  - apply succeeds_bind; [apply succeeds_gets|].
    intros []; [|apply succeeds_ret].
    apply succeeds_try_except. intros e. apply succeeds_modify.
Qed.

(** C3, amended: when [os.remove] does not fail, the temporary file of the
    DICOM path (once written) and the temporary file of the analysis step do
    not exist after the operation, whether the decode, the save or the model
    call succeeded or failed. *)
Theorem C3_temp_files_removed (w : world) :
  fs_remove_fault w temp_dicom_path = None ->
  fs_remove_fault w temp_image_path = None ->
  (forall (f : UploadedFile) (s : state),
     str_in (file_extension f) ["dcm"; "dicom"] = true ->
     fs_write_fault w temp_dicom_path = None ->
     files (snd (process_uploaded_file w f s)) !! temp_dicom_path = None) /\
  (forall (resized : option Image.t) (s : state),
     fst (analyze w resized s) = Ok tt /\
     files (snd (analyze w resized s)) !! temp_image_path = None).
Proof.
  intros Hd Hi. split.
  - intros f s Hext Hw. unfold process_uploaded_file. rewrite Hext.
    unfold try_except at 1, bind at 1, write_file. rewrite Hw.
    set (s1 := set_files _ s).
    pose proof (try_finally_state (process_dicom w temp_dicom_path)
      (let* there := os_path_exists temp_dicom_path in
       if there then os_remove w temp_dicom_path else ret tt) s1) as Hs.
    pose proof (cleanup_absent temp_dicom_path (os_remove w temp_dicom_path)
      (snd (process_dicom w temp_dicom_path s1))
      (fun s0 => os_remove_absent w temp_dicom_path s0 Hd)) as Ha.
    rewrite <- Hs in Ha.
    destruct (try_finally _ _ s1) as [[im|e] s2]; exact Ha.
  - intros resized s. split.
    + destruct (analyze_succeeds w resized s) as [[] H]. exact H.
    + unfold analyze. rewrite try_finally_state.
      apply cleanup_absent. intros s0.
      apply guarded_remove_absent; [reflexivity | exact Hi].
Qed.

Lemma C3_temp_files_removed_witness :
  (forall (f : UploadedFile) (s : state),
     str_in (file_extension f) ["dcm"; "dicom"] = true ->
     fs_write_fault (model_down (dicom_world ct_matrix)) temp_dicom_path = None ->
     files (snd (process_uploaded_file (model_down (dicom_world ct_matrix)) f s))
       !! temp_dicom_path = None) /\
  (forall (resized : option Image.t) (s : state),
     fst (analyze (model_down (dicom_world ct_matrix)) resized s) = Ok tt /\
     files (snd (analyze (model_down (dicom_world ct_matrix)) resized s))
       !! temp_image_path = None).
Proof.
  apply (C3_temp_files_removed (model_down (dicom_world ct_matrix)));
    reflexivity.
Defined.

(** C3 as stated fails when [os.remove] fails: the analysis step saves the
    image, the model call succeeds and its answer is shown, the removal
    raises, a warning is shown, and the file is still on disk afterwards. *)
Lemma C3_removal_failure_counterexample :
  fst (analyze (locked_files plain_world) (Some bmp_image) (disk ∅)) = Ok tt /\
  In (st_markdown "No acute findings.")
     (effects (snd (analyze (locked_files plain_world) (Some bmp_image) (disk ∅)))) /\
  In (st_warning "Could not remove temporary file: [Errno 13] Permission denied")
     (effects (snd (analyze (locked_files plain_world) (Some bmp_image) (disk ∅)))) /\
  files (snd (analyze (locked_files plain_world) (Some bmp_image) (disk ∅)))
    !! temp_image_path = Some [].
Proof.
  split; [vm_compute; reflexivity|].
  split; [vm_compute; tauto|].
  split; [vm_compute; tauto|].
  vm_compute; reflexivity.
Qed.

(** The DICOM path on an upload that decodes and on one that does not: the
    temporary file is gone afterwards in both cases. *)
Example dicom_upload_decoded :
  process_uploaded_file (dicom_world ct_matrix) (Upload "scan.dcm" []) (disk ∅)
  = (Ok (Image.Build "L" (3, 1) [0; 124; 255]), disk ∅).
Proof. vm_compute; reflexivity. Qed.

Example dicom_upload_undecodable :
  process_uploaded_file plain_world (Upload "scan.dcm" []) (disk ∅)
  = (Raise (Exn PlainException
       "Error processing uploaded file: Error processing DICOM file: File is missing DICOM File Meta Information header"),
     disk ∅).
Proof. vm_compute; reflexivity. Qed.

(** On the DICOM path a failed write leaves the file behind: [open] created
    it and the [try ... finally] that removes it has not been entered. *)
Remark dicom_write_failure_leaves_file (w : world) (f : UploadedFile) (s : state)
    (e : exn) (partial : bytes) :
  str_in (file_extension f) ["dcm"; "dicom"] = true ->
  fs_write_fault w temp_dicom_path = Some (WriteFails e partial) ->
  files (snd (process_uploaded_file w f s)) !! temp_dicom_path = Some partial.
Proof.
  intros Hext Hw. unfold process_uploaded_file. rewrite Hext.
  unfold try_except, bind, write_file, raise. rewrite Hw. simpl.
  apply lookup_insert_eq.
Qed.

(** C7 at the failing input: a DICOM upload that decodes, in a world where
    [os.remove] raises.  [process_dicom] returns an image, yet
    [process_uploaded_file] raises the wrapped removal error and the file
    stays on disk. *)
Theorem C7_dicom_removal_failure_propagates :
  (exists im : Image.t,
     fst (process_dicom (locked_files (dicom_world ct_matrix)) temp_dicom_path
            (disk {[ temp_dicom_path := [] ]})) = Ok im) /\
  process_uploaded_file (locked_files (dicom_world ct_matrix))
    (Upload "scan.dcm" []) (disk ∅)
  = (Raise (Exn PlainException
       "Error processing uploaded file: [Errno 13] Permission denied"),
     disk {[ temp_dicom_path := [] ]}).
Proof.
  split; [eexists; vm_compute; reflexivity|].
  vm_compute; reflexivity.
Qed.

(** The sibling path: on the analysis step a failed removal is caught and
    shown as a warning; the step itself never raises. *)
Lemma analyze_removal_failure_warns (w : world) (resized : option Image.t)
    (s : state) (e : exn) :
  fs_remove_fault w temp_image_path = Some e ->
  is_Some (files (snd (analyze w resized s)) !! temp_image_path) ->
  fst (analyze w resized s) = Ok tt /\
  exists rest : list effect,
    effects (snd (analyze w resized s))
    = st_warning ("Could not remove temporary file: " +:+ str e) :: rest.
Proof.
  intros Hr Hthere. split.
  { destruct (analyze_succeeds w resized s) as [[] H]. exact H. }
  revert Hthere. unfold analyze. rewrite try_finally_state.
  set (s1 := snd (try_except _ _ s)).
  unfold bind, os_path_exists, gets, ret, try_except, os_remove, modify.
  rewrite Hr.
  destruct (bool_decide (is_Some (files s1 !! temp_image_path))) eqn:E; simpl.
  - intros _. eexists. reflexivity.
  - intros H. apply bool_decide_eq_false in E. contradiction.
Qed.

(** ** The Analyze flag (C8) *)

Lemma quiet_refl (s : state) : quiet s s.
Proof. split; reflexivity. Qed.

Lemma quiet_trans (a b c : state) : quiet a b -> quiet b c -> quiet a c.
Proof. intros [? ?] [? ?]. split; congruence. Qed.

Lemma quiet_one_call (a b : state) : quiet a b -> one_call a b.
Proof. intros [? ?]. split; [congruence | lia]. Qed.

Lemma quiet_then_one_call (a b c : state) : quiet a b -> one_call b c -> one_call a c.
Proof. intros [? ?] [? ?]. split; [congruence | lia]. Qed.

Lemma one_call_then_quiet (a b c : state) : one_call a b -> quiet b c -> one_call a c.
Proof. intros [? ?] [? ?]. split; [congruence | lia]. Qed.

Lemma same_session_quiet (a b : state) : same_session a b -> quiet a b.
Proof. intros (? & ? & E). split; [assumption|]. unfold agent_calls. now rewrite E. Qed.

Lemma emit_quiet (e : effect) :
  is_agent_call e = false -> preserves quiet (modify (emit e)).
Proof.
  intros H s. split; [reflexivity|]. unfold agent_calls. simpl. now rewrite H.
Qed.

Lemma set_key_quiet (k : option string) :
  preserves quiet (modify (set_GOOGLE_API_KEY k)).
Proof. intros s. split; reflexivity. Qed.

Lemma ret_quiet {A : Type} (a : A) : preserves quiet (ret a).
Proof. intros s. apply quiet_refl. Qed.

Lemma gets_quiet {A : Type} (f : state -> A) : preserves quiet (gets f).
Proof. intros s. apply quiet_refl. Qed.

Lemma write_file_quiet (w : world) (path : string) (content : bytes) :
  preserves quiet (write_file w path content).
Proof. intros s. apply same_session_quiet, write_file_session. Qed.

Lemma os_remove_quiet (w : world) (path : string) :
  preserves quiet (os_remove w path).
Proof. intros s. apply same_session_quiet, os_remove_session. Qed.

Lemma run_agent_one_call (w : world) (path : string) :
  preserves one_call (run_agent w path).
Proof. intros s. split; [reflexivity|]. unfold agent_calls. simpl. lia. Qed.

(** Sequences of quiet statements are quiet. *)
Ltac quiet_step :=
  first
    [ apply ret_quiet
    | apply gets_quiet
    | apply set_key_quiet
    | apply write_file_quiet
    | apply os_remove_quiet
    | apply emit_quiet; reflexivity
    | eapply (preserves_bind quiet quiet quiet);
        [ auto | exact quiet_trans | | intro ]
    | eapply (preserves_try_except quiet quiet quiet);
        [ auto | exact quiet_trans | | intro ]
    | eapply (preserves_try_finally quiet quiet quiet);
        [ exact quiet_trans | | ]
    | match goal with
      | |- preserves _ (if ?b then _ else _) => destruct b
      | |- preserves _ (match ?x with _ => _ end) => destruct x
      end ].

Ltac quiet_steps := repeat quiet_step.

Lemma analyze_one_call (w : world) (resized : option Image.t) :
  preserves one_call (analyze w resized).
Proof.
  unfold analyze.
  eapply (preserves_try_finally one_call quiet one_call);
    [exact one_call_then_quiet | | quiet_steps].
  eapply (preserves_try_except one_call quiet one_call);
    [auto | exact one_call_then_quiet | | intro; quiet_steps].
  destruct resized as [im|]; [|intros s; apply quiet_one_call; revert s; quiet_steps].
  eapply (preserves_bind quiet one_call one_call);
    [exact quiet_one_call | exact quiet_then_one_call | quiet_steps | intros _].
  eapply (preserves_try_except one_call quiet one_call);
    [auto | exact one_call_then_quiet | | intro; quiet_steps].
  eapply (preserves_bind one_call quiet one_call);
    [auto | exact one_call_then_quiet
    | apply run_agent_one_call | intro; quiet_steps].
Qed.

Lemma settles_trans (a b c : state) : settles a b -> settles b c -> settles a c.
Proof. unfold settles. lia. Qed.

Lemma quiet_settles (a b : state) : quiet a b -> settles a b.
Proof. intros [E1 E2]. unfold settles, pending. rewrite E1, E2. lia. Qed.

Lemma analysis_container_spec (w : world) (medical_agent : bool)
    (resized : option Image.t) (s : state) :
  exists s' : state,
    analysis_container w medical_agent resized s = (Ok tt, s') /\
    settles s s' /\
    (analyze_clicked s = false -> s' = s) /\
    (analyze_clicked s = true -> medical_agent = true ->
       analyze_clicked s' = false /\ (agent_calls s' <= S (agent_calls s))%nat).
Proof.
  unfold analysis_container, bind, gets.
  destruct (analyze_clicked s) eqn:Ec.
  - destruct medical_agent; simpl.
    + destruct (analyze_succeeds w resized s) as [[] Ha].
      destruct (analyze_one_call w resized s) as [Hc Hn].
      destruct (analyze w resized s) as [r s1]. simpl in *. subst r.
      eexists. split; [reflexivity|]. unfold settles, pending. simpl.
      rewrite Ec. unfold agent_calls in *. simpl.
      repeat split; try lia; try discriminate; auto.
    + eexists. split; [reflexivity|]. unfold settles, pending, agent_calls.
      simpl. rewrite Ec. repeat split; try lia; discriminate.
  - eexists. split; [reflexivity|]. unfold settles.
    repeat split; try lia; discriminate.
Qed.

Lemma sidebar_quiet (inp : run_input) : preserves quiet (sidebar inp).
Proof. unfold sidebar. quiet_steps. Qed.

Lemma init_medical_agent_quiet (inp : run_input) :
  preserves quiet (init_medical_agent inp).
Proof. unfold init_medical_agent. quiet_steps. Qed.

Lemma image_container_quiet (w : world) (f : UploadedFile) :
  preserves quiet (image_container w f).
Proof.
  intros s. destruct (image_container_total w f s) as (r & s' & E & _ & Hc & Hn).
  rewrite E. split; assumption.
Qed.

Lemma analysis_container_settles (w : world) (medical_agent : bool)
    (resized : option Image.t) :
  preserves settles (analysis_container w medical_agent resized).
Proof.
  intros s.
  destruct (analysis_container_spec w medical_agent resized s) as (s' & E & H & _).
  now rewrite E.
Qed.

Lemma quiet_preserves_settles {A : Type} (m : io A) :
  preserves quiet m -> preserves settles m.
Proof. intros H s. apply quiet_settles, H. Qed.

Lemma script_settles (w : world) (inp : run_input) :
  preserves settles (script w inp).
Proof.
  unfold script.
  eapply (preserves_bind settles settles settles);
    [auto | exact settles_trans
    | apply quiet_preserves_settles, sidebar_quiet | intros rerun].
  destruct rerun; [apply quiet_preserves_settles, ret_quiet|].
  eapply (preserves_bind settles settles settles);
    [auto | exact settles_trans
    | apply quiet_preserves_settles; unfold sidebar_notes; quiet_steps | intros _].
  eapply (preserves_bind settles settles settles);
    [auto | exact settles_trans
    | apply quiet_preserves_settles, init_medical_agent_quiet | intros agent].
  eapply (preserves_bind settles settles settles);
    [auto | exact settles_trans
    | apply quiet_preserves_settles; quiet_steps | intros _].
  destruct (uploaded inp) as [f|].
  - eapply (preserves_bind settles settles settles);
      [auto | exact settles_trans
      | apply quiet_preserves_settles, image_container_quiet | intros resized].
    apply analysis_container_settles.
  - apply quiet_preserves_settles. quiet_steps.
Qed.

Lemma image_container_succeeds (w : world) (f : UploadedFile) :
  succeeds (image_container w f).
Proof.
  intros s. destruct (image_container_total w f s) as (r & s' & E & _).
  rewrite E. now exists r.
Qed.

Lemma analysis_container_succeeds (w : world) (medical_agent : bool)
    (resized : option Image.t) :
  succeeds (analysis_container w medical_agent resized).
Proof.
  intros s.
  destruct (analysis_container_spec w medical_agent resized s) as (s' & E & _).
  rewrite E. now exists tt.
Qed.

Ltac succeed_steps :=
  repeat first
    [ apply succeeds_ret
    | apply succeeds_gets
    | apply succeeds_modify
    | apply image_container_succeeds
    | apply analysis_container_succeeds
    | apply succeeds_bind; [|intro]
    | apply succeeds_try_except; intro
    | match goal with
      | |- succeeds (if ?b then _ else _) => destruct b
      | |- succeeds (match ?x with _ => _ end) => destruct x
      end ].

(** No run of the script raises: every exception is caught inside it. *)
Lemma script_succeeds (w : world) (inp : run_input) : succeeds (script w inp).
Proof.
  unfold script, sidebar, sidebar_notes, init_medical_agent. succeed_steps.
Qed.

Lemma react_pending (w : world) (i : interaction) (inp : run_input) (s : state) :
  (pending (snd (react w i inp s))
   <= pending s + if is_click (w, i, inp) then 1 else 0)%nat.
Proof.
  destruct i; simpl.
  - unfold bind, on_analyze_click, modify.
    pose proof (script_settles w inp (set_analyze_clicked true s)) as H.
    unfold settles in H. unfold pending in *. simpl in H.
    unfold agent_calls in *. simpl in H.
    destruct (analyze_clicked s); lia.
  - pose proof (script_settles w inp s) as H. unfold settles in H. lia.
Qed.

Lemma session_pending (runs : list (world * interaction * run_input)) (s : state) :
  (pending (session runs s) <= pending s + clicks runs)%nat.
Proof.
  revert s. induction runs as [|[[w i] inp] runs IH]; intros s; simpl.
  - unfold clicks. simpl. lia.
  - specialize (IH (snd (react w i inp s))).
    pose proof (react_pending w i inp s) as H.
    unfold clicks in *. destruct i; simpl in *; lia.
Qed.

(** C8, amended: when the analysis block runs with the flag set and an agent
    configured, it completes without raising, whatever the save, the model
    call and the removal do, makes at most one model call and leaves the
    flag false, after which the block does nothing until the flag is set
    again.  With the flag set and no agent configured the block only reports
    the missing key: it makes no call and the flag stays set, so the analysis
    of that click runs in a later run, once an agent is configured.  Over a
    whole session the number of model calls never exceeds the number of
    clicks on Analyze. *)
Theorem C8_flag_rearmed_after_analysis (w : world) (resized : option Image.t)
    (s : state) :
  analyze_clicked s = true ->
  (exists s' : state,
     analysis_container w true resized s = (Ok tt, s') /\
     analyze_clicked s' = false /\
     (agent_calls s' <= S (agent_calls s))%nat /\
     forall (w' : world) (agent : bool) (resized' : option Image.t),
       analysis_container w' agent resized' s' = (Ok tt, s')) /\
  (exists s' : state,
     analysis_container w false resized s = (Ok tt, s') /\
     analyze_clicked s' = true /\ agent_calls s' = agent_calls s /\
     effects s'
     = st_error "Please configure your API key before analyzing images."
       :: effects s) /\
  forall (fs : gmap string bytes) (runs : list (world * interaction * run_input)),
    (agent_calls (session runs (initial_state fs)) <= clicks runs)%nat.
Proof.
  intros Hc. split; [|split].
  - destruct (analysis_container_spec w true resized s) as (s' & E & _ & _ & H).
    destruct (H Hc eq_refl) as [Hf Hn].
    exists s'. repeat split; auto.
    intros w' agent resized'.
    destruct (analysis_container_spec w' agent resized' s') as (s'' & E' & _ & H' & _).
    rewrite E'. now rewrite (H' Hf).
  - eexists. unfold analysis_container, bind, gets, modify. rewrite Hc.
    cbn [negb]. split; [reflexivity|]. repeat split. exact Hc.
  - intros fs runs. pose proof (session_pending runs (initial_state fs)) as H.
    unfold pending in H. change (agent_calls (initial_state fs)) with 0%nat in H.
    cbn [initial_state analyze_clicked] in H.
    destruct (analyze_clicked (session runs (initial_state fs))); lia.
Qed.

Lemma C8_flag_rearmed_after_analysis_witness :
  (exists s' : state,
     analysis_container (model_down plain_world) true (Some bmp_image) clicked_state
     = (Ok tt, s') /\
     analyze_clicked s' = false /\
     (agent_calls s' <= S (agent_calls clicked_state))%nat /\
     forall (w' : world) (agent : bool) (resized' : option Image.t),
       analysis_container w' agent resized' s' = (Ok tt, s')) /\
  (exists s' : state,
     analysis_container (model_down plain_world) false (Some bmp_image) clicked_state
     = (Ok tt, s') /\
     analyze_clicked s' = true /\ agent_calls s' = agent_calls clicked_state /\
     effects s'
     = st_error "Please configure your API key before analyzing images."
       :: effects clicked_state) /\
  forall (fs : gmap string bytes) (runs : list (world * interaction * run_input)),
    (agent_calls (session runs (initial_state fs)) <= clicks runs)%nat.
Proof.
  apply (C8_flag_rearmed_after_analysis (model_down plain_world)
           (Some bmp_image) clicked_state).
  reflexivity.
Defined.

(** C8 as stated fails on a click made before the API key is configured:
    the run of that click completes, makes no call and leaves the flag set.
    When the key is entered afterwards, the run that follows the rerun makes
    the model call, with no click of its own. *)
Lemma C8_no_agent_counterexample :
  let w := raster_world wide_image in
  let upload := Some (Upload "chest.png" []) in
  let click := (w, AnalyzeClick, RunInput "" false None upload) in
  let enter_key := (w, OtherInteraction, RunInput "AIza-1" false None upload) in
  let rerun := (w, OtherInteraction, RunInput "" false None upload) in
  analyze_clicked (session [click] (initial_state ∅)) = true /\
  agent_calls (session [click] (initial_state ∅)) = 0%nat /\
  analyze_clicked (session [click; enter_key] (initial_state ∅)) = true /\
  agent_calls (session [click; enter_key; rerun] (initial_state ∅)) = 1%nat /\
  analyze_clicked (session [click; enter_key; rerun] (initial_state ∅)) = false.
Proof. vm_compute. repeat split; reflexivity. Qed.

(** The three outcomes of the claim, run on [clicked_state]: the effects
    (latest first), the flag and the files afterwards. *)
Example analysis_succeeds :
  analysis_container plain_world true (Some bmp_image) clicked_state
  = (Ok tt,
     State ∅ (Some "key") false
       [st_caption "Note: This analysis is generated by AI and should be reviewed by a qualified healthcare professional.";
        st_markdown "---"; st_markdown "No acute findings."; st_markdown "---";
        st_markdown "### Analysis Results"; agent_called temp_image_path]).
Proof. vm_compute; reflexivity. Qed.

Example analysis_model_failure :
  analysis_container (model_down plain_world) true (Some bmp_image) clicked_state
  = (Ok tt,
     State ∅ (Some "key") false
       [st_error "Analysis error: 429 Resource has been exhausted";
        agent_called temp_image_path]).
Proof. vm_compute; reflexivity. Qed.

Example analysis_save_failure :
  analysis_container (read_only_disk plain_world) true (Some bmp_image) clicked_state
  = (Ok tt,
     State ∅ (Some "key") false
       [st_error "Error saving image: [Errno 30] Read-only file system"]).
Proof. vm_compute; reflexivity. Qed.

(** Without an agent the block only reports; the flag stays set, and the
    analysis of that click runs once an agent is configured. *)
Remark analysis_without_agent_keeps_flag (w : world) (resized : option Image.t)
    (s : state) :
  analyze_clicked s = true ->
  analysis_container w false resized s
  = (Ok tt, emit (st_error
       "Please configure your API key before analyzing images.") s).
Proof.
  intros H. unfold analysis_container, bind, gets, modify. now rewrite H.
Qed.

(** A whole session: upload and click with an agent configured, then a
    further run without a click.  One model call is made in all. *)
Example session_one_click :
  let inp := RunInput "" false None (Some (Upload "chest.png" [])) in
  let w := raster_world wide_image in
  let s := session [(w, AnalyzeClick, inp); (w, OtherInteraction, inp)]
             (State ∅ (Some "key") false []) in
  agent_calls s = 1%nat /\ analyze_clicked s = false /\ files s = ∅.
Proof. vm_compute. repeat split; reflexivity. Qed.

(** * Further properties of [app.py] *)

(** ** The upload normaliser: its paths, its errors, its modes *)

Lemma set_files_delete_insert (p : string) (c : bytes) (s : state) :
  set_files (delete p) (set_files (insert p c) s) = set_files (delete p) s.
Proof. unfold set_files. simpl. now rewrite delete_insert_eq. Qed.

Lemma lookup_written (p : string) (c : bytes) (m : gmap string bytes) :
  <[p:=c]> m !! p = Some c.
Proof. apply lookup_insert_eq. Qed.

Lemma delete_written (p : string) (c : bytes) (m : gmap string bytes) :
  delete p (<[p:=c]> m) = delete p m.
Proof. apply delete_insert_eq. Qed.

Lemma lookup_only (p : string) (c : bytes) :
  ({[ p := c ]} : gmap string bytes) !! p = Some c.
Proof. apply lookup_singleton_eq. Qed.

Lemma dicom_path (w : world) (f : UploadedFile) (s : state) :
  str_in (file_extension f) ["dcm"; "dicom"] = true ->
  fs_write_fault w temp_dicom_path = None ->
  fs_remove_fault w temp_dicom_path = None ->
  process_uploaded_file w f s
  = (reraise "Error processing uploaded file: "
       (fst (process_dicom w temp_dicom_path
               (disk {[ temp_dicom_path := getbuffer f ]}))),
     set_files (delete temp_dicom_path) s).
Proof.
  intros Hext Hw Hr. unfold process_uploaded_file. rewrite Hext.
  unfold try_except, bind at 1, write_file. rewrite Hw.
  unfold try_finally, process_dicom, dcmread, bind, os_path_exists, gets, os_remove.
  cbn [files set_files disk initial_state fst].
  rewrite lookup_written, lookup_only, Hr.
  rewrite bool_decide_eq_true_2 by eauto.
  cbn [set_files files]. rewrite lookup_written.
  rewrite <- (set_files_delete_insert temp_dicom_path (getbuffer f) s).
  destruct (reraise _ _) as [im|e]; reflexivity.
Qed.

(** X1: on the DICOM path, when the temporary file can be written and removed,
    [process_uploaded_file] returns what [process_dicom] makes of the uploaded
    bytes, whatever temp_dicom_file.dcm held before, under the prefix of the
    outer handler; the state it leaves is the one it found, less the temporary
    file. *)
Theorem X1_dicom_upload_decodes_uploaded_bytes (w : world) (f : UploadedFile)
    (s : state) :
  str_in (file_extension f) ["dcm"; "dicom"] = true ->
  fs_write_fault w temp_dicom_path = None ->
  fs_remove_fault w temp_dicom_path = None ->
  process_uploaded_file w f s
  = (reraise "Error processing uploaded file: "
       (fst (process_dicom w temp_dicom_path
               (disk {[ temp_dicom_path := getbuffer f ]}))),
     set_files (delete temp_dicom_path) s).
Proof. apply dicom_path. Qed.

Lemma X1_dicom_upload_decodes_uploaded_bytes_witness :
  process_uploaded_file (dicom_world ct_matrix) (Upload "Brain.DCM" [])
    (disk {[ temp_dicom_path := [Byte.x00] ]})
  = (reraise "Error processing uploaded file: "
       (fst (process_dicom (dicom_world ct_matrix) temp_dicom_path
               (disk {[ temp_dicom_path := getbuffer (Upload "Brain.DCM" []) ]}))),
     set_files (delete temp_dicom_path) (disk {[ temp_dicom_path := [Byte.x00] ]})).
Proof.
  apply (X1_dicom_upload_decodes_uploaded_bytes (dicom_world ct_matrix)
           (Upload "Brain.DCM" []) (disk {[ temp_dicom_path := [Byte.x00] ]}));
    reflexivity.
Defined.

Lemma dicom_path_write_fault (w : world) (f : UploadedFile) (s : state)
    (fault : write_fault) :
  str_in (file_extension f) ["dcm"; "dicom"] = true ->
  fs_write_fault w temp_dicom_path = Some fault ->
  process_uploaded_file w f s
  = (Raise (Exn PlainException
       ("Error processing uploaded file: " +:+ str (write_fault_exn fault))),
     match fault with
     | OpenFails _ => s
     | WriteFails _ partial => set_files (insert temp_dicom_path partial) s
     end).
Proof.
  intros Hext Hw. unfold process_uploaded_file. rewrite Hext.
  unfold try_except, bind at 1, write_file. rewrite Hw.
  destruct fault; reflexivity.
Qed.

Lemma dicom_path_remove_fault (w : world) (f : UploadedFile) (s : state) (e : exn) :
  str_in (file_extension f) ["dcm"; "dicom"] = true ->
  fs_write_fault w temp_dicom_path = None ->
  fs_remove_fault w temp_dicom_path = Some e ->
  process_uploaded_file w f s
  = (Raise (Exn PlainException ("Error processing uploaded file: " +:+ str e)),
     set_files (insert temp_dicom_path (getbuffer f)) s).
Proof.
  intros Hext Hw Hr. unfold process_uploaded_file. rewrite Hext.
  unfold try_except, bind at 1, write_file. rewrite Hw.
  unfold try_finally, process_dicom, bind, os_path_exists, gets, os_remove.
  cbn [files set_files]. rewrite lookup_written, Hr.
  rewrite bool_decide_eq_true_2 by eauto. reflexivity.
Qed.

Lemma non_dicom_path (w : world) (f : UploadedFile) (s : state) :
  str_in (file_extension f) ["dcm"; "dicom"] = false ->
  process_uploaded_file w f s
  = (reraise "Error processing uploaded file: "
       (if str_in (file_extension f) ["tif"; "tiff"]
        then process_tiff w f else generic_decode w f), s).
Proof.
  intros H. unfold process_uploaded_file. rewrite H.
  unfold try_except, lift, raise, generic_decode.
  destruct (str_in (file_extension f) ["tif"; "tiff"]).
  - destruct (process_tiff w f); reflexivity.
  - destruct (rbind _ _); reflexivity.
Qed.

Lemma reraise_inv {A : Type} (prefix : string) (r : result A) (e : exn) :
  reraise prefix r = Raise e ->
  exists e0, r = Raise e0 /\ e = Exn PlainException (prefix +:+ str e0).
Proof. destruct r as [a|e0]; simpl; [discriminate|]. intros [= <-]. eauto. Qed.

(** X2: every exception that leaves [process_uploaded_file] is a plain
    [Exception] whose message starts with "Error processing uploaded file: ";
    on the TIFF path the prefix of [process_tiff] follows, and on the DICOM
    path, when the temporary file was written and removed, the prefix of
    [process_dicom]. *)
Theorem X2_upload_error_is_wrapped (w : world) (f : UploadedFile) (s s' : state)
    (e : exn) :
  process_uploaded_file w f s = (Raise e, s') ->
  exn_cls e = PlainException /\
  (exists m, exn_msg e = "Error processing uploaded file: " +:+ m) /\
  (str_in (file_extension f) ["dcm"; "dicom"] = false ->
   str_in (file_extension f) ["tif"; "tiff"] = true ->
   exists m, exn_msg e
     = "Error processing uploaded file: Error processing TIFF file: " +:+ m) /\
  (str_in (file_extension f) ["dcm"; "dicom"] = true ->
   fs_write_fault w temp_dicom_path = None ->
   fs_remove_fault w temp_dicom_path = None ->
   exists m, exn_msg e
     = "Error processing uploaded file: Error processing DICOM file: " +:+ m).
Proof.
  intros H. split; [|split; [|split]].
  - unfold process_uploaded_file, try_except, raise in H.
    destruct (_ s) as [[im|e0] s1]; [discriminate|]. now injection H as <- _.
  - unfold process_uploaded_file, try_except, raise in H.
    destruct (_ s) as [[im|e0] s1]; [discriminate|]. injection H as <- _.
    eexists. reflexivity.
  - intros H1 H2. rewrite (non_dicom_path w f s H1), H2 in H.
    injection H as H _. apply reraise_inv in H as (e0 & H & ->).
    apply reraise_inv in H as (e1 & _ & ->). eexists. reflexivity.
  - intros H1 H2 H3. rewrite (dicom_path w f s H1 H2 H3) in H.
    injection H as H _. apply reraise_inv in H as (e0 & H & ->).
    apply reraise_inv in H as (e1 & _ & ->). eexists. reflexivity.
Qed.

Lemma X2_upload_error_is_wrapped_witness :
  exn_cls (Exn PlainException
    "Error processing uploaded file: Error processing TIFF file: cannot identify image file")
  = PlainException /\
  (exists m, exn_msg (Exn PlainException
      "Error processing uploaded file: Error processing TIFF file: cannot identify image file")
     = "Error processing uploaded file: " +:+ m) /\
  (str_in (file_extension (Upload "slide.tiff" [])) ["dcm"; "dicom"] = false ->
   str_in (file_extension (Upload "slide.tiff" [])) ["tif"; "tiff"] = true ->
   exists m, exn_msg (Exn PlainException
      "Error processing uploaded file: Error processing TIFF file: cannot identify image file")
     = "Error processing uploaded file: Error processing TIFF file: " +:+ m) /\
  (str_in (file_extension (Upload "slide.tiff" [])) ["dcm"; "dicom"] = true ->
   fs_write_fault plain_world temp_dicom_path = None ->
   fs_remove_fault plain_world temp_dicom_path = None ->
   exists m, exn_msg (Exn PlainException
      "Error processing uploaded file: Error processing TIFF file: cannot identify image file")
     = "Error processing uploaded file: Error processing DICOM file: " +:+ m).
Proof.
  apply (X2_upload_error_is_wrapped plain_world (Upload "slide.tiff" []) (disk ∅) (disk ∅)).
  vm_compute; reflexivity.
Defined.

(** X3: for a file that is not DICOM, [process_uploaded_file] leaves the state
    as it is, and an image it returns has mode L or RGB, 8 bits per channel. *)
Theorem X3_non_dicom_upload_is_normalized (w : world) (f : UploadedFile) (s : state) :
  str_in (file_extension f) ["dcm"; "dicom"] = false ->
  snd (process_uploaded_file w f s) = s /\
  forall im : Image.t,
    fst (process_uploaded_file w f s) = Ok im -> normalized_mode im.
Proof.
  intros H. rewrite (non_dicom_path w f s H). split; [reflexivity|].
  cbn [fst]. intros im Him.
  destruct (str_in (file_extension f) ["tif"; "tiff"]).
  - destruct (process_tiff w f) as [im'|e] eqn:E; simpl in Him; [|discriminate].
    injection Him as <-. eapply process_tiff_mode; eauto.
  - unfold generic_decode in Him.
    destruct (pil_open w (getbuffer f)) as [image|e]; simpl in Him; [|discriminate].
    destruct (to_rgb_if_needed w image) as [im'|e] eqn:E; simpl in Him; [|discriminate].
    injection Him as <-. eapply to_rgb_if_needed_mode; eauto.
Qed.

Lemma X3_non_dicom_upload_is_normalized_witness :
  snd (process_uploaded_file (raster_world (Image.Build "CMYK" (4, 2) []))
         (Upload "slide.tif" []) (disk ∅)) = disk ∅ /\
  forall im : Image.t,
    fst (process_uploaded_file (raster_world (Image.Build "CMYK" (4, 2) []))
           (Upload "slide.tif" []) (disk ∅)) = Ok im ->
    normalized_mode im.
Proof.
  apply (X3_non_dicom_upload_is_normalized (raster_world (Image.Build "CMYK" (4, 2) []))
           (Upload "slide.tif" []) (disk ∅)).
  reflexivity.
Defined.

(** X4: for a two-dimensional DICOM matrix, the image that [process_dicom]
    returns has mode L or RGB at 8 bits exactly when the rescale was taken
    (the maximum exceeds 255) or the matrix was of dtype uint8 already. *)
Theorem X4_dicom_mode_characterised (w : world) (s : state) (path : string)
    (content : bytes) (M : np.ndarray) (mx : Z) (im : Image.t) :
  files s !! path = Some content ->
  dcm_pixel_array w content = Ok M ->
  length (np.nd_shape M) = 2%nat ->
  np.max M = Ok mx ->
  process_dicom w path s = (Ok im, s) ->
  (normalized_mode im <-> np.nd_dtype M = np.uint8 \/ 255 < mx).
Proof.
  intros Hf Hd Hshape Hmax Him.
  destruct (Z.ltb_spec 255 mx) as [Hbig|Hsmall].
  - split; [auto|intros _].
    rewrite (process_dicom_unfold w s path content M Hf Hd) in Him.
    unfold normalize_to_8bit in Him. rewrite Hmax in Him. simpl rbind in Him.
    destruct (255 <? mx) eqn:E; [|lia].
    assert (exists mn, np.min M = Ok mn) as [mn Hmin].
    { unfold np.max, np.min, np.reduce in *.
      destruct (np.nd_data M); [discriminate|eauto]. }
    rewrite Hmin in Him. simpl rbind in Him.
    destruct M as [dt shape samples]. cbn [np.nd_shape np.nd_dtype np.nd_data] in *.
    unfold np.astype_uint8_array, np.multiply, np.true_divide, np.subtract in Him.
    cbn [np.nd_dtype np.nd_shape np.nd_data np.f_shape np.f_data] in Him.
    match type of Him with
    | context [Image.fromarray (np.Ndarray np.uint8 shape ?d)] =>
        destruct (fromarray_matrix np.uint8 shape d Hshape) as (m & sz & Hm & Hfrom);
        rewrite Hfrom in Him
    end.
    injection Hm as <-. injection Him as <-. split; auto.
  - destruct (dicom_identity_mode w s path content M mx im Hf Hd Hshape Hmax Hsmall Him)
      as [Hm Hn].
    split.
    + intros Hnorm. left. destruct (np.nd_dtype M) eqn:E; auto; exfalso;
        apply Hn; auto; discriminate.
    + intros [Hu|Hc]; [|lia]. rewrite Hu in Hm. injection Hm as Hm.
      unfold normalized_mode. rewrite <- Hm. split; auto.
Qed.

Lemma X4_dicom_mode_characterised_witness :
  normalized_mode (Image.Build "I" (3, 1) [-1000; 0; 200])
  <-> np.nd_dtype low_matrix = np.uint8 \/ 255 < 200.
Proof.
  apply (X4_dicom_mode_characterised (dicom_world low_matrix)
           (disk {[ temp_dicom_path := [] ]}) temp_dicom_path [] low_matrix 200);
    reflexivity.
Defined.

(** X5: a DICOM upload whose pixel array is empty: [pixel_array.max()] raises
    on it, the error is wrapped by [process_dicom] and by
    [process_uploaded_file], the image block shows it and yields no image, and
    the temporary file is removed. *)
Theorem X5_empty_dicom_pixel_array_reported (w : world) (f : UploadedFile)
    (s : state) (M : np.ndarray) :
  str_in (file_extension f) ["dcm"; "dicom"] = true ->
  fs_write_fault w temp_dicom_path = None ->
  fs_remove_fault w temp_dicom_path = None ->
  dcm_pixel_array w (getbuffer f) = Ok M ->
  np.nd_data M = [] ->
  image_container w f s
  = (Ok None,
     emit (st_error
       "Error processing image: Error processing uploaded file: Error processing DICOM file: zero-size array to reduction operation maximum which has no identity")
       (set_files (delete temp_dicom_path) s)).
Proof.
  intros Hext Hw Hr HM Hempty.
  unfold image_container, try_except, bind at 1.
  rewrite (dicom_path w f s Hext Hw Hr).
  unfold process_dicom, dcmread. cbn [files disk initial_state fst].
  rewrite lookup_only, HM. cbn [rbind].
  unfold normalize_to_8bit, np.max. rewrite Hempty. reflexivity.
Qed.

Lemma X5_empty_dicom_pixel_array_reported_witness :
  image_container (dicom_world (np.Ndarray np.uint16 [0; 0] []))
    (Upload "scan.dcm" []) (disk ∅)
  = (Ok None,
     emit (st_error
       "Error processing image: Error processing uploaded file: Error processing DICOM file: zero-size array to reduction operation maximum which has no identity")
       (set_files (delete temp_dicom_path) (disk ∅))).
Proof.
  apply (X5_empty_dicom_pixel_array_reported
           (dicom_world (np.Ndarray np.uint16 [0; 0] []))
           (Upload "scan.dcm" []) (disk ∅) (np.Ndarray np.uint16 [0; 0] []));
    reflexivity.
Defined.

(** X6: on the DICOM path, when the temporary file was written and [os.remove]
    fails, [process_uploaded_file] raises the wrapped removal error whatever
    the decode did, and the temporary file stays on disk with the uploaded
    bytes. *)
Theorem X6_dicom_removal_failure_decides (w : world) (f : UploadedFile)
    (s : state) (e : exn) :
  str_in (file_extension f) ["dcm"; "dicom"] = true ->
  fs_write_fault w temp_dicom_path = None ->
  fs_remove_fault w temp_dicom_path = Some e ->
  process_uploaded_file w f s
  = (Raise (Exn PlainException ("Error processing uploaded file: " +:+ str e)),
     set_files (insert temp_dicom_path (getbuffer f)) s).
Proof. apply dicom_path_remove_fault. Qed.

Lemma X6_dicom_removal_failure_decides_witness :
  process_uploaded_file (locked_files plain_world) (Upload "scan.dicom" []) (disk ∅)
  = (Raise (Exn PlainException
       ("Error processing uploaded file: "
        +:+ str (Exn OSError "[Errno 13] Permission denied"))),
     set_files (insert temp_dicom_path (getbuffer (Upload "scan.dicom" []))) (disk ∅)).
Proof.
  apply (X6_dicom_removal_failure_decides (locked_files plain_world)
           (Upload "scan.dicom" []) (disk ∅)); reflexivity.
Defined.

(** X7: on the DICOM path a failure to write the temporary file is raised
    wrapped and nothing is decoded; when [open] failed the state is unchanged,
    and when the write failed after [open] the partial file stays on disk. *)
Theorem X7_dicom_write_failure_skips_decode (w : world) (f : UploadedFile)
    (s : state) (fault : write_fault) :
  str_in (file_extension f) ["dcm"; "dicom"] = true ->
  fs_write_fault w temp_dicom_path = Some fault ->
  process_uploaded_file w f s
  = (Raise (Exn PlainException
       ("Error processing uploaded file: " +:+ str (write_fault_exn fault))),
     match fault with
     | OpenFails _ => s
     | WriteFails _ partial => set_files (insert temp_dicom_path partial) s
     end).
Proof. apply dicom_path_write_fault. Qed.

Lemma X7_dicom_write_failure_skips_decode_witness :
  process_uploaded_file (read_only_disk (dicom_world ct_matrix))
    (Upload "scan.dcm" []) (disk ∅)
  = (Raise (Exn PlainException
       ("Error processing uploaded file: "
        +:+ str (write_fault_exn
                   (OpenFails (Exn OSError "[Errno 30] Read-only file system"))))),
     disk ∅).
Proof.
  apply (X7_dicom_write_failure_skips_decode (read_only_disk (dicom_world ct_matrix))
           (Upload "scan.dcm" []) (disk ∅)
           (OpenFails (Exn OSError "[Errno 30] Read-only file system")));
    reflexivity.
Defined.

(** ** Which files a run touches *)

(** Decomposes a block into its statements, for a transitive relation [R];
    [leaf] settles the single statements. *)
Ltac rel_steps R Rtrans leaf :=
  repeat first
    [ leaf
    | eapply (preserves_bind R R R); [auto | exact Rtrans | | intro]
    | eapply (preserves_try_except R R R); [auto | exact Rtrans | | intro]
    | eapply (preserves_try_finally R R R); [exact Rtrans | | ]
    | match goal with
      | |- preserves _ (if ?b then _ else _) => destruct b
      | |- preserves _ (match ?x with _ => _ end) => destruct x
      end ].

Lemma kept_trans (p : string) (a b c : state) : kept p a b -> kept p b c -> kept p a c.
Proof. unfold kept. congruence. Qed.

Lemma kept_unchanged {A : Type} (p : string) (m : io A) :
  (forall s, files (snd (m s)) = files s) -> preserves (kept p) m.
Proof. intros H s. unfold kept. now rewrite H. Qed.

Lemma write_file_kept (w : world) (path : string) (content : bytes) (p : string) :
  p <> path -> preserves (kept p) (write_file w path content).
Proof.
  intros Hp s. unfold kept, write_file.
  destruct (fs_write_fault w path) as [[e|e partial]|]; simpl; auto;
    now apply lookup_insert_ne.
Qed.

Lemma os_remove_kept (w : world) (path : string) (p : string) :
  p <> path -> preserves (kept p) (os_remove w path).
Proof.
  intros Hp s. unfold kept, os_remove.
  destruct (fs_remove_fault w path); simpl; auto.
  destruct (files s !! path); simpl; auto. now apply lookup_delete_ne.
Qed.

Lemma show_image_files (w : world) (im : Image.t) (s : state) :
  files (snd (show_image w im s)) = files s.
Proof. unfold show_image. destruct (st_image_fault w im); reflexivity. Qed.

Ltac kept_leaf :=
  first [ apply kept_unchanged; intro; reflexivity
        | apply kept_unchanged; intro; apply show_image_files
        | apply write_file_kept; assumption
        | apply os_remove_kept; assumption ].

Lemma process_uploaded_file_kept (w : world) (f : UploadedFile) (p : string) :
  p <> temp_dicom_path -> preserves (kept p) (process_uploaded_file w f).
Proof.
  intros Hp. unfold process_uploaded_file.
  rel_steps (kept p) (kept_trans p) kept_leaf.
Qed.

Lemma analyze_kept (w : world) (resized : option Image.t) (p : string) :
  p <> temp_image_path -> preserves (kept p) (analyze w resized).
Proof.
  intros Hp. unfold analyze.
  rel_steps (kept p) (kept_trans p) kept_leaf.
Qed.

Ltac kept_blocks :=
  first [ kept_leaf
        | apply process_uploaded_file_kept; assumption
        | apply analyze_kept; assumption ].

Lemma script_kept (w : world) (inp : run_input) (p : string) :
  p <> temp_dicom_path -> p <> temp_image_path ->
  preserves (kept p) (script w inp).
Proof.
  intros Hd Hi.
  unfold script, sidebar, sidebar_notes, init_medical_agent, image_container,
    analysis_container.
  rel_steps (kept p) (kept_trans p) kept_blocks.
Qed.

Lemma react_kept (w : world) (i : interaction) (inp : run_input) (p : string) :
  p <> temp_dicom_path -> p <> temp_image_path ->
  preserves (kept p) (react w i inp).
Proof.
  intros Hd Hi. destruct i; simpl; [|now apply script_kept].
  eapply (preserves_bind (kept p) (kept p) (kept p));
    [auto | exact (kept_trans p) | kept_leaf | intro; now apply script_kept].
Qed.

(** X8: [process_uploaded_file] changes no file other than
    temp_dicom_file.dcm, and it leaves the API key, the flag and what was
    shown as they were. *)
Theorem X8_upload_processing_frame (w : world) (f : UploadedFile) (s : state)
    (path : string) :
  path <> temp_dicom_path ->
  files (snd (process_uploaded_file w f s)) !! path = files s !! path /\
  same_session s (snd (process_uploaded_file w f s)).
Proof.
  intros Hp. split.
  - now apply process_uploaded_file_kept.
  - apply process_uploaded_file_session.
Qed.

Lemma X8_upload_processing_frame_witness :
  files (snd (process_uploaded_file (dicom_world ct_matrix) (Upload "scan.dcm" [])
                (disk {[ "notes.txt" := [] ]}))) !! "notes.txt"
  = files (disk {[ "notes.txt" := [] ]}) !! "notes.txt" /\
  same_session (disk {[ "notes.txt" := [] ]})
    (snd (process_uploaded_file (dicom_world ct_matrix) (Upload "scan.dcm" [])
            (disk {[ "notes.txt" := [] ]}))).
Proof.
  apply (X8_upload_processing_frame (dicom_world ct_matrix) (Upload "scan.dcm" [])
           (disk {[ "notes.txt" := [] ]}) "notes.txt").
  discriminate.
Defined.

(** X9: over a whole session, whatever the collaborators and the file system
    do, every file other than temp_dicom_file.dcm and temp_medical_image.png
    is as it was at the start. *)
Theorem X9_session_touches_only_temp_files
    (runs : list (world * interaction * run_input)) (s : state) (path : string) :
  path <> temp_dicom_path -> path <> temp_image_path ->
  files (session runs s) !! path = files s !! path.
Proof.
  intros Hd Hi. revert s.
  induction runs as [|[[w i] inp] runs IH]; intros s; simpl; [reflexivity|].
  rewrite IH. now apply react_kept.
Qed.

Lemma X9_session_touches_only_temp_files_witness :
  files (session
           [(locked_files (dicom_world ct_matrix), AnalyzeClick,
             RunInput "" false None (Some (Upload "scan.dcm" [])))]
           (State {[ "notes.txt" := [] ]} (Some "key") false [])) !! "notes.txt"
  = files (State {[ "notes.txt" := [] ]} (Some "key") false []) !! "notes.txt".
Proof.
  apply (X9_session_touches_only_temp_files
           [(locked_files (dicom_world ct_matrix), AnalyzeClick,
             RunInput "" false None (Some (Upload "scan.dcm" [])))]
           (State {[ "notes.txt" := [] ]} (Some "key") false []) "notes.txt");
    discriminate.
Defined.

(** ** A run on a tidy file system leaves the disk as it found it *)

Lemma stays_absent_trans (p : string) (a b c : state) :
  stays_absent p a b -> stays_absent p b c -> stays_absent p a c.
Proof. unfold stays_absent. auto. Qed.

Lemma kept_stays_absent {A : Type} (p : string) (m : io A) :
  preserves (kept p) m -> preserves (stays_absent p) m.
Proof. intros H s Hs. rewrite (H s). exact Hs. Qed.

Lemma process_uploaded_file_stays_absent (w : world) (f : UploadedFile) :
  tidy w -> preserves (stays_absent temp_dicom_path) (process_uploaded_file w f).
Proof.
  intros (Hw & Hr & _) s Hs.
  destruct (str_in (file_extension f) ["dcm"; "dicom"]) eqn:Hext.
  - destruct (fs_write_fault w temp_dicom_path) as [fault|] eqn:Ef.
    + rewrite (dicom_path_write_fault w f s fault Hext Ef).
      destruct fault as [e|e partial]; [exact Hs|]. now destruct (Hw e partial).
    + rewrite (dicom_path w f s Hext Ef Hr). apply lookup_delete_eq.
  - rewrite (non_dicom_path w f s Hext). exact Hs.
Qed.

Lemma analyze_absent (w : world) (resized : option Image.t) (s : state) :
  fs_remove_fault w temp_image_path = None ->
  files (snd (analyze w resized s)) !! temp_image_path = None.
Proof.
  intros Hi. unfold analyze. rewrite try_finally_state.
  apply cleanup_absent. intros s0.
  apply guarded_remove_absent; [reflexivity | exact Hi].
Qed.

Lemma temp_paths_differ : temp_image_path <> temp_dicom_path.
Proof. discriminate. Qed.

Lemma script_stays_absent_dicom (w : world) (inp : run_input) :
  tidy w -> preserves (stays_absent temp_dicom_path) (script w inp).
Proof.
  intros Ht.
  pose proof temp_paths_differ as Hne.
  assert (Hne' : temp_dicom_path <> temp_image_path) by congruence.
  unfold script, sidebar, sidebar_notes, init_medical_agent, image_container,
    analysis_container.
  rel_steps (stays_absent temp_dicom_path) (stays_absent_trans temp_dicom_path)
    ltac:(first [ apply process_uploaded_file_stays_absent; assumption
                | apply kept_stays_absent; kept_blocks ]).
Qed.

Lemma script_stays_absent_image (w : world) (inp : run_input) :
  tidy w -> preserves (stays_absent temp_image_path) (script w inp).
Proof.
  intros (_ & _ & Hi).
  pose proof temp_paths_differ as Hne.
  unfold script, sidebar, sidebar_notes, init_medical_agent, image_container,
    analysis_container.
  rel_steps (stays_absent temp_image_path) (stays_absent_trans temp_image_path)
    ltac:(first [ intros s0 _; now apply analyze_absent
                | apply kept_stays_absent; kept_blocks ]).
Qed.

Lemma script_restores (w : world) (inp : run_input) (s : state) :
  tidy w ->
  files s !! temp_dicom_path = None -> files s !! temp_image_path = None ->
  files (snd (script w inp s)) = files s.
Proof.
  intros Ht Hd Hi. apply map_eq. intros p.
  destruct (decide (p = temp_dicom_path)) as [->|Hpd].
  { rewrite Hd. now apply script_stays_absent_dicom. }
  destruct (decide (p = temp_image_path)) as [->|Hpi].
  { rewrite Hi. now apply script_stays_absent_image. }
  now apply script_kept.
Qed.

(** X10: on a file system that removes the temporary files when asked and does
    not fail in the middle of writing the DICOM one, a session that starts
    with neither temporary file on disk leaves the disk exactly as it found
    it. *)
Theorem X10_session_restores_disk
    (runs : list (world * interaction * run_input)) (s : state) :
  Forall (fun r => tidy (fst (fst r))) runs ->
  files s !! temp_dicom_path = None -> files s !! temp_image_path = None ->
  files (session runs s) = files s.
Proof.
  intros Ht. revert s.
  induction Ht as [|[[w i] inp] runs Hw _ IH]; intros s Hd Hi; simpl; [reflexivity|].
  simpl in Hw.
  assert (E : files (snd (react w i inp s)) = files s).
  { destruct i; simpl; [|now apply script_restores].
    unfold bind, on_analyze_click, modify.
    now rewrite script_restores. }
  rewrite IH; rewrite ?E; auto.
Qed.

Lemma X10_session_restores_disk_witness :
  files (session
           [(dicom_world ct_matrix, AnalyzeClick,
             RunInput "" false None (Some (Upload "scan.dcm" [])));
            (model_down plain_world, AnalyzeClick,
             RunInput "" false None (Some (Upload "chest.png" [])))]
           (State {[ "notes.txt" := [] ]} (Some "key") false []))
  = files (State {[ "notes.txt" := [] ]} (Some "key") false []).
Proof.
  apply (X10_session_restores_disk
           [(dicom_world ct_matrix, AnalyzeClick,
             RunInput "" false None (Some (Upload "scan.dcm" [])));
            (model_down plain_world, AnalyzeClick,
             RunInput "" false None (Some (Upload "chest.png" [])))]
           (State {[ "notes.txt" := [] ]} (Some "key") false [])).
  - repeat constructor; simpl; discriminate.
  - reflexivity.
  - reflexivity.
Defined.

(** ** What the image block shows *)

Lemma resized_image_size (w : world) (image im : Image.t) :
  resized_image w image = Ok im ->
  Image.width im = 500 /\ 1 <= Image.height im /\ Image.mode im = Image.mode image.
Proof.
  unfold resized_image. intros H.
  destruct (new_size (Image.width image) (Image.height image)) as [sz|e] eqn:E;
    [|discriminate].
  simpl in H. destruct (new_size_inv _ _ _ E) as (_ & nh & -> & _).
  destruct (resize_size _ _ _ _ H) as (Hsz & _ & H1 & Hm). simpl in H1.
  unfold Image.width, Image.height. rewrite Hsz. auto.
Qed.

(** X11: the image block never raises and ends in one of three ways.  The
    decode or the resize raised: one error "Error processing image: ..." is
    shown, no image results and no Analyze button is offered.  Or the image
    was resized, to width 500, height at least 1 and the mode of the decoded
    image, and [st.image] showed it: the Analyze button follows.  Or
    [st.image] raised on the resized image: the error is shown and no button
    is offered, yet the resized image stays assigned for the analysis
    block. *)
Theorem X11_image_container_reports (w : world) (f : UploadedFile) (s : state) :
  (exists msg : string,
     image_container w f s
     = (Ok None,
        emit (st_error ("Error processing image: " +:+ msg))
          (snd (process_uploaded_file w f s)))) \/
  (exists image im : Image.t,
     fst (process_uploaded_file w f s) = Ok image /\
     resized_image w image = Ok im /\
     Image.width im = 500 /\ 1 <= Image.height im /\
     Image.mode im = Image.mode image /\
     image_container w f s
     = (Ok (Some im),
        match st_image_fault w im with
        | None =>
            emit (st_button "Analyze Image")
              (emit (st_image im) (snd (process_uploaded_file w f s)))
        | Some e =>
            emit (st_error ("Error processing image: " +:+ str e))
              (snd (process_uploaded_file w f s))
        end)).
Proof.
  unfold image_container, report_image_error, show_image, try_except, bind,
    lift, modify, ret.
  destruct (process_uploaded_file w f s) as [[image|e] s1]; cbn [fst snd].
  - destruct (resized_image w image) as [im|e] eqn:E.
    + right. exists image, im. split; [reflexivity|]. split; [exact E|].
      destruct (resized_image_size w image im E) as (H1 & H2 & H3).
      repeat (split; [assumption|]).
      destruct (st_image_fault w im); reflexivity.
    + left. eexists. reflexivity.
  - left. eexists. reflexivity.
Qed.

(** The third ending, on the 16-bit image of C4 and a display that cannot
    show mode I;16: no image and no button are shown, and the resized image
    is handed to the analysis block all the same. *)
Example dicom_16bit_not_shown :
  image_container (eight_bit_display (dicom_world dark_matrix))
    (Upload "scan.dcm" []) (disk ∅)
  = (Ok (Some (Image.Build "I;16" (500, 250) [0; 100])),
     emit (st_error "Error processing image: cannot show an image of mode I;16")
       (disk ∅)).
Proof. vm_compute; reflexivity. Qed.

(** ** When the model is called *)

Lemma agent_calls_emit (e : effect) (s : state) :
  is_agent_call e = false -> agent_calls (emit e s) = agent_calls s.
Proof. intros H. unfold agent_calls. simpl. now rewrite H. Qed.

Lemma analysis_container_no_agent (w : world) (resized : option Image.t) :
  preserves quiet (analysis_container w false resized).
Proof. unfold analysis_container. simpl. quiet_steps. Qed.

Lemma write_file_calls_grow (w : world) (path : string) (content : bytes) :
  preserves calls_grow (write_file w path content).
Proof.
  intros s. destruct (write_file_session w path content s) as (_ & _ & E).
  unfold calls_grow, agent_calls. now rewrite E.
Qed.

Lemma os_remove_calls_grow (w : world) (path : string) :
  preserves calls_grow (os_remove w path).
Proof.
  intros s. destruct (os_remove_session w path s) as (_ & _ & E).
  unfold calls_grow, agent_calls. now rewrite E.
Qed.

Lemma calls_grow_trans (a b c : state) :
  calls_grow a b -> calls_grow b c -> calls_grow a c.
Proof. unfold calls_grow. lia. Qed.

Lemma emit_calls_grow (e : effect) : preserves calls_grow (modify (emit e)).
Proof.
  intros s. unfold calls_grow, agent_calls. simpl.
  destruct (is_agent_call e); simpl; lia.
Qed.

Lemma analyze_calls_grow (w : world) (resized : option Image.t) :
  preserves calls_grow (analyze w resized).
Proof.
  unfold analyze.
  rel_steps calls_grow calls_grow_trans
    ltac:(first [ apply emit_calls_grow
                | apply write_file_calls_grow
                | apply os_remove_calls_grow
                | intro; unfold calls_grow, agent_calls; simpl; lia ]).
Qed.

Ltac settle_calls :=
  cbn [agent_calls emit effects List.filter is_agent_call length analyze_clicked
       GOOGLE_API_KEY set_GOOGLE_API_KEY snd] in *.

Ltac tail_without_agent w :=
  match goal with
  | |- context [image_container w ?f ?s0] =>
      let r := fresh "r" in let s1 := fresh "s1" in
      let E := fresh "E" in let Hc := fresh "Hc" in let Hn := fresh "Hn" in
      destruct (image_container_total w f s0) as (r & s1 & E & _ & Hc & Hn);
      rewrite E;
      let Q1 := fresh "Q" in let Q2 := fresh "Q" in
      pose proof (analysis_container_no_agent w r s1) as [Q1 Q2];
      settle_calls; intros H; exfalso; apply H; unfold agent_calls in *; congruence
  end.

(** X12: a run of the script changes the number of model calls only if the
    flag was set, an API key was configured, Reset was not pressed, the agent
    was built and a file was uploaded; the run then makes exactly one call and
    clears the flag. *)
Theorem X12_model_call_requires (w : world) (inp : run_input) (s : state) :
  agent_calls (snd (script w inp s)) <> agent_calls s ->
  analyze_clicked s = true /\ truthy (GOOGLE_API_KEY s) = true /\
  reset_key_pressed inp = false /\ agent_init_fault inp = None /\
  is_Some (uploaded inp) /\
  agent_calls (snd (script w inp s)) = S (agent_calls s) /\
  analyze_clicked (snd (script w inp s)) = false.
Proof.
  unfold script, sidebar, sidebar_notes, init_medical_agent.
  unfold bind, gets, modify, ret.
  destruct (truthy (GOOGLE_API_KEY s)) eqn:Ek; cbn [negb].
  - destruct (reset_key_pressed inp) eqn:Er.
    + intros H. now destruct H.
    + cbn [GOOGLE_API_KEY emit]. rewrite Ek.
      destruct (agent_init_fault inp) as [e|] eqn:Ef; cbn [negb].
      * destruct (uploaded inp) as [f|]; [|intros H; now destruct H].
        tail_without_agent w.
      * destruct (uploaded inp) as [f|]; [|intros H; now destruct H].
        match goal with |- context [image_container w f ?s0] =>
          destruct (image_container_total w f s0) as (r & s1 & E & _ & Hc & Hn);
          rewrite E end.
        destruct (analysis_container_spec w true r s1) as (s2 & E2 & _ & Hoff & Hon).
        rewrite E2. settle_calls. intros H.
        destruct (analyze_clicked s) eqn:Eclick.
        -- destruct (Hon Hc eq_refl) as [Hflag Hle].
           assert (Hge : (agent_calls s1 <= agent_calls s2)%nat).
           { revert E2. unfold analysis_container, bind, gets, modify.
             rewrite Hc. cbn [negb].
             pose proof (analyze_calls_grow w r s1) as G.
             destruct (analyze w r s1) as [[[]|e] s3]; intros [= <-]; exact G. }
           unfold agent_calls in *. repeat split; eauto; lia.
        -- rewrite (Hoff Hc) in H. now destruct H.
  - destruct (negb (api_key_input inp =? "")%string) eqn:Ei.
    + intros H. now destruct H.
    + cbn [GOOGLE_API_KEY emit]. rewrite Ek. cbn [negb].
      destruct (uploaded inp) as [f|]; [|intros H; now destruct H].
      tail_without_agent w.
Qed.

Lemma X12_model_call_requires_witness :
  analyze_clicked clicked_state = true /\
  truthy (GOOGLE_API_KEY clicked_state) = true /\
  reset_key_pressed (RunInput "" false None (Some (Upload "chest.png" []))) = false /\
  agent_init_fault (RunInput "" false None (Some (Upload "chest.png" []))) = None /\
  is_Some (uploaded (RunInput "" false None (Some (Upload "chest.png" [])))) /\
  agent_calls (snd (script (raster_world wide_image)
                      (RunInput "" false None (Some (Upload "chest.png" [])))
                      clicked_state))
  = S (agent_calls clicked_state) /\
  analyze_clicked (snd (script (raster_world wide_image)
                          (RunInput "" false None (Some (Upload "chest.png" [])))
                          clicked_state)) = false.
Proof.
  apply (X12_model_call_requires (raster_world wide_image)
           (RunInput "" false None (Some (Upload "chest.png" []))) clicked_state).
  vm_compute. discriminate.
Defined.

(** ** The outcomes of the analysis step *)

(** X13: the analysis step when the image can be saved and the file removed:
    the model is called once, on the PNG encoding of the resized image; its
    answer is shown between two rules under the heading and followed by the
    note, or its failure is shown as "Analysis error: ..."; the step returns
    normally and the temporary file is gone. *)
Theorem X13_analysis_shows_model_outcome (w : world) (im : Image.t) (s : state) :
  fs_write_fault w temp_image_path = None ->
  fs_remove_fault w temp_image_path = None ->
  analyze w (Some im) s
  = (Ok tt,
     State (delete temp_image_path (files s)) (GOOGLE_API_KEY s) (analyze_clicked s)
       (match agent_run w query (Some (png_encode w im)) with
        | Ok content =>
            [st_caption "Note: This analysis is generated by AI and should be reviewed by a qualified healthcare professional.";
             st_markdown "---"; st_markdown content; st_markdown "---";
             st_markdown "### Analysis Results"]
        | Raise e => [st_error ("Analysis error: " +:+ str e)]
        end ++ agent_called temp_image_path :: effects s)).
Proof.
  intros Hw Hr. unfold analyze, try_finally, try_except, bind, write_file,
    run_agent, os_path_exists, gets, os_remove, modify, set_files, emit.
  rewrite Hw. cbn [files]. rewrite lookup_written.
  destruct (agent_run w query (Some (png_encode w im))) as [content|e];
    cbn [files GOOGLE_API_KEY analyze_clicked effects]; rewrite lookup_written;
    rewrite bool_decide_eq_true_2 by eauto; rewrite Hr;
    cbn [files GOOGLE_API_KEY analyze_clicked effects];
    rewrite lookup_written, delete_written; reflexivity.
Qed.

Lemma X13_analysis_shows_model_outcome_witness :
  analyze (model_down plain_world) (Some bmp_image) clicked_state
  = (Ok tt,
     State (delete temp_image_path (files clicked_state))
       (GOOGLE_API_KEY clicked_state) (analyze_clicked clicked_state)
       (match agent_run (model_down plain_world) query
                (Some (png_encode (model_down plain_world) bmp_image)) with
        | Ok content =>
            [st_caption "Note: This analysis is generated by AI and should be reviewed by a qualified healthcare professional.";
             st_markdown "---"; st_markdown content; st_markdown "---";
             st_markdown "### Analysis Results"]
        | Raise e => [st_error ("Analysis error: " +:+ str e)]
        end ++ agent_called temp_image_path :: effects clicked_state)).
Proof.
  apply (X13_analysis_shows_model_outcome (model_down plain_world) bmp_image clicked_state);
    reflexivity.
Defined.

(** X14: when the resized image cannot be saved, the analysis step shows
    "Error saving image: ...", makes no model call and returns normally; what
    the failed write left of the temporary file is removed when [os.remove]
    works. *)
Theorem X14_analysis_save_failure_skips_model (w : world) (im : Image.t) (s : state)
    (fault : write_fault) :
  fs_write_fault w temp_image_path = Some fault ->
  fst (analyze w (Some im) s) = Ok tt /\
  agent_calls (snd (analyze w (Some im) s)) = agent_calls s /\
  In (st_error ("Error saving image: " +:+ str (write_fault_exn fault)))
     (effects (snd (analyze w (Some im) s))) /\
  (fs_remove_fault w temp_image_path = None ->
   files (snd (analyze w (Some im) s)) !! temp_image_path = None).
Proof.
  intros Hw. split; [|split; [|split]].
  - destruct (analyze_succeeds w (Some im) s) as [[] H]. exact H.
  - unfold analyze, try_finally, try_except, bind, write_file, os_path_exists,
      gets, os_remove, modify, ret.
    rewrite Hw.
    destruct fault as [e|e partial]; cbn [files set_files emit];
      destruct (bool_decide _); cbn [snd];
      try destruct (fs_remove_fault w temp_image_path);
      try reflexivity;
      match goal with |- context [match ?m !! temp_image_path with _ => _ end] =>
        destruct (m !! temp_image_path) end; reflexivity.
  - unfold analyze, try_finally, try_except, bind, write_file, os_path_exists,
      gets, os_remove, modify, ret.
    rewrite Hw.
    destruct fault as [e|e partial]; cbn [files set_files emit];
      destruct (bool_decide _); cbn [snd];
      try destruct (fs_remove_fault w temp_image_path);
      try (match goal with |- context [match ?m !! temp_image_path with _ => _ end] =>
        destruct (m !! temp_image_path) end);
      cbn [snd effects set_files emit write_fault_exn]; auto using in_eq, in_cons.
  - intros Hr. now apply analyze_absent.
Qed.

Lemma X14_analysis_save_failure_skips_model_witness :
  fst (analyze (read_only_disk plain_world) (Some bmp_image) clicked_state) = Ok tt /\
  agent_calls (snd (analyze (read_only_disk plain_world) (Some bmp_image) clicked_state))
  = agent_calls clicked_state /\
  In (st_error ("Error saving image: "
        +:+ str (write_fault_exn
                   (OpenFails (Exn OSError "[Errno 30] Read-only file system")))))
     (effects (snd (analyze (read_only_disk plain_world) (Some bmp_image) clicked_state))) /\
  (fs_remove_fault (read_only_disk plain_world) temp_image_path = None ->
   files (snd (analyze (read_only_disk plain_world) (Some bmp_image) clicked_state))
     !! temp_image_path = None).
Proof.
  apply (X14_analysis_save_failure_skips_model (read_only_disk plain_world) bmp_image
           clicked_state (OpenFails (Exn OSError "[Errno 30] Read-only file system"))).
  reflexivity.
Defined.

(** X15: with the flag set, an agent and no resized image, the analysis block
    shows "Error: Image processing failed", calls nothing, writes nothing and
    clears the flag: the click is consumed. *)
Theorem X15_analysis_without_image_consumes_click (w : world) (s : state) :
  analyze_clicked s = true ->
  files s !! temp_image_path = None ->
  analysis_container w true None s
  = (Ok tt,
     set_analyze_clicked false (emit (st_error "Error: Image processing failed") s)).
Proof.
  intros Hc Hf. unfold analysis_container, bind, gets. rewrite Hc. cbn [negb].
  unfold analyze, try_finally, try_except, bind, os_path_exists, gets, modify.
  cbn [files emit]. rewrite Hf.
  rewrite bool_decide_eq_false_2 by (intros [x Hx]; discriminate).
  reflexivity.
Qed.

Lemma X15_analysis_without_image_consumes_click_witness :
  analysis_container plain_world true None clicked_state
  = (Ok tt,
     set_analyze_clicked false
       (emit (st_error "Error: Image processing failed") clicked_state)).
Proof.
  apply (X15_analysis_without_image_consumes_click plain_world clicked_state);
    reflexivity.
Defined.

(** ** The API key *)

Lemma same_key_trans (a b c : state) : same_key a b -> same_key b c -> same_key a c.
Proof. unfold same_key. congruence. Qed.

Lemma same_session_same_key {A : Type} (m : io A) :
  preserves same_session m -> preserves same_key m.
Proof. intros H s. now destruct (H s). Qed.

Lemma show_image_same_key (w : world) (im : Image.t) :
  preserves same_key (show_image w im).
Proof. intros s. unfold same_key, show_image. destruct (st_image_fault w im); reflexivity. Qed.

Ltac same_key_leaf :=
  first [ intro; reflexivity
        | apply show_image_same_key
        | apply same_session_same_key, write_file_session
        | apply same_session_same_key, os_remove_session
        | apply same_session_same_key, process_uploaded_file_session ].

Lemma analysis_container_same_key (w : world) (agent : bool)
    (resized : option Image.t) :
  preserves same_key (analysis_container w agent resized).
Proof.
  unfold analysis_container, analyze.
  rel_steps same_key same_key_trans same_key_leaf.
Qed.

Lemma image_container_same_key (w : world) (f : UploadedFile) :
  preserves same_key (image_container w f).
Proof.
  unfold image_container.
  rel_steps same_key same_key_trans same_key_leaf.
Qed.

Lemma key_after_run_aux (w : world) (inp : run_input) (s : state) :
  GOOGLE_API_KEY (snd (script w inp s))
  = if truthy (GOOGLE_API_KEY s)
    then (if reset_key_pressed inp then None else GOOGLE_API_KEY s)
    else (if String.eqb (api_key_input inp) "" then GOOGLE_API_KEY s
          else Some (api_key_input inp)).
Proof.
  assert (Htail : forall agent s0,
    GOOGLE_API_KEY (snd (match uploaded inp with
       | Some uploaded_file =>
           let* resized := image_container w uploaded_file in
           analysis_container w agent resized
       | None =>
           modify (emit (st_info "Please upload a medical image to begin analysis"))
       end s0)) = GOOGLE_API_KEY s0).
  { intros agent s0. revert s0.
    change (preserves same_key (match uploaded inp with
       | Some uploaded_file =>
           let* resized := image_container w uploaded_file in
           analysis_container w agent resized
       | None =>
           modify (emit (st_info "Please upload a medical image to begin analysis"))
       end)).
    rel_steps same_key same_key_trans
      ltac:(first [ apply image_container_same_key
                  | apply analysis_container_same_key
                  | same_key_leaf ]). }
  unfold script, sidebar, sidebar_notes, init_medical_agent.
  unfold bind, gets, modify, ret in *.
  destruct (truthy (GOOGLE_API_KEY s)) eqn:Ek; cbn [negb].
  - destruct (reset_key_pressed inp); [reflexivity|].
    cbn [GOOGLE_API_KEY emit]. rewrite Ek.
    destruct (agent_init_fault inp); cbn [negb]; rewrite Htail; reflexivity.
  - destruct (api_key_input inp =? "")%string; cbn [negb]; [|reflexivity].
    cbn [GOOGLE_API_KEY emit]. rewrite Ek. cbn [negb].
    rewrite Htail. reflexivity.
Qed.

Lemma key_after_react (w : world) (i : interaction) (inp : run_input) (s : state) :
  GOOGLE_API_KEY (snd (react w i inp s))
  = if truthy (GOOGLE_API_KEY s)
    then (if reset_key_pressed inp then None else GOOGLE_API_KEY s)
    else (if String.eqb (api_key_input inp) "" then GOOGLE_API_KEY s
          else Some (api_key_input inp)).
Proof.
  destruct i; simpl; [|apply key_after_run_aux].
  unfold bind, on_analyze_click, modify.
  now rewrite key_after_run_aux.
Qed.

(** X16: in every session that starts without a key, a stored API key is never
    the empty string and is one of the keys typed into the sidebar during the
    session. *)
Theorem X16_stored_key_was_entered
    (runs : list (world * interaction * run_input)) (fs : gmap string bytes)
    (k : string) :
  GOOGLE_API_KEY (session runs (initial_state fs)) = Some k ->
  k <> "" /\ exists r, In r runs /\ api_key_input (snd r) = k.
Proof.
  assert (G : forall s,
    GOOGLE_API_KEY (session runs s) = Some k ->
    GOOGLE_API_KEY s = Some k \/
    (k <> "" /\ exists r, In r runs /\ api_key_input (snd r) = k)).
  { induction runs as [|[[w i] inp] runs IH]; intros s H; simpl in *; [auto|].
    destruct (IH _ H) as [Hk|(Hne & r & Hr & Hin)].
    - rewrite key_after_react in Hk.
      destruct (truthy (GOOGLE_API_KEY s)).
      + destruct (reset_key_pressed inp); [discriminate | auto].
      + destruct (String.eqb_spec (api_key_input inp) ""); [auto|].
        injection Hk as Hk. right. split; [congruence|].
        exists (w, i, inp). auto.
    - right. split; [exact Hne|]. exists r. auto. }
  intros H. destruct (G _ H) as [Hk|Hk]; [discriminate | exact Hk].
Qed.

Lemma X16_stored_key_was_entered_witness :
  "AIza-1" <> "" /\
  exists r, In r [(plain_world, OtherInteraction, RunInput "AIza-1" false None None);
                  (plain_world, OtherInteraction, RunInput "" false None None)] /\
            api_key_input (snd r) = "AIza-1".
Proof.
  apply (X16_stored_key_was_entered
           [(plain_world, OtherInteraction, RunInput "AIza-1" false None None);
            (plain_world, OtherInteraction, RunInput "" false None None)] ∅ "AIza-1").
  reflexivity.
Defined.

(** X17: a run in which a key is entered while none is configured, or Reset is
    pressed while one is, stores or clears the key, shows the sidebar's
    message and stops there ([st.rerun()]): nothing is decoded, shown or
    analysed, and the flag and the files are as before. *)
Theorem X17_key_change_ends_run (w : world) (inp : run_input) (s : state) :
  (if truthy (GOOGLE_API_KEY s) then reset_key_pressed inp
   else negb (String.eqb (api_key_input inp) "")) = true ->
  script w inp s
  = (Ok tt,
     if truthy (GOOGLE_API_KEY s)
     then set_GOOGLE_API_KEY None (emit (st_success "API Key is configured") s)
     else emit (st_success "API Key saved!")
            (set_GOOGLE_API_KEY (Some (api_key_input inp)) s)).
Proof.
  unfold script, sidebar, bind, gets, modify, ret.
  destruct (truthy (GOOGLE_API_KEY s)); cbn [negb]; intros ->; reflexivity.
Qed.

Lemma X17_key_change_ends_run_witness :
  script (raster_world wide_image)
    (RunInput "AIza-1" false None (Some (Upload "chest.png" [])))
    (State ∅ None true [])
  = (Ok tt,
     if truthy (GOOGLE_API_KEY (State ∅ None true []))
     then set_GOOGLE_API_KEY None
            (emit (st_success "API Key is configured") (State ∅ None true []))
     else emit (st_success "API Key saved!")
            (set_GOOGLE_API_KEY
               (Some (api_key_input
                  (RunInput "AIza-1" false None (Some (Upload "chest.png" [])))))
               (State ∅ None true []))).
Proof.
  apply (X17_key_change_ends_run (raster_world wide_image)
           (RunInput "AIza-1" false None (Some (Upload "chest.png" [])))
           (State ∅ None true [])).
  reflexivity.
Defined.

(** X18: the API key after a run, for every upload and every behaviour of the
    collaborators: cleared if one was configured and Reset was pressed, set to
    the text entered if none was configured and the text is not empty, and
    unchanged otherwise. *)
Theorem X18_key_after_run (w : world) (inp : run_input) (s : state) :
  GOOGLE_API_KEY (snd (script w inp s))
  = if truthy (GOOGLE_API_KEY s)
    then (if reset_key_pressed inp then None else GOOGLE_API_KEY s)
    else (if String.eqb (api_key_input inp) "" then GOOGLE_API_KEY s
          else Some (api_key_input inp)).
Proof. apply key_after_run_aux. Qed.

(** ** The extension of an uploaded name *)

Lemma lower_char_dot (c : ascii) :
  Ascii.eqb (lower_char c) "." = Ascii.eqb c ".".
Proof. destruct c as [[] [] [] [] [] [] [] []]; reflexivity. Qed.

Lemma lower_char_idem (c : ascii) : lower_char (lower_char c) = lower_char c.
Proof. destruct c as [[] [] [] [] [] [] [] []]; reflexivity. Qed.

Lemma lower_idem (s : string) : lower (lower s) = lower s.
Proof. induction s as [|c s IH]; simpl; [reflexivity|]. now rewrite lower_char_idem, IH. Qed.

Lemma lower_app (a b : string) : lower (a +:+ b) = lower a +:+ lower b.
Proof. induction a as [|c a IH]; simpl; [reflexivity|]. now rewrite IH. Qed.

Lemma lower_dotless (s : string) : dotless (lower s) = dotless s.
Proof.
  induction s as [|c s IH]; simpl; [reflexivity|].
  now rewrite lower_char_dot, IH.
Qed.

Lemma split_not_nil (sep : ascii) (s : string) : split sep s <> [].
Proof.
  induction s as [|c s IH]; simpl; [discriminate|].
  destruct (Ascii.eqb c sep); [discriminate|].
  destruct (split sep s); discriminate.
Qed.

Lemma split_dotless (s : string) : dotless s = true -> split "." s = [s].
Proof.
  induction s as [|c s IH]; simpl; [reflexivity|].
  intros H. apply andb_true_iff in H as [Hc Hs].
  apply negb_true_iff in Hc. rewrite Hc, (IH Hs). reflexivity.
Qed.

Lemma split_app (sep : ascii) (a b : string) :
  split sep (a +:+ String sep b) = (split sep a ++ split sep b)%list.
Proof.
  induction a as [|c a IH]; simpl.
  - now rewrite Ascii.eqb_refl.
  - rewrite IH. destruct (Ascii.eqb c sep); [reflexivity|].
    pose proof (split_not_nil sep a) as Hn.
    destruct (split sep a) as [|seg segs]; [congruence|]. reflexivity.
Qed.

Lemma last_app_not_nil (xs ys : list string) (d : string) :
  ys <> [] -> List.last (xs ++ ys)%list d = List.last ys d.
Proof.
  intros Hy. induction xs as [|x xs IH]; simpl; [reflexivity|].
  rewrite IH. destruct (xs ++ ys)%list eqn:E; [|reflexivity].
  apply app_eq_nil in E as [_ E]. congruence.
Qed.

Lemma split_all_dotless (s : string) :
  Forall (fun seg => dotless seg = true) (split "." s).
Proof.
  induction s as [|c s IH]; simpl; [repeat constructor|].
  destruct (Ascii.eqb c ".") eqn:E; [constructor; [reflexivity | exact IH]|].
  destruct (split "." s) as [|seg segs]; [repeat constructor; simpl; now rewrite E|].
  inversion IH as [|? ? H1 H2]; subst. constructor; [|exact H2].
  simpl. now rewrite E, H1.
Qed.

Lemma last_Forall (P : string -> Prop) (xs : list string) (d : string) :
  Forall P xs -> xs <> [] -> P (List.last xs d).
Proof.
  induction 1 as [|x xs Hx Hxs IH]; [congruence|]. intros _.
  destruct xs as [|y ys]; [exact Hx|]. apply IH. discriminate.
Qed.

(** X19: the extension of a name [base.ext], where [ext] consists of ASCII
    characters and has no dot, is [ext] with its letters A-Z in lower case,
    whatever [base] is; such a name with no dot at all is its own extension,
    in lower case. *)
Theorem X19_file_extension_of_suffix (base ext : string) (payload : bytes) :
  is_ascii ext = true -> dotless ext = true ->
  file_extension (Upload (base +:+ "." +:+ ext) payload) = lower ext /\
  file_extension (Upload ext payload) = lower ext.
Proof.
  intros _ H. unfold file_extension, last_item. cbn [name].
  change ("." +:+ ext) with (String "." ext).
  rewrite lower_app.
  change (lower (String "." ext)) with (String "." (lower ext)).
  rewrite split_app, last_app_not_nil by apply split_not_nil.
  rewrite split_dotless by now rewrite lower_dotless.
  split; reflexivity.
Qed.

Lemma X19_file_extension_of_suffix_witness :
  file_extension (Upload ("Brain.MRI" +:+ "." +:+ "DCM") []) = lower "DCM" /\
  file_extension (Upload "DCM" []) = lower "DCM".
Proof.
  apply (X19_file_extension_of_suffix "Brain.MRI" "DCM" []); reflexivity.
Defined.

(** X20: for a name of ASCII characters, the extension does not depend on
    the letter case of the name, and it never contains a dot. *)
Theorem X20_file_extension_ignores_case (n : string) (payload : bytes) :
  is_ascii n = true ->
  file_extension (Upload (lower n) payload) = file_extension (Upload n payload) /\
  dotless (file_extension (Upload n payload)) = true.
Proof.
  intros _. unfold file_extension, last_item. cbn [name]. rewrite lower_idem.
  split; [reflexivity|].
  apply (last_Forall (fun seg => dotless seg = true));
    [apply split_all_dotless | apply split_not_nil].
Qed.

Lemma X20_file_extension_ignores_case_witness :
  file_extension (Upload (lower "Scan.Final.TIFF") [])
  = file_extension (Upload "Scan.Final.TIFF" []) /\
  dotless (file_extension (Upload "Scan.Final.TIFF" [])) = true.
Proof.
  apply (X20_file_extension_ignores_case "Scan.Final.TIFF" []). reflexivity.
Defined.

(** ** Exact quotients *)

Section ExactQuotient.

Import F64.

(** The scaled mantissa of an integer is unique. *)
Lemma normal_scale_unique (a u v : Z) :
  0 < a -> 0 <= u -> 0 <= v ->
  2 ^ 52 <= a * 2 ^ u < 2 ^ 53 -> 2 ^ 52 <= a * 2 ^ v < 2 ^ 53 -> u = v.
Proof.
  assert (G : forall u v, 0 <= u -> u < v -> 0 < a ->
            2 ^ 52 <= a * 2 ^ u -> a * 2 ^ v < 2 ^ 53 -> False).
  { intros u0 v0 Hu Huv Ha H1 H2.
    replace v0 with (u0 + (v0 - u0)) in H2 by lia.
    rewrite Z.pow_add_r in H2 by lia.
    assert (2 <= 2 ^ (v0 - u0)).
    { change 2 with (2 ^ 1) at 1. apply Z.pow_le_mono_r; lia. }
    assert (0 < 2 ^ u0) by (apply Z.pow_pos_nonneg; lia).
    nia. }
  intros Ha Hu Hv [H1 H2] [H3 H4].
  destruct (Z.lt_trichotomy u v) as [H|[H|H]]; [|exact H|].
  - exfalso. exact (G u v Hu H Ha H1 H4).
  - exfalso. exact (G v u Hv H Ha H3 H2).
Qed.

(** A quotient that is an integer is computed exactly. *)
Lemma div_exact (a b : Z) :
  0 < a -> 0 < b -> a * b < 2 ^ 53 ->
  div (of_Z (a * b)) (of_Z b) = of_Z a.
Proof.
  intros Ha Hb Hab.
  destruct (of_Z_normal (a * b) ltac:(nia)) as (m1 & e1 & E1 & N1 & He1 & Hm1 & _).
  destruct (of_Z_normal b ltac:(nia)) as (m2 & e2 & E2 & N2 & He2 & Hm2 & _).
  destruct (of_Z_normal a ltac:(nia)) as (m3 & e3 & E3 & N3 & He3 & Hm3 & _).
  rewrite E1, E2, E3.
  unfold div, SFdiv, SFdiv_core_binary.
  simpl Zdigits2. rewrite (normal_digits m1 N1), (normal_digits m2 N2).
  unfold fexp, SpecFloat.emin, prec, emax.
  replace (Z.min (Z.max (53 + e1 - (53 + e2) - 53) (3 - 1024 - 53)) (e1 - e2))
    with (e1 - e2 - 53) by lia.
  replace (e1 - e2 - (e1 - e2 - 53)) with 53 by lia.
  cbv iota beta. rewrite Z.shiftl_mul_pow2 by lia.
  set (t := 53 - e1 + e2).
  assert (Ht : 1 <= t) by (unfold t; lia).
  assert (HQ : Zpos m1 * 2 ^ 53 = Zpos m2 * (a * 2 ^ t)).
  { rewrite Hm1, Hm2. unfold t.
    replace (53 - e1 + e2) with (53 + - e1 - - e2) by lia.
    replace (a * b * 2 ^ (- e1) * 2 ^ 53) with (a * b * (2 ^ (- e1) * 2 ^ 53)) by ring.
    rewrite <- Z.pow_add_r by lia.
    replace (- e1 + 53) with ((53 + - e1 - - e2) + - e2) by lia.
    rewrite Z.pow_add_r by lia. ring. }
  pose proof (Z.div_eucl_eq (Zpos m1 * 2 ^ 53) (Zpos m2) ltac:(lia)) as Hdiv.
  pose proof (Z.mod_pos_bound (Zpos m1 * 2 ^ 53) (Zpos m2) ltac:(lia)) as Hr.
  unfold Z.modulo in Hr.
  destruct (Z.div_eucl (Zpos m1 * 2 ^ 53) (Zpos m2)) as [q r].
  assert (Hqr : q = a * 2 ^ t /\ r = 0).
  { rewrite HQ in Hdiv.
    assert (Zpos m2 * (a * 2 ^ t - q) = r) by lia.
    assert (a * 2 ^ t - q = 0) by nia. lia. }
  destruct Hqr as [-> ->].
  unfold normal in N1, N2, N3.
  assert (H2t : 0 < 2 ^ t) by (apply Z.pow_pos_nonneg; lia).
  assert (Hq : 2 ^ 52 <= a * 2 ^ t < 2 ^ 54) by nia.
  destruct (a * 2 ^ t) as [|Q|Q] eqn:EQ; try lia.
  assert (Hloc : new_location (Z.pos m2) 0 = loc_Exact).
  { unfold new_location. destruct (Z.even (Z.pos m2)); reflexivity. }
  rewrite Hloc.
  assert (Heven : Zpos Q < 2 ^ 53 \/ Z.even (Zpos Q) = true).
  { right. rewrite <- EQ. replace t with (1 + (t - 1)) by lia.
    rewrite Z.pow_add_r by lia. rewrite Z.mul_assoc.
    rewrite Z.even_mul, Z.even_mul. simpl. now rewrite orb_true_r. }
  destruct (binary_round_aux_normal Q (e1 - e2 - 53) loc_Exact Hq ltac:(lia))
    as (m & e & Hround & Hn & _ & Hexact).
  destruct (Hexact eq_refl Heven) as [He Hm]. clear Hexact.
  simpl xorb. unfold prec, emax in Hround. rewrite Hround.
  unfold normal in Hn.
  assert (Hscale : exists u, 0 <= u /\ e = - u /\ Zpos m = a * 2 ^ u).
  { destruct (Z.ltb_spec (Zpos Q) (2 ^ 53)).
    - exists t. unfold t in *. split; [lia|]. split; [lia|]. lia.
    - exists (t - 1). split; [lia|]. split; [unfold t in *; lia|].
      rewrite Hm, <- EQ. replace t with (1 + (t - 1)) at 1 by lia.
      rewrite Z.pow_add_r by lia.
      replace (a * (2 ^ 1 * 2 ^ (t - 1))) with (a * 2 ^ (t - 1) * 2) by ring.
      now rewrite Z.div_mul by lia. }
  destruct Hscale as (u & Hu & -> & Hmu).
  assert (u = - e3).
  { apply (normal_scale_unique a); try lia. }
  subst u. f_equal; [|lia]. apply Pos2Z.inj. lia.
Qed.

(** The truncation of a converted integer is the integer. *)
Lemma trunc_of_Z (z : Z) : 0 < z < 2 ^ 53 -> trunc (of_Z z) = Some z.
Proof.
  intros Hz. destruct (of_Z_normal z Hz) as (m & e & E & N & He & Hm & _).
  rewrite E. unfold trunc, magnitude_trunc. f_equal.
  destruct e as [|k|k]; try lia.
  - rewrite Z.shiftl_0_r. simpl in Hm. lia.
  - rewrite Z.shiftr_div_pow2 by lia. rewrite Hm.
    change (- Z.neg k) with (Zpos k). apply Z.div_mul.
    assert (0 < 2 ^ Zpos k) by (apply Z.pow_pos_nonneg; lia). lia.
Qed.

End ExactQuotient.

(** ** Which images the resizing step accepts *)

(** When the width is a whole multiple [k] of the height and [k] divides
    500, both quotients are exact. *)
Lemma new_size_whole_ratio (k j h : Z) :
  0 < h -> 0 < j -> j * k = 500 -> k * h < 2 ^ 53 ->
  new_size (k * h) h = Ok (500, j).
Proof.
  intros Hh Hj Hjk Hkh.
  assert (Hk : 0 < k) by nia.
  assert (Hk5 : k <= 500) by nia.
  assert (Hj5 : j <= 500) by nia.
  unfold new_size, py_truediv, py_truediv_float, py_int, new_width.
  destruct (Z.eqb_spec h 0); [lia|]. cbn [rbind].
  rewrite (div_exact k h Hk Hh Hkh).
  destruct (of_Z_finite k ltac:(lia) ltac:(lia)) as (mk & ek & Ek).
  rewrite Ek. cbn [F64.is_zero rbind]. rewrite <- Ek, <- Hjk.
  rewrite (div_exact j k Hj Hk ltac:(lia)).
  destruct (of_Z_finite j ltac:(lia) ltac:(lia)) as (mj & ej & Ej).
  rewrite Ej, <- Ej, (trunc_of_Z j ltac:(lia)). reflexivity.
Qed.

(** X21: when the width is a whole multiple [k] of the height and [k] divides
    500, both float64 quotients are exact and the image is resized to exactly
    500 x 500/k (a square image to 500 x 500, a 2:1 image to 500 x 250). *)
Theorem X21_resize_whole_aspect_ratio (w : world) (image : Image.t) (k j h : Z) :
  pil_load w image = None -> Image.size image = (k * h, h) ->
  0 < h -> 0 < j -> j * k = 500 -> k * h < 2 ^ 53 ->
  resized_image w image
  = Ok (Image.Build (Image.mode image) (500, j) (pil_resample w image (500, j))).
Proof.
  intros Hload Hsz Hh Hj Hjk Hkh.
  unfold resized_image, Image.width, Image.height. rewrite Hsz. cbn [fst snd].
  rewrite (new_size_whole_ratio k j h Hh Hj Hjk Hkh). cbn [rbind].
  unfold resize, loaded, allocation, small_target. rewrite Hload. cbn [fst snd].
  destruct (Z.ltb_spec j 1); [lia|].
  assert (Hk : 0 < k) by nia.
  assert (Hj5 : j <= 500) by nia.
  destruct (Z.leb_spec j 500); [reflexivity | lia].
Qed.

Lemma X21_resize_whole_aspect_ratio_witness :
  resized_image plain_world (Image.Build "RGB" (4 * 300, 300) [])
  = Ok (Image.Build (Image.mode (Image.Build "RGB" (4 * 300, 300) [])) (500, 125)
          (pil_resample plain_world (Image.Build "RGB" (4 * 300, 300) []) (500, 125))).
Proof.
  apply (X21_resize_whole_aspect_ratio plain_world
           (Image.Build "RGB" (4 * 300, 300) []) 4 125 300);
    try reflexivity; lia.
Defined.

(** X22: the outcome of the resizing step for a loadable image with sides
    below [2^31], by its aspect.  Wider than 500 times its height, the image
    gets height 0 and [resize] raises "height and width must be > 0".
    Otherwise the target is 500 wide and at least 1 high, and the step
    yields the image of that size unless PIL cannot allocate it; so it
    yields an image exactly when the width is at most 500 times the height
    and the target can be allocated. *)
Theorem X22_resize_succeeds_iff (w : world) (image : Image.t) :
  pil_load w image = None ->
  0 < Image.width image < 2 ^ 31 -> 0 < Image.height image < 2 ^ 31 ->
  exists new_height : Z,
    new_size (Image.width image) (Image.height image) = Ok (500, new_height) /\
    (1 <= new_height <-> Image.width image <= 500 * Image.height image) /\
    (500 * Image.height image < Image.width image ->
     resized_image w image
     = Raise (Exn ValueError "height and width must be > 0")) /\
    (Image.width image <= 500 * Image.height image ->
     resized_image w image
     = match allocation w image (500, new_height) with
       | Some e => Raise e
       | None => Ok (Image.Build (Image.mode image) (500, new_height)
                       (pil_resample w image (500, new_height)))
       end) /\
    ((exists im : Image.t, resized_image w image = Ok im)
     <-> Image.width image <= 500 * Image.height image /\
         allocation w image (500, new_height) = None).
Proof.
  intros Hload HW HH.
  destruct (new_size_bounds _ _ HW HH) as (nh & E & Hnh & Hlo & Hhi).
  assert (Haspect : 1 <= nh <-> Image.width image <= 500 * Image.height image).
  { split; [nia|]. intros Hle.
    destruct (Z.le_gt_cases 1 nh) as [H1|H1]; [exact H1|].
    exfalso. assert (nh = 0) by lia. subst nh.
    assert (HWeq : Image.width image = 500 * Image.height image) by lia.
    rewrite HWeq in E.
    rewrite (new_size_whole_ratio 500 1 (Image.height image)) in E by lia.
    discriminate. }
  assert (Hres : resized_image w image
          = if nh <? 1 then Raise (Exn ValueError "height and width must be > 0")
            else match allocation w image (500, nh) with
                 | Some e => Raise e
                 | None => Ok (Image.Build (Image.mode image) (500, nh)
                                 (pil_resample w image (500, nh)))
                 end).
  { unfold resized_image. rewrite E. cbn [rbind].
    unfold resize, loaded. rewrite Hload. reflexivity. }
  exists nh. split; [exact E|]. split; [exact Haspect|].
  rewrite Hres. split; [|split].
  - intros Hwide. destruct (Z.ltb_spec nh 1); [reflexivity|]. lia.
  - intros Hle. destruct (Z.ltb_spec nh 1); [lia | reflexivity].
  - destruct (Z.ltb_spec nh 1) as [Hlt|Hge].
    + split; [intros [im Him]; discriminate | lia].
    + destruct (allocation w image (500, nh)) as [e|].
      * split; [intros [im Him]; discriminate | intros [_ H]; discriminate].
      * split; [intros _; split; [lia | reflexivity] | eauto].
Qed.

Lemma X22_resize_succeeds_iff_witness :
  exists new_height : Z,
    new_size (Image.width (Image.Build "L" (1000, 2) []))
      (Image.height (Image.Build "L" (1000, 2) [])) = Ok (500, new_height) /\
    (1 <= new_height
     <-> Image.width (Image.Build "L" (1000, 2) [])
         <= 500 * Image.height (Image.Build "L" (1000, 2) [])) /\
    (500 * Image.height (Image.Build "L" (1000, 2) [])
     < Image.width (Image.Build "L" (1000, 2) []) ->
     resized_image plain_world (Image.Build "L" (1000, 2) [])
     = Raise (Exn ValueError "height and width must be > 0")) /\
    (Image.width (Image.Build "L" (1000, 2) [])
     <= 500 * Image.height (Image.Build "L" (1000, 2) []) ->
     resized_image plain_world (Image.Build "L" (1000, 2) [])
     = match allocation plain_world (Image.Build "L" (1000, 2) [])
               (500, new_height) with
       | Some e => Raise e
       | None => Ok (Image.Build (Image.mode (Image.Build "L" (1000, 2) []))
                       (500, new_height)
                       (pil_resample plain_world (Image.Build "L" (1000, 2) [])
                          (500, new_height)))
       end) /\
    ((exists im : Image.t,
        resized_image plain_world (Image.Build "L" (1000, 2) []) = Ok im)
     <-> Image.width (Image.Build "L" (1000, 2) [])
         <= 500 * Image.height (Image.Build "L" (1000, 2) []) /\
         allocation plain_world (Image.Build "L" (1000, 2) []) (500, new_height)
         = None).
Proof.
  apply (X22_resize_succeeds_iff plain_world (Image.Build "L" (1000, 2) []));
    [reflexivity | |]; unfold Image.width, Image.height; simpl; lia.
Defined.

(** ** The product of two floats, with its error *)

Section Product.

Import F64.

Lemma iter_shr_1_m (n : positive) (mrs : shr_record) :
  0 <= shr_m mrs ->
  shr_m (SpecFloat.iter_pos shr_1 n mrs) = shr_m mrs / 2 ^ Zpos n.
Proof.
  revert mrs. induction n as [n IH|n IH|]; intros mrs Hm; cbn [SpecFloat.iter_pos].
  - assert (H1 : 0 <= shr_m (shr_1 mrs)).
    { rewrite shr_1_m by exact Hm. apply Z.div_pos; lia. }
    assert (H2 : 0 <= shr_m (SpecFloat.iter_pos shr_1 n (shr_1 mrs))).
    { rewrite IH by exact H1. apply Z.div_pos; [exact H1|].
      apply Z.pow_pos_nonneg; lia. }
    rewrite IH by exact H2. rewrite IH by exact H1. rewrite shr_1_m by exact Hm.
    assert (Hp : 0 < 2 ^ Zpos n) by (apply Z.pow_pos_nonneg; lia).
    rewrite !Z.div_div by lia. f_equal.
    replace (Zpos n~1) with (1 + Zpos n + Zpos n) by lia.
    rewrite !Z.pow_add_r by lia. change (2 ^ 1) with 2. ring.
  - assert (H2 : 0 <= shr_m (SpecFloat.iter_pos shr_1 n mrs)).
    { rewrite IH by exact Hm. apply Z.div_pos; [exact Hm|].
      apply Z.pow_pos_nonneg; lia. }
    rewrite IH by exact H2. rewrite IH by exact Hm.
    assert (Hp : 0 < 2 ^ Zpos n) by (apply Z.pow_pos_nonneg; lia).
    rewrite Z.div_div by lia. f_equal.
    replace (Zpos n~0) with (Zpos n + Zpos n) by lia.
    rewrite Z.pow_add_r by lia. reflexivity.
  - apply shr_1_m. exact Hm.
Qed.

(** Rounding a mantissa [q] of [53 + k] digits: the result is a normal float
    within [2^k] of [q], [k] or [k + 1] binary places up. *)
Lemma binary_round_aux_wide (q : positive) (e k : Z) (l : location) :
  1 <= k <= 60 -> 2 ^ (52 + k) <= Zpos q < 2 ^ (53 + k) -> -1000 <= e <= 800 ->
  exists m e2 c,
    binary_round_aux prec emax false (Zpos q) e l = S754_finite false m e2 /\
    normal m /\ e2 = e + c /\ k <= c <= k + 1 /\
    Zpos m * 2 ^ c - 2 ^ k <= Zpos q /\ Zpos q + 1 <= Zpos m * 2 ^ c + 2 ^ k.
Proof.
  intros Hk Hq He.
  assert (H2k : 0 < 2 ^ k) by (apply Z.pow_pos_nonneg; lia).
  assert (E52 : 2 ^ (52 + k) = 2 ^ 52 * 2 ^ k) by (apply Z.pow_add_r; lia).
  assert (E53 : 2 ^ (53 + k) = 2 ^ 53 * 2 ^ k) by (apply Z.pow_add_r; lia).
  unfold binary_round_aux.
  assert (Hfirst : exists mrs,
            shr_fexp prec emax (Zpos q) e l = (mrs, e + k) /\
            shr_m mrs = Zpos q / 2 ^ k).
  { unfold shr_fexp, fexp, SpecFloat.emin, prec, emax. simpl Zdigits2.
    rewrite (digits2_pos_eq q (53 + k)) by (replace (53 + k - 1) with (52 + k) by lia; lia).
    replace (Z.max (53 + k + e - 53) (3 - 1024 - 53) - e) with k by lia.
    destruct k as [|kp|kp]; try lia. cbn [shr].
    eexists. split; [reflexivity|].
    destruct (loc_of_shr_record_of_loc (Zpos q) l) as [_ Hm].
    rewrite iter_shr_1_m; rewrite Hm; [reflexivity | lia]. }
  destruct Hfirst as (mrs & -> & Hm). rewrite Hm.
  set (p := Zpos q / 2 ^ k).
  assert (Hfloor : p * 2 ^ k <= Zpos q < (p + 1) * 2 ^ k).
  { pose proof (Z.div_mod (Zpos q) (2 ^ k) ltac:(lia)).
    pose proof (Z.mod_pos_bound (Zpos q) (2 ^ k) H2k). unfold p. nia. }
  assert (Hp : 2 ^ 52 <= p < 2 ^ 53) by nia.
  set (x := round_nearest_even p (loc_of_shr_record mrs)).
  assert (Hx : x = p \/ x = p + 1) by apply round_nearest_even_cases.
  clearbody x. destruct x as [|x|x]; try lia.
  destruct (shr_fexp_exact_normal x (e + k) ltac:(lia) ltac:(lia))
    as (m & e2 & Hs & Hn & Hcase).
  rewrite Hs. cbn [shr_m].
  assert ((e2 <=? emax - prec) = true) as ->
    by (apply Z.leb_le; unfold emax, prec; lia).
  exists m, e2.
  destruct Hcase as [(H1 & -> & ->)|(H1 & H2 & ->)].
  - exists k. split; [reflexivity|]. split; [exact Hn|]. split; [reflexivity|].
    split; [lia|]. nia.
  - exists (k + 1). split; [reflexivity|]. split; [exact Hn|].
    split; [lia|]. split; [lia|].
    rewrite Z.pow_add_r by lia. change (2 ^ 1) with 2. nia.
Qed.

Lemma mul_error (m1 m2 : positive) (e1 e2 : Z) :
  normal m1 -> normal m2 -> -400 <= e1 <= 400 -> -400 <= e2 <= 400 ->
  exists m e c,
    mul (S754_finite false m1 e1) (S754_finite false m2 e2) = S754_finite false m e /\
    normal m /\ e = e1 + e2 + c /\ 52 <= c <= 54 /\
    2 ^ 52 * (Zpos m * 2 ^ c - Zpos m1 * Zpos m2) <= Zpos m * 2 ^ c /\
    2 ^ 52 * (Zpos m1 * Zpos m2 - Zpos m * 2 ^ c) <= Zpos m * 2 ^ c.
Proof.
  intros N1 N2 He1 He2. unfold mul, SFmul. cbn [xorb].
  unfold normal in N1, N2. rewrite Pos2Z.inj_mul.
  assert (HQ : 2 ^ 104 <= Zpos m1 * Zpos m2 < 2 ^ 106).
  { change (2 ^ 104) with (2 ^ 52 * 2 ^ 52). change (2 ^ 106) with (2 ^ 53 * 2 ^ 53).
    split; [apply Z.mul_le_mono_nonneg; lia | apply Z.mul_lt_mono_nonneg; lia]. }
  destruct (Zpos m1 * Zpos m2) as [|Q|Q] eqn:EQ; try lia.
  set (k := if Zpos Q <? 2 ^ 105 then 52 else 53).
  assert (Hk : 52 <= k <= 53) by (unfold k; destruct (Zpos Q <? 2 ^ 105); lia).
  assert (HQk : 2 ^ (52 + k) <= Zpos Q < 2 ^ (53 + k)).
  { unfold k. destruct (Z.ltb_spec (Zpos Q) (2 ^ 105)); simpl Z.add; lia. }
  destruct (binary_round_aux_wide Q (e1 + e2) k loc_Exact ltac:(lia) HQk ltac:(lia))
    as (m & e & c & Hround & Hn & -> & Hc & Hlo & Hhi).
  rewrite Hround.
  exists m, (e1 + e2 + c), c.
  split; [reflexivity|]. split; [exact Hn|]. split; [reflexivity|].
  split; [lia|].
  unfold normal in Hn.
  assert (H2k : 0 < 2 ^ k) by (apply Z.pow_pos_nonneg; lia).
  assert (Hck : 2 ^ k <= 2 ^ c) by (apply Z.pow_le_mono_r; lia).
  assert (Hbig : 2 ^ 52 * 2 ^ k <= Zpos m * 2 ^ c) by (apply Z.mul_le_mono_nonneg; lia).
  split; lia.
Qed.

End Product.

(** ** The rescale against the exact quotient *)

Section RescaleError.

Import F64.

(** A positive integer below [2^32] converts to a normal float of exponent
    at most -21. *)
Lemma of_Z_sample (z : Z) :
  0 < z < 2 ^ 32 ->
  exists m e,
    of_Z z = S754_finite false m e /\ normal m /\
    -52 <= e <= -21 /\ Zpos m = z * 2 ^ (- e) /\
    2 ^ (e + 52) <= z < 2 ^ (e + 53).
Proof.
  intros Hz. destruct (of_Z_normal z ltac:(lia)) as (m & e & E & N & He & Hm & Hb).
  assert (e <= -21).
  { destruct (Z.le_gt_cases e (-21)); [assumption|].
    assert (2 ^ 32 <= 2 ^ (e + 52)) by (apply Z.pow_le_mono_r; lia). lia. }
  exists m, e. split; [exact E|]. split; [exact N|]. split; [lia|]. split; assumption.
Qed.

(** [x / d * 255] in float64, truncated, against [255 * x / d]. *)
Lemma rescale_quotient_bounds (x d : Z) :
  0 < x -> x < d -> d < 2 ^ 32 ->
  exists t,
    trunc (mul (div (of_Z x) (of_Z d)) (of_Z 255)) = Some t /\
    0 <= t /\ t * d <= 255 * x <= (t + 1) * d.
Proof.
  intros Hx Hxd Hd.
  destruct (of_Z_sample x ltac:(lia)) as (m1 & e1 & E1 & N1 & He1 & Hm1 & Hb1).
  destruct (of_Z_sample d ltac:(lia)) as (m2 & e2 & E2 & N2 & He2 & Hm2 & Hb2).
  assert (He12 : e1 <= e2).
  { destruct (Z.le_gt_cases e1 e2); [assumption|].
    assert (2 ^ (e2 + 53) <= 2 ^ (e1 + 52)) by (apply Z.pow_le_mono_r; lia). lia. }
  destruct (div_error m1 m2 e1 e2 N1 N2 ltac:(lia) ltac:(lia))
    as (mq & e_q & c & Hquo & Nq & Heq & Hc & Hq1 & Hq2).
  assert (E255 : of_Z 255 = S754_finite false 8972014882652160 (-45)) by reflexivity.
  assert (N255 : normal 8972014882652160) by (unfold normal; lia).
  destruct (mul_error mq 8972014882652160 e_q (-45) Nq N255 ltac:(lia) ltac:(lia))
    as (mr & e_r & c' & Hprod & Nr & Her & Hc' & Hr1 & Hr2).
  rewrite E1, E2, Hquo, E255, Hprod.
  assert (Hneg : e_r < 0) by lia.
  exists (magnitude_trunc mr e_r). split; [reflexivity|].
  set (PR := 2 ^ (- e_r)). set (P1 := 2 ^ (- e1)) in *. set (P2 := 2 ^ (- e2)) in *.
  set (C := 2 ^ c) in *. set (C' := 2 ^ c') in *.
  assert (HPR : 0 < PR) by (apply Z.pow_pos_nonneg; lia).
  assert (HP1 : 0 < P1) by (apply Z.pow_pos_nonneg; lia).
  assert (HP2 : 0 < P2) by (apply Z.pow_pos_nonneg; lia).
  assert (HC : 0 < C) by (apply Z.pow_pos_nonneg; lia).
  assert (HC' : 0 < C') by (apply Z.pow_pos_nonneg; lia).
  assert (Ht : magnitude_trunc mr e_r = Zpos mr / PR).
  { unfold magnitude_trunc, PR. destruct e_r as [|k|k]; try lia.
    rewrite Z.shiftr_div_pow2 by lia. reflexivity. }
  rewrite Ht. set (t := Zpos mr / PR).
  assert (Hfloor : t * PR <= Zpos mr /\ Zpos mr + 1 <= (t + 1) * PR).
  { pose proof (Z.div_mod (Zpos mr) PR ltac:(lia)).
    pose proof (Z.mod_pos_bound (Zpos mr) PR HPR). unfold t. nia. }
  destruct Hfloor as [Hf1 Hf2].
  assert (Ht0 : 0 <= t) by (apply Z.div_pos; lia).
  split; [exact Ht0|].
  (* the scales agree *)
  assert (I : PR * C' * C * P2 = P1 * 2 ^ 98).
  { unfold PR, C', C, P2, P1. rewrite <- !Z.pow_add_r by lia. f_equal. lia. }
  set (S := P1 * 2 ^ 98) in *.
  assert (HS : 0 < S) by (unfold S; lia).
  unfold normal in Nq, Nr, N1, N2.
  set (MQ := Zpos mq) in *. set (MR := Zpos mr) in *.
  set (M1 := Zpos m1) in *. set (M2 := Zpos m2) in *.
  change (Z.pos 8972014882652160) with (255 * 2 ^ 45) in Hr1, Hr2.
  (* the quotient and the product, each within 2^-52 of the exact value *)
  assert (D1 : (2 ^ 52 - 1) * (MQ * C * M2) <= 2 ^ 52 * (M1 * 2 ^ 53)) by lia.
  assert (D2 : 2 ^ 52 * (M1 * 2 ^ 53) <= (2 ^ 52 + 1) * (MQ * C * M2)) by lia.
  assert (R1 : (2 ^ 52 - 1) * (MR * C') <= 2 ^ 52 * (MQ * (255 * 2 ^ 45))) by lia.
  assert (R2 : 2 ^ 52 * (MQ * (255 * 2 ^ 45)) <= (2 ^ 52 + 1) * (MR * C')) by lia.
  assert (HCM : 0 <= C * M2) by (apply Z.mul_nonneg_nonneg; lia).
  split.
  - (* t * d <= 255 * x *)
    assert (F : (2 ^ 52 - 1) * (2 ^ 52 - 1) * (t * d) * S
                <= 2 ^ 104 * (255 * x) * S).
    { apply Z.le_trans with ((2 ^ 52 - 1) * (2 ^ 52 - 1) * MR * (C' * C * M2)).
      { replace ((2 ^ 52 - 1) * (2 ^ 52 - 1) * (t * d) * S)
          with ((2 ^ 52 - 1) * (2 ^ 52 - 1) * (C' * C * (d * P2)) * (t * PR))
          by (rewrite <- I; ring).
        rewrite <- Hm2.
        replace ((2 ^ 52 - 1) * (2 ^ 52 - 1) * MR * (C' * C * M2))
          with ((2 ^ 52 - 1) * (2 ^ 52 - 1) * (C' * C * M2) * MR) by ring.
        apply Z.mul_le_mono_nonneg_l; [|exact Hf1].
        repeat apply Z.mul_nonneg_nonneg; lia. }
      apply Z.le_trans with ((2 ^ 52 - 1) * (C * M2) * (2 ^ 52 * (MQ * (255 * 2 ^ 45)))).
      { replace ((2 ^ 52 - 1) * (2 ^ 52 - 1) * MR * (C' * C * M2))
          with ((2 ^ 52 - 1) * (C * M2) * ((2 ^ 52 - 1) * (MR * C'))) by ring.
        apply Z.mul_le_mono_nonneg_l; [|exact R1].
        apply Z.mul_nonneg_nonneg; lia. }
      apply Z.le_trans with (2 ^ 52 * (255 * 2 ^ 45) * (2 ^ 52 * (M1 * 2 ^ 53))).
      { replace ((2 ^ 52 - 1) * (C * M2) * (2 ^ 52 * (MQ * (255 * 2 ^ 45))))
          with (2 ^ 52 * (255 * 2 ^ 45) * ((2 ^ 52 - 1) * (MQ * C * M2))) by ring.
        apply Z.mul_le_mono_nonneg_l; [lia | exact D1]. }
      rewrite Hm1. unfold S.
      change (2 ^ 104) with (2 ^ 52 * 2 ^ 52).
      change (2 ^ 98) with (2 ^ 45 * 2 ^ 53). apply Z.eq_le_incl. ring. }
    apply Z.mul_le_mono_pos_r in F; [|exact HS]. lia.
  - (* 255 * x <= (t + 1) * d *)
    assert (F : 2 ^ 104 * (255 * x) * S
                <= (2 ^ 52 + 1) * (2 ^ 52 + 1) * ((t + 1) * d) * S).
    { apply Z.le_trans with (2 ^ 52 * (255 * 2 ^ 45) * (2 ^ 52 * (M1 * 2 ^ 53))).
      { rewrite Hm1. unfold S.
        change (2 ^ 104) with (2 ^ 52 * 2 ^ 52).
        change (2 ^ 98) with (2 ^ 45 * 2 ^ 53). apply Z.eq_le_incl. ring. }
      apply Z.le_trans with (2 ^ 52 * (255 * 2 ^ 45) * ((2 ^ 52 + 1) * (MQ * C * M2))).
      { apply Z.mul_le_mono_nonneg_l; [lia | exact D2]. }
      apply Z.le_trans with ((2 ^ 52 + 1) * (C * M2) * ((2 ^ 52 + 1) * (MR * C'))).
      { replace (2 ^ 52 * (255 * 2 ^ 45) * ((2 ^ 52 + 1) * (MQ * C * M2)))
          with ((2 ^ 52 + 1) * (C * M2) * (2 ^ 52 * (MQ * (255 * 2 ^ 45)))) by ring.
        apply Z.mul_le_mono_nonneg_l; [|exact R2].
        apply Z.mul_nonneg_nonneg; lia. }
      replace ((2 ^ 52 + 1) * (C * M2) * ((2 ^ 52 + 1) * (MR * C')))
        with ((2 ^ 52 + 1) * (2 ^ 52 + 1) * (C' * C * M2) * MR) by ring.
      replace ((2 ^ 52 + 1) * (2 ^ 52 + 1) * ((t + 1) * d) * S)
        with ((2 ^ 52 + 1) * (2 ^ 52 + 1) * (C' * C * (d * P2)) * ((t + 1) * PR))
        by (rewrite <- I; ring).
      rewrite <- Hm2.
      apply Z.mul_le_mono_nonneg_l; [|lia].
      repeat apply Z.mul_nonneg_nonneg; lia. }
    apply Z.mul_le_mono_pos_r in F; [|exact HS].
    assert (Hdx : (t + 1) * d = t * d + d) by ring.
    lia.
Qed.

End RescaleError.



(** One rescaled sample against the exact value [255 * (x - mn) / (mx - mn)],
    when the span [mx - mn] fits the dtype. *)
Lemma rescaled_sample_bounds (dt : np.dtype) (mn mx x : Z) :
  np.lo dt <= mn -> mx <= np.hi dt -> mn <= x <= mx -> mn < mx ->
  mx - mn <= np.hi dt ->
  rescaled_sample dt mn mx x * (mx - mn) <= 255 * (x - mn)
  <= (rescaled_sample dt mn mx x + 1) * (mx - mn).
Proof.
  intros Hlo Hhi Hx Hspan Hfit.
  destruct (hi_below dt) as [H32 Hlo0].
  destruct (Z.eq_dec x mn) as [->|Hxmn].
  { rewrite (rescaled_min dt mn mx Hlo Hspan Hhi). lia. }
  destruct (Z.eq_dec x mx) as [->|Hxmx].
  { rewrite (rescaled_max dt mn mx Hlo Hspan Hhi). lia. }
  unfold rescaled_sample.
  rewrite (wrap_id dt (x - mn)) by lia. rewrite (wrap_id dt (mx - mn)) by lia.
  destruct (rescale_quotient_bounds (x - mn) (mx - mn) ltac:(lia) ltac:(lia) ltac:(lia))
    as (t & Ht & Ht0 & Hb).
  unfold np.astype_uint8. rewrite Ht.
  assert (Ht255 : t < 255) by nia.
  destruct (Z.leb_spec (- 2 ^ 31) t); [|lia].
  destruct (Z.ltb_spec t (2 ^ 31)); [|lia].
  cbn [andb]. rewrite Z.mod_small by lia. exact Hb.
Qed.


(** X23: when the dtype is unsigned, or the span max - min fits a signed one,
    every sample [y] of the rescaled DICOM image satisfies [y * (max - min) <=
    255 * (x - min) <= (y + 1) * (max - min)] for its input sample [x]: it is
    the floor of the exact value, or one less when the exact value is an
    integer. *)
Theorem X23_dicom_rescale_follows_exact_quotient (w : world) (s : state)
    (path : string) (content : bytes) (M : np.ndarray) (mx mn : Z) :
  files s !! path = Some content ->
  dcm_pixel_array w content = Ok M ->
  length (np.nd_shape M) = 2%nat ->
  np.in_range M ->
  np.max M = Ok mx -> np.min M = Ok mn ->
  255 < mx -> mn < mx ->
  np.signed (np.nd_dtype M) = false \/ mx - mn <= np.hi (np.nd_dtype M) ->
  exists im : Image.t,
    process_dicom w path s = (Ok im, s) /\
    forall (i : nat) (x : Z), np.nd_data M !! i = Some x ->
    exists y : Z, Image.data im !! i = Some y /\
      y * (mx - mn) <= 255 * (x - mn) <= (y + 1) * (mx - mn).
Proof.
  intros Hf Hd Hshape Hrange Hmax Hmin Hbig Hspan Hfit.
  destruct (process_dicom_rescaled w s path content M mx mn Hf Hd Hshape Hmax Hmin Hbig)
    as (sz & E).
  eexists. split; [exact E|]. cbn [Image.data].
  intros i x Hx. rewrite lookup_map, Hx. eexists. split; [reflexivity|].
  pose proof (in_range_In M mn Hrange (np_min_in _ _ Hmin)) as Hmn.
  pose proof (in_range_In M mx Hrange (np_max_in _ _ Hmax)) as Hmx.
  assert (Hin : In x (np.nd_data M)).
  { clear - Hx. revert i Hx. induction (np.nd_data M) as [|a l IH]; intros [|i] H;
      simpl in *; try discriminate.
    - injection H as ->. now left.
    - right. eapply IH, H. }
  assert (Hfit' : mx - mn <= np.hi (np.nd_dtype M)).
  { destruct Hfit as [Hu|Hfit]; [|exact Hfit].
    unfold np.lo in Hmn. rewrite Hu in Hmn. lia. }
  pose proof (np_max_upper M mx Hmax) as Hup.
  pose proof (np_min_lower M mn Hmin) as Hlow.
  rewrite List.Forall_forall in Hup, Hlow.
  apply rescaled_sample_bounds; try lia.
  split; [apply Hlow | apply Hup]; exact Hin.
Qed.

Lemma X23_dicom_rescale_follows_exact_quotient_witness :
  exists im : Image.t,
    process_dicom (dicom_world ct_matrix) temp_dicom_path
      (disk {[ temp_dicom_path := [] ]})
    = (Ok im, disk {[ temp_dicom_path := [] ]}) /\
    forall (i : nat) (x : Z), np.nd_data ct_matrix !! i = Some x ->
    exists y : Z, Image.data im !! i = Some y /\
      y * (4095 - 0) <= 255 * (x - 0) <= (y + 1) * (4095 - 0).
Proof.
  apply (X23_dicom_rescale_follows_exact_quotient (dicom_world ct_matrix)
           (disk {[ temp_dicom_path := [] ]}) temp_dicom_path [] ct_matrix 4095 0).
  - reflexivity.
  - reflexivity.
  - reflexivity.
  - unfold np.in_range, ct_matrix, np.lo, np.hi; simpl.
    repeat constructor; simpl; lia.
  - reflexivity.
  - reflexivity.
  - lia.
  - lia.
  - left. reflexivity.
Defined.

(** ** The TIFF path loads the image *)

(** X24: an image returned on the TIFF path has been loaded
    ([image.copy()]), so a later [resize] does not fail on decoding it: it
    fails only on a target with a side below 1 or on one that PIL cannot
    allocate. *)
Theorem X24_tiff_upload_is_fully_loaded (w : world) (f : UploadedFile) (s s' : state)
    (im : Image.t) :
  str_in (file_extension f) ["dcm"; "dicom"] = false ->
  str_in (file_extension f) ["tif"; "tiff"] = true ->
  process_uploaded_file w f s = (Ok im, s') ->
  pil_load w im = None /\
  forall sz : Z * Z,
    resize w im sz
    = if (fst sz <? 1) || (snd sz <? 1)
      then Raise (Exn ValueError "height and width must be > 0")
      else match allocation w im sz with
           | Some e => Raise e
           | None => Ok (Image.Build (Image.mode im) sz (pil_resample w im sz))
           end.
Proof.
  intros Hd Ht H. rewrite (non_dicom_path w f s Hd), Ht in H.
  injection H as H _.
  assert (Hload : pil_load w im = None).
  { unfold process_tiff, copy, loaded in H.
    destruct (pil_open w (getbuffer f)) as [image|e]; simpl in H; [|discriminate].
    destruct (to_rgb_if_needed w image) as [image'|e]; simpl in H; [|discriminate].
    destruct (pil_load w image') eqn:E; simpl in H; [discriminate|].
    now injection H as <-. }
  split; [exact Hload|]. intros sz.
  unfold resize, loaded. now rewrite Hload.
Qed.

Lemma X24_tiff_upload_is_fully_loaded_witness :
  pil_load (raster_world wide_image) wide_image = None /\
  forall sz : Z * Z,
    resize (raster_world wide_image) wide_image sz
    = if (fst sz <? 1) || (snd sz <? 1)
      then Raise (Exn ValueError "height and width must be > 0")
      else match allocation (raster_world wide_image) wide_image sz with
           | Some e => Raise e
           | None => Ok (Image.Build (Image.mode wide_image) sz
                           (pil_resample (raster_world wide_image) wide_image sz))
           end.
Proof.
  apply (X24_tiff_upload_is_fully_loaded (raster_world wide_image)
           (Upload "slide.TIFF" []) (disk ∅) (disk ∅) wide_image);
    reflexivity.
Defined.

(** ** The outcome of an upload does not depend on the state *)

Lemma upload_result_state_free (w : world) (f : UploadedFile)
    (s1 s2 : state) :
  fst (process_uploaded_file w f s1) = fst (process_uploaded_file w f s2).
Proof.
  destruct (str_in (file_extension f) ["dcm"; "dicom"]) eqn:Hext.
  - destruct (fs_write_fault w temp_dicom_path) as [fault|] eqn:Ew.
    + now rewrite !(dicom_path_write_fault w f _ fault Hext Ew).
    + destruct (fs_remove_fault w temp_dicom_path) as [e|] eqn:Er.
      * now rewrite !(dicom_path_remove_fault w f _ e Hext Ew Er).
      * now rewrite !(dicom_path w f _ Hext Ew Er).
  - now rewrite !(non_dicom_path w f _ Hext).
Qed.

(** X25: the outcome of [process_uploaded_file], image or exception, depends
    on the upload and the collaborators only: not on the files on disk (a
    stale temporary file included), nor on the session. *)
Theorem X25_upload_result_independent_of_state (w : world) (f : UploadedFile)
    (s1 s2 : state) :
  fst (process_uploaded_file w f s1) = fst (process_uploaded_file w f s2).
Proof. apply upload_result_state_free. Qed.

(** ** No run raises *)

(** X26: no run of the script raises: every exception of pydicom, PIL, the
    file system and the model is caught inside the run. *)
Theorem X26_script_never_raises (w : world) (inp : run_input) (s : state) :
  fst (script w inp s) = Ok tt.
Proof. destruct (script_succeeds w inp s) as [[] H]. exact H. Qed.

(** ** The flag is cleared by an analysis only *)

(** X27: a run changes the flag only by clearing it after an analysis: the
    flag was set, a key was configured, Reset was not pressed, the agent was
    built and a file was uploaded; otherwise a set flag stays set for the next
    run. *)
Theorem X27_flag_cleared_only_by_analysis (w : world) (inp : run_input) (s : state) :
  analyze_clicked (snd (script w inp s)) <> analyze_clicked s ->
  analyze_clicked s = true /\ analyze_clicked (snd (script w inp s)) = false /\
  truthy (GOOGLE_API_KEY s) = true /\ reset_key_pressed inp = false /\
  agent_init_fault inp = None /\ is_Some (uploaded inp).
Proof.
  unfold script, sidebar, sidebar_notes, init_medical_agent.
  unfold bind, gets, modify, ret.
  destruct (truthy (GOOGLE_API_KEY s)) eqn:Ek; cbn [negb].
  - destruct (reset_key_pressed inp) eqn:Er.
    + intros H. now destruct H.
    + cbn [GOOGLE_API_KEY emit]. rewrite Ek.
      destruct (agent_init_fault inp) as [e|] eqn:Ef; cbn [negb].
      * destruct (uploaded inp) as [f|]; [|intros H; now destruct H].
        tail_without_agent w.
      * destruct (uploaded inp) as [f|]; [|intros H; now destruct H].
        match goal with |- context [image_container w f ?s0] =>
          destruct (image_container_total w f s0) as (r & s1 & E & _ & Hc & Hn);
          rewrite E end.
        destruct (analysis_container_spec w true r s1) as (s2 & E2 & _ & Hoff & Hon).
        rewrite E2. settle_calls. intros H.
        destruct (analyze_clicked s) eqn:Eclick.
        -- destruct (Hon Hc eq_refl) as [Hflag _]. repeat split; eauto.
        -- rewrite (Hoff Hc) in H. now destruct H.
  - destruct (negb (api_key_input inp =? "")%string) eqn:Ei.
    + intros H. now destruct H.
    + cbn [GOOGLE_API_KEY emit]. rewrite Ek. cbn [negb].
      destruct (uploaded inp) as [f|]; [|intros H; now destruct H].
      tail_without_agent w.
Qed.

Lemma X27_flag_cleared_only_by_analysis_witness :
  analyze_clicked clicked_state = true /\
  analyze_clicked (snd (script plain_world
                          (RunInput "" false None (Some (Upload "notes.txt" [])))
                          clicked_state)) = false /\
  truthy (GOOGLE_API_KEY clicked_state) = true /\
  reset_key_pressed (RunInput "" false None (Some (Upload "notes.txt" []))) = false /\
  agent_init_fault (RunInput "" false None (Some (Upload "notes.txt" []))) = None /\
  is_Some (uploaded (RunInput "" false None (Some (Upload "notes.txt" [])))).
Proof.
  apply (X27_flag_cleared_only_by_analysis plain_world
           (RunInput "" false None (Some (Upload "notes.txt" []))) clicked_state).
  vm_compute. discriminate.
Defined.

(** ** When a click leads to a model call *)

Lemma analyze_calls_model (w : world) (im : Image.t) (s : state) :
  fs_write_fault w temp_image_path = None ->
  agent_calls (snd (analyze w (Some im) s)) = S (agent_calls s) /\
  In (match agent_run w query (Some (png_encode w im)) with
      | Ok content => st_markdown content
      | Raise e => st_error ("Analysis error: " +:+ str e)
      end) (effects (snd (analyze w (Some im) s))).
Proof.
  intros Hw. unfold analyze, try_finally, try_except, bind, write_file,
    run_agent, os_path_exists, gets, os_remove, modify, ret, set_files, emit.
  rewrite Hw. cbn [files]. rewrite lookup_written.
  destruct (agent_run w query (Some (png_encode w im))) as [content|e];
    cbn [files GOOGLE_API_KEY analyze_clicked effects]; rewrite lookup_written;
    rewrite bool_decide_eq_true_2 by eauto;
    destruct (fs_remove_fault w temp_image_path);
    cbn [files GOOGLE_API_KEY analyze_clicked effects snd];
    rewrite ?lookup_written;
    cbn [files GOOGLE_API_KEY analyze_clicked effects snd];
    (split; [reflexivity | simpl; tauto]).
Qed.

(** The image block hands on the resized image whether or not [st.image]
    could show it. *)
Lemma image_container_resized (w : world) (f : UploadedFile) (s : state)
    (image im : Image.t) :
  fst (process_uploaded_file w f s) = Ok image ->
  resized_image w image = Ok im ->
  exists s' : state,
    image_container w f s = (Ok (Some im), s') /\
    analyze_clicked s' = analyze_clicked s /\
    agent_calls s' = agent_calls s.
Proof.
  intros Hp Hres.
  pose proof (process_uploaded_file_session w f s) as (_ & Hc1 & He1).
  unfold image_container, report_image_error, show_image, try_except, bind,
    lift, modify, ret.
  destruct (process_uploaded_file w f s) as [r s1]. cbn [fst snd] in *. subst r.
  rewrite Hres.
  destruct (st_image_fault w im); eexists; (split; [reflexivity|]);
    unfold agent_calls; cbn [emit analyze_clicked effects List.filter is_agent_call];
    rewrite He1; auto.
Qed.

(** X28: with the flag set, a key configured, the agent built, an upload that
    decodes and resizes, and a temporary file that can be written, the run
    makes exactly one model call, on the PNG encoding of the resized image,
    shows the model's answer or its failure, and clears the flag. *)
Theorem X28_click_with_image_calls_model (w : world) (inp : run_input) (s : state)
    (f : UploadedFile) (image im : Image.t) :
  analyze_clicked s = true ->
  truthy (GOOGLE_API_KEY s) = true -> reset_key_pressed inp = false ->
  agent_init_fault inp = None -> uploaded inp = Some f ->
  fst (process_uploaded_file w f s) = Ok image ->
  resized_image w image = Ok im ->
  fs_write_fault w temp_image_path = None ->
  agent_calls (snd (script w inp s)) = S (agent_calls s) /\
  analyze_clicked (snd (script w inp s)) = false /\
  In (match agent_run w query (Some (png_encode w im)) with
      | Ok content => st_markdown content
      | Raise e => st_error ("Analysis error: " +:+ str e)
      end) (effects (snd (script w inp s))).
Proof.
  intros Hc Hk Hr Hi Hu Hp Hres Hw.
  unfold script, sidebar, sidebar_notes, init_medical_agent.
  unfold bind, gets, modify, ret. rewrite Hk. cbn [negb]. rewrite Hr.
  cbn [GOOGLE_API_KEY emit]. rewrite Hk, Hi, Hu. cbn [negb].
  match goal with |- context [image_container w f ?t] => set (s0 := t) end.
  assert (Hs0 : analyze_clicked s0 = true /\ agent_calls s0 = agent_calls s).
  { split; [exact Hc | reflexivity]. }
  destruct Hs0 as [Hc0 Hn0]. clearbody s0.
  pose proof (upload_result_state_free w f s0 s) as Hind. rewrite Hp in Hind.
  destruct (image_container_resized w f s0 image im Hind Hres)
    as (s1 & E & Hc1 & Hn1).
  rewrite E.
  unfold analysis_container, bind, gets, modify.
  rewrite Hc1, Hc0. cbn [negb].
  destruct (analyze_calls_model w im s1 Hw) as [Hcalls Hin].
  destruct (analyze_succeeds w (Some im) s1) as [[] Hok].
  destruct (analyze w (Some im) s1) as [r s3]. cbn [fst snd] in *. subst r.
  cbn [snd set_analyze_clicked analyze_clicked effects].
  split; [|split; [reflexivity | exact Hin]].
  rewrite <- Hn0, <- Hn1. unfold agent_calls in *.
  change (effects (set_analyze_clicked false s3)) with (effects s3).
  exact Hcalls.
Qed.

Lemma X28_click_with_image_calls_model_witness :
  agent_calls (snd (script (model_down (raster_world wide_image))
                      (RunInput "" false None (Some (Upload "chest.png" [])))
                      clicked_state))
  = S (agent_calls clicked_state) /\
  analyze_clicked (snd (script (model_down (raster_world wide_image))
                          (RunInput "" false None (Some (Upload "chest.png" [])))
                          clicked_state)) = false /\
  In (match agent_run (model_down (raster_world wide_image)) query
              (Some (png_encode (model_down (raster_world wide_image))
                       (Image.Build "RGB" (500, 250) []))) with
      | Ok content => st_markdown content
      | Raise e => st_error ("Analysis error: " +:+ str e)
      end)
     (effects (snd (script (model_down (raster_world wide_image))
                      (RunInput "" false None (Some (Upload "chest.png" [])))
                      clicked_state))).
Proof.
  apply (X28_click_with_image_calls_model (model_down (raster_world wide_image))
           (RunInput "" false None (Some (Upload "chest.png" []))) clicked_state
           (Upload "chest.png" []) wide_image (Image.Build "RGB" (500, 250) []));
    reflexivity.
Defined.
